(** * FCS Field Monitor Assistant: category state machine and inference gateway

    A shallow embedding of the parts of the application that carry its
    state-machine and retry logic:

    - [types.ts]: the data model ([CategoryId], [CategoryState], [JobState]);
    - [App.tsx] (src/unnamed/part_001): [INITIAL_JOB_STATE] and
      [handleUpdateCategory];
    - [components/Dashboard.tsx]: the derived [allComplete] flag;
    - [services/aiService.ts] (src/unnamed/part_000): [callWithRetry],
      [handleAIError] and the four gateway operations;
    - [components/CategoryView.tsx]: [addNote], [handleDeleteNote],
      [handleFinalize], [handleAudioProcess], [handleTextSubmit] and the
      disabled condition of the Finalize button.

    Conventions.  A JavaScript string is modelled by the [string] of the
    bytes of its UTF-8 encoding (a well-formed string, so without lone
    surrogates); numbers that the code uses as integers are [Z].
    Asynchronous calls are modelled by explicit state passing over a [World]
    that carries the state of the inference backend and a log of the effects
    that happened, in order.  The handlers are first given as run to
    completion, each [await] followed at once by what comes after it; the
    section on sessions then splits every handler at its [await] and lets
    the pending calls settle in any order, between any other events. *)

From Stdlib Require Import ZArith List String Ascii Bool Lia.
From Stdlib Require Import DecimalString DecimalZ.
Import ListNotations.

Local Open Scope string_scope.
Local Open Scope Z_scope.
Local Set Warnings "-register-all".

(* ================================================================== *)
(** ** types.ts *)

Inductive CategoryId : Type :=
| project_details
| env_safety
| survey_inventory
| site_recording
| excavations
| finds
| condition_followup
| additional_notes.

Inductive CategoryStatus : Type :=
| not_started
| in_progress
| complete.

Definition CategoryId_eqb (a b : CategoryId) : bool :=
  match a, b with
  | project_details, project_details
  | env_safety, env_safety
  | survey_inventory, survey_inventory
  | site_recording, site_recording
  | excavations, excavations
  | finds, finds
  | condition_followup, condition_followup
  | additional_notes, additional_notes => true
  | _, _ => false
  end.

Definition CategoryStatus_eqb (a b : CategoryStatus) : bool :=
  match a, b with
  | not_started, not_started
  | in_progress, in_progress
  | complete, complete => true
  | _, _ => false
  end.

(** [interface Note { id: string; text: string; timestamp: number }] *)
Record Note : Type := mkNote {
  note_id : string;
  text : string;
  timestamp : Z
}.

(** The field [data: any] holds whatever [JSON.parse] produced for the
    backend's [updatedData]; it is modelled as a JSON value. *)
Inductive JSON : Type :=
| JNull
| JBool (b : bool)
| JNum (n : Z)
| JStr (s : string)
| JArr (items : list JSON)
| JObj (fields : list (string * JSON)).

(** The object literal [{}]. *)
Definition emptyData : JSON := JObj [].

Record CategoryState : Type := mkCategoryState {
  cat_id : CategoryId;
  title : string;
  status : CategoryStatus;
  notes : list Note;
  data : JSON;
  missingInfo : list string
}.

(** [Partial<CategoryState>]: every field may be absent. *)
Record PartialCategoryState : Type := mkPartial {
  p_id : option CategoryId;
  p_title : option string;
  p_status : option CategoryStatus;
  p_notes : option (list Note);
  p_data : option JSON;
  p_missingInfo : option (list string)
}.

Definition noUpdates : PartialCategoryState :=
  mkPartial None None None None None None.

(** [Record<CategoryId, CategoryState>]: a total map, one field per key, in
    the order of the object literal (the order [Object.values] returns). *)
Record Categories : Type := mkCategories {
  c_project_details : CategoryState;
  c_env_safety : CategoryState;
  c_survey_inventory : CategoryState;
  c_site_recording : CategoryState;
  c_excavations : CategoryState;
  c_finds : CategoryState;
  c_condition_followup : CategoryState;
  c_additional_notes : CategoryState
}.

Record JobState : Type := mkJobState {
  categories : Categories;
  isJobComplete : bool
}.

(** [cs[k]] *)
Definition get_category (k : CategoryId) (cs : Categories) : CategoryState :=
  match k with
  | project_details => c_project_details cs
  | env_safety => c_env_safety cs
  | survey_inventory => c_survey_inventory cs
  | site_recording => c_site_recording cs
  | excavations => c_excavations cs
  | finds => c_finds cs
  | condition_followup => c_condition_followup cs
  | additional_notes => c_additional_notes cs
  end.

(** [{ ...cs, [k]: c }] *)
Definition set_category (k : CategoryId) (c : CategoryState) (cs : Categories)
  : Categories :=
  match k with
  | project_details =>
      mkCategories c (c_env_safety cs) (c_survey_inventory cs)
        (c_site_recording cs) (c_excavations cs) (c_finds cs)
        (c_condition_followup cs) (c_additional_notes cs)
  | env_safety =>
      mkCategories (c_project_details cs) c (c_survey_inventory cs)
        (c_site_recording cs) (c_excavations cs) (c_finds cs)
        (c_condition_followup cs) (c_additional_notes cs)
  | survey_inventory =>
      mkCategories (c_project_details cs) (c_env_safety cs) c
        (c_site_recording cs) (c_excavations cs) (c_finds cs)
        (c_condition_followup cs) (c_additional_notes cs)
  | site_recording =>
      mkCategories (c_project_details cs) (c_env_safety cs)
        (c_survey_inventory cs) c (c_excavations cs) (c_finds cs)
        (c_condition_followup cs) (c_additional_notes cs)
  | excavations =>
      mkCategories (c_project_details cs) (c_env_safety cs)
        (c_survey_inventory cs) (c_site_recording cs) c (c_finds cs)
        (c_condition_followup cs) (c_additional_notes cs)
  | finds =>
      mkCategories (c_project_details cs) (c_env_safety cs)
        (c_survey_inventory cs) (c_site_recording cs) (c_excavations cs) c
        (c_condition_followup cs) (c_additional_notes cs)
  | condition_followup =>
      mkCategories (c_project_details cs) (c_env_safety cs)
        (c_survey_inventory cs) (c_site_recording cs) (c_excavations cs)
        (c_finds cs) c (c_additional_notes cs)
  | additional_notes =>
      mkCategories (c_project_details cs) (c_env_safety cs)
        (c_survey_inventory cs) (c_site_recording cs) (c_excavations cs)
        (c_finds cs) (c_condition_followup cs) c
  end.

(** [Object.values(cs)] *)
Definition Object_values (cs : Categories) : list CategoryState :=
  [ c_project_details cs; c_env_safety cs; c_survey_inventory cs;
    c_site_recording cs; c_excavations cs; c_finds cs;
    c_condition_followup cs; c_additional_notes cs ].

Definition allCategoryIds : list CategoryId :=
  [ project_details; env_safety; survey_inventory; site_recording;
    excavations; finds; condition_followup; additional_notes ].

(** Object spread [{ ...c, ...u }]: the keys present in [u] override. *)
Definition get_or {A : Type} (o : option A) (d : A) : A :=
  match o with
  | Some v => v
  | None => d
  end.

Definition spread (c : CategoryState) (u : PartialCategoryState)
  : CategoryState :=
  {| cat_id := get_or (p_id u) (cat_id c);
     title := get_or (p_title u) (title c);
     status := get_or (p_status u) (status c);
     notes := get_or (p_notes u) (notes c);
     data := get_or (p_data u) (data c);
     missingInfo := get_or (p_missingInfo u) (missingInfo c) |}.

(* ================================================================== *)
(** ** App.tsx *)

Definition initialCategory (k : CategoryId) (t : string) : CategoryState :=
  {| cat_id := k; title := t; status := not_started; notes := [];
     data := emptyData; missingInfo := [] |}.

Definition INITIAL_JOB_STATE : JobState :=
  {| isJobComplete := false;
     categories :=
       {| c_project_details := initialCategory project_details "Project & Location";
          c_env_safety := initialCategory env_safety "Env & Safety Conditions";
          c_survey_inventory := initialCategory survey_inventory "Survey & Inventory";
          c_site_recording := initialCategory site_recording "Site Recording";
          c_excavations := initialCategory excavations "Excavations";
          c_finds := initialCategory finds "Finds & Materials";
          c_condition_followup := initialCategory condition_followup "Condition & Follow-up";
          c_additional_notes := initialCategory additional_notes "Additional Notes" |} |}.

(** The state updater passed to [setJobState] by [handleUpdateCategory]:
    [{ ...prev, categories: { ...prev.categories, [id]: { ...prev.categories[id], ...updates } } }].
    The field [isJobComplete] is carried over by [...prev]. *)
Definition handleUpdateCategory (id : CategoryId) (updates : PartialCategoryState)
    (prev : JobState) : JobState :=
  let newCategoryState := spread (get_category id (categories prev)) updates in
  {| categories := set_category id newCategoryState (categories prev);
     isJobComplete := isJobComplete prev |}.

(* ================================================================== *)
(** ** components/Dashboard.tsx *)

Definition requiredCategories (jobState : JobState) : list CategoryState :=
  filter (fun c => negb (CategoryId_eqb (cat_id c) additional_notes))
         (Object_values (categories jobState)).

(** [requiredCategories.every(c => c.status === 'complete')]; the Finish
    button is [disabled={!allComplete}]. *)
Definition allComplete (jobState : JobState) : bool :=
  forallb (fun c => CategoryStatus_eqb (status c) complete)
          (requiredCategories jobState).

(* ================================================================== *)
(** ** String helpers used by services/aiService.ts and CategoryView.tsx *)

Definition lower_ascii (c : ascii) : ascii :=
  let n := nat_of_ascii c in
  if (65 <=? n)%nat && (n <=? 90)%nat then ascii_of_nat (n + 32) else c.

(** [s.toLowerCase()], as far as ASCII goes: the ASCII letters are
    lowered, and so are the two characters outside ASCII whose lower case
    has an ASCII letter, U+212A KELVIN SIGN (bytes E2 84 AA), which becomes
    [k], and U+0130 (bytes C4 B0), which becomes [i] followed by U+0307.
    Every other character outside ASCII is left as it is: JavaScript lowers
    it to a character that is outside ASCII as well, so that the result
    holds the same ASCII substrings either way. *)
Fixpoint toLowerCase (s : string) : string :=
  match s with
  | EmptyString => EmptyString
  | String c r =>
      match nat_of_ascii c, r with
      | 226%nat, String c1 (String c2 r2) =>
          if (nat_of_ascii c1 =? 132)%nat && (nat_of_ascii c2 =? 170)%nat
          then String "k" (toLowerCase r2)
          else String c (toLowerCase r)
      | 196%nat, String c1 r1 =>
          if (nat_of_ascii c1 =? 176)%nat
          then String "i" (String (ascii_of_nat 204) (String (ascii_of_nat 135)
                                                        (toLowerCase r1)))
          else String c (toLowerCase r)
      | _, _ => String (lower_ascii c) (toLowerCase r)
      end
  end.

(** [s.includes(needle)] *)
Fixpoint includes (s needle : string) : bool :=
  String.prefix needle s
  || match s with
     | EmptyString => false
     | String _ r => includes r needle
     end.

Definition is_space (c : ascii) : bool :=
  let n := nat_of_ascii c in
  ((9 <=? n)%nat && (n <=? 13)%nat) || (n =? 32)%nat.

(** The white space and line terminators of ECMAScript outside ASCII, by
    the bytes of their encoding: U+00A0 (0xC2 0xA0), U+1680 (E1 9A 80),
    U+2000 to U+200A, U+2028, U+2029 and U+202F (E2 80 80 to 8A, A8, A9 and
    AF), U+205F (E2 81 9F), U+3000 (E3 80 80) and U+FEFF (EF BB BF). *)
Definition is_space2 (b0 b1 : nat) : bool :=
  (b0 =? 194)%nat && (b1 =? 160)%nat.

Definition is_space3 (b0 b1 b2 : nat) : bool :=
  ((b0 =? 225)%nat && (b1 =? 154)%nat && (b2 =? 128)%nat)
  || ((b0 =? 226)%nat && (b1 =? 128)%nat
      && (((128 <=? b2)%nat && (b2 <=? 138)%nat)
          || (b2 =? 168)%nat || (b2 =? 169)%nat || (b2 =? 175)%nat))
  || ((b0 =? 226)%nat && (b1 =? 129)%nat && (b2 =? 159)%nat)
  || ((b0 =? 227)%nat && (b1 =? 128)%nat && (b2 =? 128)%nat)
  || ((b0 =? 239)%nat && (b1 =? 187)%nat && (b2 =? 191)%nat).

(** [!s.trim()]: the string is empty once white space and line terminators
    are stripped, that is, it consists of such characters only. *)
Fixpoint blank (s : string) : bool :=
  match s with
  | EmptyString => true
  | String c r =>
      if is_space c then blank r
      else
        match r with
        | String c1 r1 =>
            if is_space2 (nat_of_ascii c) (nat_of_ascii c1) then blank r1
            else
              match r1 with
              | String c2 r2 =>
                  is_space3 (nat_of_ascii c) (nat_of_ascii c1) (nat_of_ascii c2)
                  && blank r2
              | EmptyString => false
              end
        | EmptyString => false
        end
  end.

(** [a || b] on possibly-undefined strings: the empty string is falsy. *)
Definition truthy (o : option string) : bool :=
  match o with
  | Some s => negb (s =? "")%string
  | None => false
  end.

Definition or_string (o : option string) (d : string) : string :=
  match o with
  | Some s => if (s =? "")%string then d else s
  | None => d
  end.

(** [n.toString()] for an integer [n]: its decimal numeral. *)
Definition toString (n : Z) : string := NilEmpty.string_of_int (Z.to_int n).

(** [xs.join(sep)] *)
Fixpoint join (sep : string) (xs : list string) : string :=
  match xs with
  | [] => ""
  | [x] => x
  | x :: rest => x ++ sep ++ join sep rest
  end.

(* ================================================================== *)
(** ** services/aiService.ts *)

(** A value that is thrown, or with which a promise is rejected.  The code
    inspects four things of it: [error?.error?.message], [error?.error?.code],
    [error?.message] and, as a last resort, [JSON.stringify(error)]. *)
Record Thrown : Type := mkThrown {
  err_error_message : option string;
  err_error_code : option Z;
  err_message : option string;
  err_json : string
}.

(** [new Error(msg)] *)
Definition Error (msg : string) : Thrown :=
  {| err_error_message := None; err_error_code := None;
     err_message := Some msg; err_json := "{}" |}.

(** How an awaited promise settles. *)
Inductive Settled (T : Type) : Type :=
| Resolved (v : T)
| Rejected (e : Thrown).
Arguments Resolved {T} v.
Arguments Rejected {T} e.

(** [GenerateContentResponse], of which only [.text] is read. *)
Record GenerateContentResponse : Type := mkResponse {
  resp_text : option string
}.

Record NoteResult : Type := mkNoteResult {
  transcript : string;
  updatedData : JSON
}.

Record ValidationResult : Type := mkValidationResult {
  isComplete : bool;
  r_missingInfo : list string
}.

Record FieldReport : Type := mkFieldReport {
  project_meta : JSON;
  r_env_safety : JSON;
  r_survey_inventory : JSON;
  r_site_recording : JSON;
  r_excavations : JSON;
  r_finds : JSON;
  condition_assessment : JSON;
  daily_log : JSON
}.

(** What a call of [ai.models.generateContent] carries to the backend (the
    prompt wording is left out; the arguments interpolated into it are kept). *)
Inductive Request : Type :=
| ReqVoice (audioBase64 mimeType : string) (categoryId : CategoryId) (currentData : JSON)
| ReqText (text : string) (categoryId : CategoryId) (currentData : JSON)
| ReqValidate (categoryId : CategoryId) (data : JSON)
| ReqReport (cats : Categories) (additionalNotes : string).

(** The effects a run leaves behind, oldest first. *)
Inductive Effect : Type :=
| Call (req : Request)        (* one invocation of [ai.models.generateContent] *)
| Sleep (ms : Z)              (* [await new Promise(r => setTimeout(r, ms))] *)
| Alert (msg : string)        (* [alert(msg)] *)
| OnBack.                     (* [onBack()] *)

Definition is_call (e : Effect) : bool :=
  match e with Call _ => true | _ => false end.

Definition is_alert (e : Effect) : bool :=
  match e with Alert _ => true | _ => false end.

Definition sleeps (l : list Effect) : list Z :=
  flat_map (fun e => match e with Sleep ms => [ms] | _ => [] end) l.

Definition attempts (l : list Effect) : nat := List.length (filter is_call l).

Definition alerts (l : list Effect) : list string :=
  flat_map (fun e => match e with Alert m => [m] | _ => [] end) l.

(** [handleAIError]: never returns; the result is the [Error] it throws. *)
Definition handleAIError (error : Thrown) : Thrown :=
  let msg :=
    if truthy (err_error_message error) then or_string (err_error_message error) ""
    else if truthy (err_message error) then or_string (err_message error) ""
    else err_json error in
  let msg := toLowerCase msg in
  let isQuota :=
    includes msg "quota"
    || includes msg "429"
    || includes msg "resource_exhausted"
    || includes msg "resource has been exhausted"
    || match err_error_code error with Some c => c =? 429 | None => false end in
  if isQuota then
    Error "⚠️ System Busy (Quota Exceeded). We are retrying, but if this persists, please wait 60 seconds."
  else if includes msg "network" || includes msg "fetch" then
    Error "⚠️ Network Error. Please check your internet connection."
  else
    Error "⚠️ AI Processing Failed. Please try again.".

(** The classifier inside [callWithRetry]. *)
Definition isRateLimit (error : Thrown) : bool :=
  let msg := or_string (err_error_message error) (or_string (err_message error) "") in
  let msg := toLowerCase msg in
  includes msg "429" || includes msg "quota"
  || match err_error_code error with Some c => c =? 429 | None => false end.

(** [jobState.categories.additional_notes?.notes.map(n => n.text).join('\n') || "None"] *)
Definition additionalNotes (jobState : JobState) : string :=
  or_string
    (Some (join (String (ascii_of_nat 10) "")
             (map text (notes (c_additional_notes (categories jobState))))))
    "None".

Section WithBackend.

(** The inference backend is a black box with a state of its own: each
    request yields a settled promise and the next state. *)
Variable Backend : Type.
Variable generateContent :
  Request -> Backend -> Settled GenerateContentResponse * Backend.

(** [JSON.parse(response.text)] at the three result types the code casts
    it to: it either throws or yields a value of that shape. *)
Variable JSON_parse_note : string -> Settled NoteResult.
Variable JSON_parse_validation : string -> Settled ValidationResult.
Variable JSON_parse_report : string -> Settled FieldReport.

Record World : Type := mkWorld {
  backend : Backend;
  log : list Effect
}.

Definition emit (e : Effect) (w : World) : World :=
  {| backend := backend w; log := log w ++ [e] |}.

(** [() => ai.models.generateContent(req)] *)
Definition ai_models_generateContent (req : Request) (w : World)
  : Settled GenerateContentResponse * World :=
  let (r, s') := generateContent req (backend w) in
  (r, {| backend := s'; log := log w ++ [Call req] |}).

(** The [for] loop of [callWithRetry], entered at index [i] with
    [k = retries - i] iterations left. *)
Fixpoint callWithRetry_from {T : Type} (fn : World -> Settled T * World)
    (retries : nat) (k : nat) (i : nat) (w : World) : Settled T * World :=
  match k with
  | O => (Rejected (Error "Max retries exceeded"), w)
  | S k' =>
      match fn w with
      | (Resolved v, w1) => (Resolved v, w1)
      | (Rejected error, w1) =>
          if isRateLimit error && (Z.of_nat i <? Z.of_nat retries - 1) then
            let delay := 1000 * 2 ^ Z.of_nat i in
            callWithRetry_from fn retries k' (S i) (emit (Sleep delay) w1)
          else (Rejected error, w1)
      end
  end.

Definition callWithRetry {T : Type} (fn : World -> Settled T * World)
    (retries : nat) (w : World) : Settled T * World :=
  callWithRetry_from fn retries retries 0%nat w.

(** The body shared by the four exported operations:
    [try { const response = await callWithRetry(fn);
           if (!response.text) throw new Error(noText);
           return JSON.parse(response.text); }
     catch (error) { handleAIError(error); }] *)
Definition guarded {T : Type} (req : Request) (noText : string)
    (parse : string -> Settled T) (w : World) : Settled T * World :=
  match callWithRetry (ai_models_generateContent req) 3 w with
  | (Resolved response, w1) =>
      if truthy (resp_text response) then
        match parse (or_string (resp_text response) "") with
        | Resolved v => (Resolved v, w1)
        | Rejected error => (Rejected (handleAIError error), w1)
        end
      else (Rejected (handleAIError (Error noText)), w1)
  | (Rejected error, w1) => (Rejected (handleAIError error), w1)
  end.

Definition processVoiceNote (audioBase64 mimeType : string)
    (categoryId : CategoryId) (currentNotes : list string) (currentData : JSON)
  : World -> Settled NoteResult * World :=
  guarded (ReqVoice audioBase64 mimeType categoryId currentData)
          "No response from AI" JSON_parse_note.

Definition processTextNote (text : string)
    (categoryId : CategoryId) (currentNotes : list string) (currentData : JSON)
  : World -> Settled NoteResult * World :=
  guarded (ReqText text categoryId currentData)
          "No response from AI" JSON_parse_note.

Definition validateCategory (categoryId : CategoryId) (data : JSON)
  : World -> Settled ValidationResult * World :=
  guarded (ReqValidate categoryId data) "Validation failed" JSON_parse_validation.

Definition generateFinalJobReport (jobState : JobState)
  : World -> Settled FieldReport * World :=
  guarded (ReqReport (categories jobState) (additionalNotes jobState))
          "Report generation failed" JSON_parse_report.

(* ---------------------------------------------------------------- *)
(** *** components/CategoryView.tsx

    Each handler closes over the [category] prop of the render it belongs
    to; [onUpdate] is [handleUpdateCategory].  Handlers that await the
    gateway take the job state and the world and return both. *)

(** [Date.now()] is read twice, once for the id and once for the
    timestamp; the two readings are [now_id] and [now_ts]. *)
Definition addNote (category : CategoryState) (now_id now_ts : Z)
    (text : string) (updatedData : JSON) (jobState : JobState) : JobState :=
  let newNote :=
    {| note_id := toString now_id; text := text; timestamp := now_ts |} in
  handleUpdateCategory (cat_id category)
    {| p_id := None; p_title := None;
       p_notes := Some (notes category ++ [newNote])%list;
       p_data := Some updatedData;
       p_status := Some in_progress;
       p_missingInfo := None |}
    jobState.

(** [base64] is how [await blobToBase64(audioBlob)] settles. *)
Definition handleAudioProcess (category : CategoryState)
    (base64 : Settled string) (mimeType : string) (now_id now_ts : Z)
    (jobState : JobState) (w : World) : JobState * World :=
  match base64 with
  | Rejected e =>
      (jobState,
       emit (Alert (or_string (err_message e) "Error processing audio. Please try again.")) w)
  | Resolved base64 =>
      let currentNotesText := map text (notes category) in
      match processVoiceNote base64 mimeType (cat_id category)
              currentNotesText (data category) w with
      | (Resolved result, w1) =>
          if (transcript result =? "NO_SPEECH_DETECTED")%string then
            (jobState, emit (Alert "No speech detected. Please try again.") w1)
          else
            (addNote category now_id now_ts (transcript result)
               (updatedData result) jobState, w1)
      | (Rejected e, w1) =>
          (jobState,
           emit (Alert (or_string (err_message e) "Error processing audio. Please try again.")) w1)
      end
  end.

Definition handleTextSubmit (category : CategoryState) (textInput : string)
    (now_id now_ts : Z) (jobState : JobState) (w : World)
  : JobState * World :=
  if blank textInput then (jobState, w)
  else
    let currentNotesText := map text (notes category) in
    match processTextNote textInput (cat_id category)
            currentNotesText (data category) w with
    | (Resolved result, w1) =>
        (addNote category now_id now_ts (transcript result)
           (updatedData result) jobState, w1)
    | (Rejected e, w1) =>
        (jobState, emit (Alert (or_string (err_message e) "Error processing note.")) w1)
    end.

(** [confirmed] is the answer of [window.confirm("Delete this note?")]. *)
Definition handleDeleteNote (category : CategoryState) (noteId : string)
    (confirmed : bool) (jobState : JobState) : JobState :=
  if confirmed then
    let updatedNotes :=
      filter (fun note => negb (note_id note =? noteId)%string) (notes category) in
    handleUpdateCategory (cat_id category)
      {| (* ...category *)
         p_id := Some (cat_id category);
         p_title := Some (title category);
         p_data := Some (data category);
         p_missingInfo := Some (missingInfo category);
         (* notes: updatedNotes, status: ... *)
         p_notes := Some updatedNotes;
         p_status :=
           Some (if (List.length updatedNotes =? 0)%nat
                    && negb (CategoryStatus_eqb (status category) complete)
                 then not_started else status category) |}
      jobState
  else jobState.

Definition handleFinalize (category : CategoryState)
    (jobState : JobState) (w : World) : JobState * World :=
  match validateCategory (cat_id category) (data category) w with
  | (Resolved result, w1) =>
      if isComplete result then
        (handleUpdateCategory (cat_id category)
           {| p_id := None; p_title := None; p_notes := None; p_data := None;
              p_status := Some complete;
              p_missingInfo := Some [] |}
           jobState,
         emit OnBack w1)
      else
        (handleUpdateCategory (cat_id category)
           {| p_id := None; p_title := None; p_notes := None; p_data := None;
              p_status := None;
              p_missingInfo := Some (r_missingInfo result) |}
           jobState,
         w1)
  | (Rejected e, w1) =>
      (jobState, emit (Alert (or_string (err_message e) "Validation failed.")) w1)
  end.

Definition isAdditionalNotes (category : CategoryState) : bool :=
  CategoryId_eqb (cat_id category) additional_notes.

(** The [disabled] attribute of the Finalize button:
    [!isAdditionalNotes && category.notes.length === 0 || isProcessing || isValidating]. *)
Definition finalizeDisabled (category : CategoryState)
    (isProcessing isValidating : bool) : bool :=
  (negb (isAdditionalNotes category) && (List.length (notes category) =? 0)%nat)
  || isProcessing || isValidating.

(** A click on the Finalize button: a disabled button fires no handler. *)
Definition clickFinalize (category : CategoryState)
    (isProcessing isValidating : bool)
    (jobState : JobState) (w : World) : JobState * World :=
  if finalizeDisabled category isProcessing isValidating then (jobState, w)
  else handleFinalize category jobState w.

(* ---------------------------------------------------------------- *)
(** *** The category view mounted in the application

    [App] renders [CategoryView] with
    [category = jobState.categories[activeCategory]].  A user action on the
    view of category [k] runs the handler of the current render; between
    handlers the flags [isProcessing] and [isValidating] are down. *)

Inductive Action : Type :=
| RecordVoice (k : CategoryId) (base64 : Settled string) (mimeType : string)
              (now_id now_ts : Z)
| SubmitText (k : CategoryId) (textInput : string) (now_id now_ts : Z)
| DeleteNote (k : CategoryId) (noteId : string) (confirmed : bool)
| ClickFinalize (k : CategoryId).

Definition dispatch (a : Action) (st : JobState * World) : JobState * World :=
  let (jobState, w) := st in
  match a with
  | RecordVoice k base64 mimeType now_id now_ts =>
      handleAudioProcess (get_category k (categories jobState))
        base64 mimeType now_id now_ts jobState w
  | SubmitText k textInput now_id now_ts =>
      handleTextSubmit (get_category k (categories jobState))
        textInput now_id now_ts jobState w
  | DeleteNote k noteId confirmed =>
      (handleDeleteNote (get_category k (categories jobState))
         noteId confirmed jobState, w)
  | ClickFinalize k =>
      clickFinalize (get_category k (categories jobState)) false false jobState w
  end.

Definition run (actions : list Action) (st : JobState * World)
  : JobState * World :=
  fold_left (fun st a => dispatch a st) actions st.

End WithBackend.

Arguments mkWorld {Backend} _ _.
Arguments backend {Backend} _.
Arguments log {Backend} _.
Arguments emit {Backend} _ _.

Arguments callWithRetry_from {Backend T} fn retries k i w.
Arguments callWithRetry {Backend T} fn retries w.
Arguments ai_models_generateContent {Backend} generateContent req w.
Arguments guarded {Backend} generateContent {T} req noText parse w.
Arguments processVoiceNote {Backend} generateContent JSON_parse_note
  audioBase64 mimeType categoryId currentNotes currentData _.
Arguments processTextNote {Backend} generateContent JSON_parse_note
  text categoryId currentNotes currentData _.
Arguments validateCategory {Backend} generateContent JSON_parse_validation
  categoryId data _.
Arguments generateFinalJobReport {Backend} generateContent JSON_parse_report
  jobState _.
Arguments handleAudioProcess {Backend} generateContent JSON_parse_note
  category base64 mimeType now_id now_ts jobState w.
Arguments handleTextSubmit {Backend} generateContent JSON_parse_note
  category textInput now_id now_ts jobState w.
Arguments handleFinalize {Backend} generateContent JSON_parse_validation
  category jobState w.
Arguments clickFinalize {Backend} generateContent JSON_parse_validation
  category isProcessing isValidating jobState w.
Arguments dispatch {Backend} generateContent JSON_parse_note
  JSON_parse_validation a st.
Arguments run {Backend} generateContent JSON_parse_note
  JSON_parse_validation actions st.

(* ================================================================== *)
(** ** utils/audioUtils.ts *)

(** [s.indexOf(c)] for a needle of one character: the index of its first
    occurrence counted from [i], or [-1]. *)
Fixpoint indexOf_from (s : string) (c : ascii) (i : Z) : Z :=
  match s with
  | EmptyString => -1
  | String a r => if Ascii.eqb a c then i else indexOf_from r c (i + 1)
  end.

Definition indexOf (s : string) (c : ascii) : Z := indexOf_from s c 0.

(** [s.substring(n)] for [0 <= n]. *)
Definition substring_from (s : string) (n : Z) : string :=
  String.substring (Z.to_nat n) (String.length s - Z.to_nat n) s.

(** [blobToBase64]: [readAsDataURL] is how the [FileReader] ends, with the
    data URL in [reader.result] or with the error event the promise is
    rejected with. *)
Definition blobToBase64 (readAsDataURL : Settled string) : Settled string :=
  match readAsDataURL with
  | Rejected e => Rejected e
  | Resolved base64String =>
      let commaIndex := indexOf base64String "," in
      if negb (commaIndex =? -1) then
        Resolved (substring_from base64String (commaIndex + 1))
      else Resolved base64String
  end.

(* ================================================================== *)
(** ** services/aiService.ts: the extraction schemas *)

(** The schema objects built with [Type.OBJECT], [Type.STRING], ... *)
Inductive Schema : Type :=
| TypeSTRING
| TypeBOOLEAN
| TypeARRAY (items : Schema)
| TypeOBJECT (properties : list (string * Schema)).

(** [getSchemaForCategory]; the [default] case of the [switch] cannot be
    reached from a [CategoryId]. *)
Definition getSchemaForCategory (categoryId : CategoryId) : Schema :=
  match categoryId with
  | project_details =>
      TypeOBJECT [ ("project_name", TypeSTRING); ("project_number", TypeSTRING);
                   ("date", TypeSTRING); ("monitor_name", TypeSTRING);
                   ("location", TypeSTRING) ]
  | env_safety =>
      TypeOBJECT [ ("weather", TypeSTRING); ("temperature", TypeSTRING);
                   ("visibility", TypeSTRING);
                   ("safety_hazards", TypeARRAY TypeSTRING);
                   ("ppe_used", TypeSTRING); ("ground_disturbances", TypeSTRING) ]
  | survey_inventory =>
      TypeOBJECT [ ("survey_method", TypeSTRING); ("area_surveyed", TypeSTRING);
                   ("items_observed", TypeARRAY TypeSTRING);
                   ("nothing_found", TypeBOOLEAN) ]
  | site_recording =>
      TypeOBJECT [ ("features_observed", TypeSTRING); ("dimensions", TypeSTRING);
                   ("colors_materials", TypeSTRING); ("association", TypeSTRING) ]
  | excavations =>
      TypeOBJECT [ ("excavation_method", TypeSTRING); ("depth", TypeSTRING);
                   ("soil_type", TypeSTRING); ("stratigraphy", TypeSTRING) ]
  | finds =>
      TypeOBJECT [ ("item_type", TypeSTRING); ("material", TypeSTRING);
                   ("quantity", TypeSTRING); ("description", TypeSTRING) ]
  | condition_followup =>
      TypeOBJECT [ ("site_condition", TypeSTRING); ("disturbances", TypeSTRING);
                   ("actions_taken", TypeSTRING); ("recommendations", TypeSTRING) ]
  | additional_notes =>
      TypeOBJECT [ ("notes_summary", TypeSTRING);
                   ("context_points", TypeARRAY TypeSTRING) ]
  end.

Definition propertyNames (s : Schema) : list string :=
  match s with
  | TypeOBJECT properties => map fst properties
  | _ => []
  end.

(** A schema without nested objects: a scalar or an array of scalars. *)
Definition flatField (s : Schema) : bool :=
  match s with
  | TypeSTRING | TypeBOOLEAN => true
  | TypeARRAY TypeSTRING | TypeARRAY TypeBOOLEAN => true
  | _ => false
  end.

Definition disjointb (l1 l2 : list string) : bool :=
  forallb (fun f => negb (existsb (String.eqb f) l2)) l1.

(* ================================================================== *)
(** ** The effects of one gateway call *)

Definition is_back (e : Effect) : bool :=
  match e with OnBack => true | _ => false end.

Definition backs (l : list Effect) : nat := List.length (filter is_back l).

(** What [n] attempts on request [req] leave in the log when the first
    of them has loop index [i]: a call, and before every further call a
    sleep of [1000 * 2 ^ index] milliseconds. *)
Fixpoint backoff_trace (req : Request) (i : nat) (n : nat) : list Effect :=
  match n with
  | O => []
  | S O => [Call req]
  | S n' => Call req :: Sleep (1000 * 2 ^ Z.of_nat i) :: backoff_trace req (S i) n'
  end.

(** The three messages [handleAIError] can throw. *)
Definition userMessages : list string :=
  [ "⚠️ System Busy (Quota Exceeded). We are retrying, but if this persists, please wait 60 seconds.";
    "⚠️ Network Error. Please check your internet connection.";
    "⚠️ AI Processing Failed. Please try again." ].

(* ================================================================== *)
(** ** App.tsx: the application state and what is on screen *)

Inductive AppView : Type :=
| view_dashboard
| view_category
| view_report.

(** The five [useState] cells of [App]. *)
Record AppState : Type := mkApp {
  app_view : AppView;
  app_jobState : JobState;
  app_activeCategory : option CategoryId;
  app_finalReport : option FieldReport;
  app_isGeneratingReport : bool
}.

Definition initialApp : AppState :=
  {| app_view := view_dashboard;
     app_jobState := INITIAL_JOB_STATE;
     app_activeCategory := None;
     app_finalReport := None;
     app_isGeneratingReport := false |}.

Definition handleSelectCategory (id : CategoryId) (st : AppState) : AppState :=
  {| app_view := view_category;
     app_jobState := app_jobState st;
     app_activeCategory := Some id;
     app_finalReport := app_finalReport st;
     app_isGeneratingReport := app_isGeneratingReport st |}.

Definition handleReset (st : AppState) : AppState :=
  {| app_view := view_dashboard;
     app_jobState := INITIAL_JOB_STATE;
     app_activeCategory := app_activeCategory st;
     app_finalReport := None;
     app_isGeneratingReport := app_isGeneratingReport st |}.

(** [onBack={() => setView('dashboard')}] *)
Definition backToDashboard (st : AppState) : AppState :=
  {| app_view := view_dashboard;
     app_jobState := app_jobState st;
     app_activeCategory := app_activeCategory st;
     app_finalReport := app_finalReport st;
     app_isGeneratingReport := app_isGeneratingReport st |}.

(** The component that [App] renders under [<main>]. *)
Inductive Screen : Type :=
| ScreenDashboard (jobState : JobState)
| ScreenCategory (category : CategoryState)
| ScreenReport (report : FieldReport)
| ScreenBlank.

Definition render (st : AppState) : Screen :=
  match app_view st with
  | view_dashboard => ScreenDashboard (app_jobState st)
  | view_category =>
      match app_activeCategory st with
      | Some activeCategory =>
          ScreenCategory (get_category activeCategory (categories (app_jobState st)))
      | None => ScreenBlank
      end
  | view_report =>
      match app_finalReport st with
      | Some finalReport => ScreenReport finalReport
      | None => ScreenBlank
      end
  end.

(** What the user can do; a control that is not on screen cannot be used. *)
Inductive UserEvent : Type :=
| EvCard (k : CategoryId)       (* the dashboard card of entry [k] *)
| EvFinish                      (* FINALIZE JOB & REPORT *)
| EvBack                        (* Back, in the category view *)
| EvVoice (readAsDataURL : Settled string) (mimeType : string) (now_id now_ts : Z)
| EvText (textInput : string) (now_id now_ts : Z)
| EvDelete (noteId : string) (confirmed : bool)
| EvFinalize
| EvNewSession.                 (* New Session, in the report view *)

Section WithApp.

Variable Backend : Type.
Variable generateContent :
  Request -> Backend -> Settled GenerateContentResponse * Backend.
Variable JSON_parse_note : string -> Settled NoteResult.
Variable JSON_parse_validation : string -> Settled ValidationResult.
Variable JSON_parse_report : string -> Settled FieldReport.

(** [setIsGeneratingReport(true)], the first statement of [handleFinishJob]. *)
Definition beginFinishJob (st : AppState) : AppState :=
  {| app_view := app_view st;
     app_jobState := app_jobState st;
     app_activeCategory := app_activeCategory st;
     app_finalReport := app_finalReport st;
     app_isGeneratingReport := true |}.

(** What [handleFinishJob] does once [generateFinalJobReport] has settled
    with [r], on the state [st] of that moment: [setFinalReport(report);
    setView('report')] or the alert of the [catch], and in both cases the
    [setIsGeneratingReport(false)] of the [finally]. *)
Definition settleFinishJob (r : Settled FieldReport) (st : AppState)
    (w : World Backend) : AppState * World Backend :=
  match r with
  | Resolved report =>
      ({| app_view := view_report;
          app_jobState := app_jobState st;
          app_activeCategory := app_activeCategory st;
          app_finalReport := Some report;
          app_isGeneratingReport := false |}, w)
  | Rejected e =>
      ({| app_view := app_view st;
          app_jobState := app_jobState st;
          app_activeCategory := app_activeCategory st;
          app_finalReport := app_finalReport st;
          app_isGeneratingReport := false |},
       emit (Alert (or_string (err_message e)
                      "Failed to generate report. Please try again.")) w)
  end.

(** [handleFinishJob], run to completion: it raises the flag, awaits the
    report for the [jobState] of its render, and settles. *)
Definition handleFinishJob (st : AppState) (w : World Backend)
  : AppState * World Backend :=
  let (r, w1) :=
    generateFinalJobReport generateContent JSON_parse_report (app_jobState st) w in
  settleFinishJob r (beginFinishJob st) w1.

(** The Finish button of the dashboard is [disabled={!allComplete}]. *)
Definition clickFinish (st : AppState) (w : World Backend)
  : AppState * World Backend :=
  if negb (allComplete (app_jobState st)) then (st, w) else handleFinishJob st w.

(** A card of the dashboard: [onClick={() => onSelectCategory(cat.id)}]. *)
Definition clickCard (k : CategoryId) (st : AppState) : AppState :=
  handleSelectCategory
    (cat_id (get_category k (categories (app_jobState st)))) st.

Definition withJobState (jobState : JobState) (st : AppState) : AppState :=
  {| app_view := app_view st;
     app_jobState := jobState;
     app_activeCategory := app_activeCategory st;
     app_finalReport := app_finalReport st;
     app_isGeneratingReport := app_isGeneratingReport st |}.

(** One user event on the screen that is shown, in the schedule in which
    the call that the event starts settles before anything else happens.
    The category view gets [onUpdate = handleUpdateCategory] and
    [onBack = backToDashboard]; a call of [onBack] by a handler shows as one
    more [OnBack] in the log.  (The other schedules are those of
    [sessionStep] below.) *)
Definition appStep (ev : UserEvent) (s : AppState * World Backend)
  : AppState * World Backend :=
  let (st, w) := s in
  match render st, ev with
  | ScreenDashboard _, EvCard k => (clickCard k st, w)
  | ScreenDashboard _, EvFinish => clickFinish st w
  | ScreenCategory _, EvBack => (backToDashboard st, w)
  | ScreenCategory category, EvVoice readAsDataURL mimeType now_id now_ts =>
      let (jobState, w1) :=
        handleAudioProcess generateContent JSON_parse_note category
          (blobToBase64 readAsDataURL) mimeType now_id now_ts (app_jobState st) w in
      (withJobState jobState st, w1)
  | ScreenCategory category, EvText textInput now_id now_ts =>
      let (jobState, w1) :=
        handleTextSubmit generateContent JSON_parse_note category
          textInput now_id now_ts (app_jobState st) w in
      (withJobState jobState st, w1)
  | ScreenCategory category, EvDelete noteId confirmed =>
      (withJobState (handleDeleteNote category noteId confirmed (app_jobState st)) st, w)
  | ScreenCategory category, EvFinalize =>
      let (jobState, w1) :=
        clickFinalize generateContent JSON_parse_validation category
          false false (app_jobState st) w in
      let st1 := withJobState jobState st in
      (if (backs (log w) <? backs (log w1))%nat then backToDashboard st1 else st1, w1)
  | ScreenReport _, EvNewSession => (handleReset st, w)
  | _, _ => (st, w)
  end.

Definition appRun (events : list UserEvent) (s : AppState * World Backend)
  : AppState * World Backend :=
  fold_left (fun s ev => appStep ev s) events s.

End WithApp.

Arguments settleFinishJob {Backend} r st w.
Arguments handleFinishJob {Backend} generateContent JSON_parse_report st w.
Arguments clickFinish {Backend} generateContent JSON_parse_report st w.
Arguments appStep {Backend} generateContent JSON_parse_note
  JSON_parse_validation JSON_parse_report ev s.
Arguments appRun {Backend} generateContent JSON_parse_note
  JSON_parse_validation JSON_parse_report events s.

(* ================================================================== *)
(** ** Predicates used in the statements *)

(** Every entry of the map carries its own key in its [id] field. *)
Definition keys_consistent (jobState : JobState) : Prop :=
  forall k, cat_id (get_category k (categories jobState)) = k.

(** The two halves of the category invariant of the data model. *)
Definition not_started_has_no_notes (c : CategoryState) : Prop :=
  status c = not_started -> notes c = [].


Definition note_ids (c : CategoryState) : list string := map note_id (notes c).

(** The partial updates [handleFinalize] sends. *)
Definition markComplete : PartialCategoryState :=
  {| p_id := None; p_title := None; p_notes := None; p_data := None;
     p_status := Some complete; p_missingInfo := Some [] |}.

Definition markMissing (m : list string) : PartialCategoryState :=
  {| p_id := None; p_title := None; p_notes := None; p_data := None;
     p_status := None; p_missingInfo := Some m |}.

(** What every run of the view maintains. *)
Definition notes_invariant (jobState : JobState) : Prop :=
  keys_consistent jobState
  /\ forall k, not_started_has_no_notes (get_category k (categories jobState)).

(** Whether the message [callWithRetry] reads off an error,
    [error?.error?.message || error?.message || ""], lowered, holds [needle]. *)
Definition mentions (e : Thrown) (needle : string) : bool :=
  includes
    (toLowerCase (or_string (err_error_message e) (or_string (err_message e) "")))
    needle.

(** A rate-limit error in the sense of [callWithRetry]: an error with code
    429, or whose message mentions 429 or quota. *)
Definition RateLimitError (e : Thrown) : Prop :=
  err_error_code e = Some 429
  \/ mentions e "429" = true
  \/ mentions e "quota" = true.

(** An error that says that a resource is exhausted without code 429 and
    without mentioning 429 or quota. *)
Definition ResourceExhausted (e : Thrown) : Prop :=
  ~ RateLimitError e
  /\ (mentions e "resource_exhausted" = true
      \/ mentions e "resource has been exhausted" = true).

Definition systemBusy : string :=
  "⚠️ System Busy (Quota Exceeded). We are retrying, but if this persists, please wait 60 seconds.".

(** The retry law of one gateway operation [op] that sends request [req],
    for the errors that are [RateLimitError]s: two such failures followed by
    a usable response succeed on the third attempt after sleeping 1000 ms
    and 2000 ms; no run makes more than three attempts; an error that is not
    a [RateLimitError] ends the run at the attempt where it occurs; and any
    error at the third attempt ends the run. *)
Definition RetryLaw {Backend T : Type}
    (generateContent : Request -> Backend -> Settled GenerateContentResponse * Backend)
    (req : Request) (parse : string -> Settled T)
    (op : World Backend -> Settled T * World Backend) : Prop :=
  (forall w e1 s1 e2 s2 response s3 txt v,
      generateContent req (backend w) = (Rejected e1, s1) ->
      RateLimitError e1 ->
      generateContent req s1 = (Rejected e2, s2) ->
      RateLimitError e2 ->
      generateContent req s2 = (Resolved response, s3) ->
      resp_text response = Some txt -> txt <> "" ->
      parse txt = Resolved v ->
      op w = (Resolved v,
              mkWorld s3 (log w ++ [Call req; Sleep 1000; Call req; Sleep 2000; Call req])))
  /\ (forall w, (attempts (log (snd (op w))) <= attempts (log w) + 3)%nat)
  /\ (forall w e s1,
         generateContent req (backend w) = (Rejected e, s1) ->
         ~ RateLimitError e ->
         op w = (Rejected (handleAIError e), mkWorld s1 (log w ++ [Call req])))
  /\ (forall w e1 s1 e s2,
         generateContent req (backend w) = (Rejected e1, s1) ->
         RateLimitError e1 ->
         generateContent req s1 = (Rejected e, s2) ->
         ~ RateLimitError e ->
         op w = (Rejected (handleAIError e),
                 mkWorld s2 (log w ++ [Call req; Sleep 1000; Call req])))
  /\ (forall w e1 s1 e2 s2 e s3,
         generateContent req (backend w) = (Rejected e1, s1) ->
         RateLimitError e1 ->
         generateContent req s1 = (Rejected e2, s2) ->
         RateLimitError e2 ->
         generateContent req s2 = (Rejected e, s3) ->
         op w = (Rejected (handleAIError e),
                 mkWorld s3 (log w ++ [Call req; Sleep 1000; Call req; Sleep 2000;
                                       Call req]))).

(** In progress means that there is a note. *)
Definition in_progress_has_notes (c : CategoryState) : Prop :=
  status c = in_progress -> notes c <> [].

(** The category whose view a user action belongs to. *)
Definition actionCategory (a : Action) : CategoryId :=
  match a with
  | RecordVoice k _ _ _ _ => k
  | SubmitText k _ _ _ => k
  | DeleteNote k _ _ => k
  | ClickFinalize k => k
  end.

(** What every run of the category views maintains besides
    [notes_invariant]. *)
Definition identity_invariant (jobState : JobState) : Prop :=
  keys_consistent jobState
  /\ (forall k, title (get_category k (categories jobState))
               = title (get_category k (categories INITIAL_JOB_STATE)))
  /\ isJobComplete jobState = false.

(** [n] attempts in a row on request [req], each rejected with a
    rate-limit error, take the backend from [s] to [s']. *)
Fixpoint RateLimitedAttempts {Backend : Type}
    (generateContent : Request -> Backend -> Settled GenerateContentResponse * Backend)
    (req : Request) (n : nat) (s s' : Backend) : Prop :=
  match n with
  | O => s = s'
  | S n' =>
      exists e s1,
        generateContent req s = (Rejected e, s1)
        /\ RateLimitError e
        /\ RateLimitedAttempts generateContent req n' s1 s'
  end.

(** What a resolved gateway operation rests on: from the backend of [w],
    at most two attempts on the request [req] were rejected with a
    rate-limit error, and the next one was resolved by the backend with a
    reply whose text is not empty and parses to [v]; that call leaves the
    backend as the operation leaves it; and the operation added to the log
    of [w] those attempts and the sleeps between them, nothing else. *)
Definition ParsedReply {Backend T : Type}
    (generateContent : Request -> Backend -> Settled GenerateContentResponse * Backend)
    (req : Request) (parse : string -> Settled T)
    (w w' : World Backend) (v : T) : Prop :=
  exists n s0 response txt,
    (n <= 2)%nat
    /\ RateLimitedAttempts generateContent req n (backend w) s0
    /\ generateContent req s0 = (Resolved response, backend w')
    /\ log w' = (log w ++ backoff_trace req 0 (S n))%list
    /\ resp_text response = Some txt
    /\ txt <> ""
    /\ parse txt = Resolved v.

(* ================================================================== *)
(** ** Sessions: the handlers split at their [await]

    A handler that awaits the gateway runs in two halves.  The first half
    runs when the user acts: it closes over the props of the render it
    belongs to, raises a flag and sends the request.  The second half runs
    when the promise settles, on the state of that moment: [setJobState]
    is given an updater function and the other setters a value, so they
    apply to whatever the state then is, also when the view that started
    the call is no longer on screen.  In between any other event may
    happen.  The gateway operation itself, its retries included, is run
    against the backend when the request is sent, and its outcome waits
    among the calls in flight until it settles: the attempts of two
    operations are not interleaved at the backend. *)

Section WithSession.

Variable Backend : Type.
Variable generateContent :
  Request -> Backend -> Settled GenerateContentResponse * Backend.
Variable JSON_parse_note : string -> Settled NoteResult.
Variable JSON_parse_validation : string -> Settled ValidationResult.
Variable JSON_parse_report : string -> Settled FieldReport.

(** The second half of [handleAudioProcess] ([voice = true]) and of
    [handleTextSubmit]: what follows the [await], with the clock read by
    [addNote] at that moment. *)
Definition settleNote (voice : bool) (category : CategoryState)
    (now_id now_ts : Z) (r : Settled NoteResult)
    (jobState : JobState) (w : World Backend) : JobState * World Backend :=
  match r with
  | Resolved result =>
      if voice && (transcript result =? "NO_SPEECH_DETECTED")%string then
        (jobState, emit (Alert "No speech detected. Please try again.") w)
      else
        (addNote category now_id now_ts (transcript result) (updatedData result)
           jobState, w)
  | Rejected e =>
      (jobState,
       emit (Alert (or_string (err_message e)
                      (if voice then "Error processing audio. Please try again."
                       else "Error processing note."))) w)
  end.

(** The second half of [handleFinalize]. *)
Definition settleValidation (category : CategoryState)
    (r : Settled ValidationResult)
    (jobState : JobState) (w : World Backend) : JobState * World Backend :=
  match r with
  | Resolved result =>
      if isComplete result then
        (handleUpdateCategory (cat_id category) markComplete jobState, emit OnBack w)
      else
        (handleUpdateCategory (cat_id category)
           (markMissing (r_missingInfo result)) jobState, w)
  | Rejected e =>
      (jobState, emit (Alert (or_string (err_message e) "Validation failed.")) w)
  end.

(** A call that has been sent and has not settled yet, with the closure of
    the handler that awaits it: the [category] prop of its render, and the
    instance of the category view whose flags it will lower. *)
Inductive Pending : Type :=
| PendingNote (voice : bool) (category : CategoryState) (instance : nat)
              (r : Settled NoteResult)
| PendingValidation (category : CategoryState) (instance : nat)
                    (r : Settled ValidationResult)
| PendingReport (r : Settled FieldReport).

(** The state of a session: the state of [App], the two flags of the
    mounted [CategoryView] ([isProcessing], [isValidating]; a view that is
    mounted starts with both down), the number of views mounted so far, and
    the calls in flight. *)
Record Session : Type := mkSession {
  s_app : AppState;
  s_isProcessing : bool;
  s_isValidating : bool;
  s_instance : nat;
  s_pending : list Pending
}.

Definition initialSession : Session :=
  {| s_app := initialApp; s_isProcessing := false; s_isValidating := false;
     s_instance := 0%nat; s_pending := [] |}.

Inductive SessionEvent : Type :=
| User (ev : UserEvent)
    (* a user event; the clock readings of [EvVoice] and [EvText] are not
       used here, the clock is read when the call settles *)
| Settle (n : nat) (now_id now_ts : Z).
    (* the [n]-th call in flight settles; [addNote] reads the clock *)

Definition remove_nth {A : Type} (n : nat) (l : list A) : list A :=
  (firstn n l ++ skipn (S n) l)%list.

Definition withApp (app : AppState) (s : Session) : Session :=
  {| s_app := app; s_isProcessing := s_isProcessing s;
     s_isValidating := s_isValidating s; s_instance := s_instance s;
     s_pending := s_pending s |}.

(** The first half of a handler: the flag it raises and the call it leaves
    in flight. *)
Definition launchNote (p : Pending) (s : Session) : Session :=
  {| s_app := s_app s; s_isProcessing := true;
     s_isValidating := s_isValidating s; s_instance := s_instance s;
     s_pending := s_pending s ++ [p] |}.

Definition launchValidation (p : Pending) (s : Session) : Session :=
  {| s_app := s_app s; s_isProcessing := s_isProcessing s;
     s_isValidating := true; s_instance := s_instance s;
     s_pending := s_pending s ++ [p] |}.

Definition launchReport (p : Pending) (s : Session) : Session :=
  {| s_app := beginFinishJob (s_app s); s_isProcessing := s_isProcessing s;
     s_isValidating := s_isValidating s; s_instance := s_instance s;
     s_pending := s_pending s ++ [p] |}.

(** [handleSelectCategory] mounts a new category view. *)
Definition mountCategory (k : CategoryId) (s : Session) : Session :=
  {| s_app := clickCard k (s_app s); s_isProcessing := false;
     s_isValidating := false; s_instance := S (s_instance s);
     s_pending := s_pending s |}.

(** One event of a session.  A user event is taken by the control of the
    screen that is shown, unless its [disabled] attribute is set: the record
    button is [disabled={isProcessing}], the Finalize button as in
    [finalizeDisabled], the Finish button as in [clickFinish]; Back, the
    delete buttons and Save Note have no such attribute.  (The overlay shown
    while a report is generated is not taken to block the page.) *)
Definition sessionStep (e : SessionEvent) (sw : Session * World Backend)
  : Session * World Backend :=
  let (s, w) := sw in
  let app := s_app s in
  match e with
  | Settle n now_id now_ts =>
      match nth_error (s_pending s) n with
      | None => (s, w)
      | Some (PendingNote voice category instance r) =>
          let (jobState, w1) :=
            settleNote voice category now_id now_ts r (app_jobState app) w in
          ({| s_app := withJobState jobState app;
              s_isProcessing :=
                if (instance =? s_instance s)%nat then false else s_isProcessing s;
              s_isValidating := s_isValidating s;
              s_instance := s_instance s;
              s_pending := remove_nth n (s_pending s) |}, w1)
      | Some (PendingValidation category instance r) =>
          let (jobState, w1) :=
            settleValidation category r (app_jobState app) w in
          let app1 := withJobState jobState app in
          ({| s_app := if (backs (log w) <? backs (log w1))%nat
                       then backToDashboard app1 else app1;
              s_isProcessing := s_isProcessing s;
              s_isValidating :=
                if (instance =? s_instance s)%nat then false else s_isValidating s;
              s_instance := s_instance s;
              s_pending := remove_nth n (s_pending s) |}, w1)
      | Some (PendingReport r) =>
          let (app1, w1) := settleFinishJob r app w in
          ({| s_app := app1;
              s_isProcessing := s_isProcessing s;
              s_isValidating := s_isValidating s;
              s_instance := s_instance s;
              s_pending := remove_nth n (s_pending s) |}, w1)
      end
  | User ev =>
      match render app, ev with
      | ScreenDashboard _, EvCard k => (mountCategory k s, w)
      | ScreenDashboard _, EvFinish =>
          if negb (allComplete (app_jobState app)) then (s, w)
          else
            let (r, w1) :=
              generateFinalJobReport generateContent JSON_parse_report
                (app_jobState app) w in
            (launchReport (PendingReport r) s, w1)
      | ScreenCategory _, EvBack => (withApp (backToDashboard app) s, w)
      | ScreenCategory category, EvVoice readAsDataURL mimeType _ _ =>
          if s_isProcessing s then (s, w)
          else
            match blobToBase64 readAsDataURL with
            | Rejected e =>
                (launchNote (PendingNote true category (s_instance s) (Rejected e)) s, w)
            | Resolved base64 =>
                let (r, w1) :=
                  processVoiceNote generateContent JSON_parse_note base64 mimeType
                    (cat_id category) (map text (notes category)) (data category) w in
                (launchNote (PendingNote true category (s_instance s) r) s, w1)
            end
      | ScreenCategory category, EvText textInput _ _ =>
          if blank textInput then (s, w)
          else
            let (r, w1) :=
              processTextNote generateContent JSON_parse_note textInput
                (cat_id category) (map text (notes category)) (data category) w in
            (launchNote (PendingNote false category (s_instance s) r) s, w1)
      | ScreenCategory category, EvDelete noteId confirmed =>
          (withApp (withJobState
                      (handleDeleteNote category noteId confirmed (app_jobState app))
                      app) s, w)
      | ScreenCategory category, EvFinalize =>
          if finalizeDisabled category (s_isProcessing s) (s_isValidating s)
          then (s, w)
          else
            let (r, w1) :=
              validateCategory generateContent JSON_parse_validation
                (cat_id category) (data category) w in
            (launchValidation (PendingValidation category (s_instance s) r) s, w1)
      | ScreenReport _, EvNewSession => (withApp (handleReset app) s, w)
      | _, _ => (s, w)
      end
  end.

Definition sessionRun (events : list SessionEvent) (sw : Session * World Backend)
  : Session * World Backend :=
  fold_left (fun sw e => sessionStep e sw) events sw.

End WithSession.

Arguments settleNote {Backend} voice category now_id now_ts r jobState w.
Arguments settleValidation {Backend} category r jobState w.
Arguments sessionStep {Backend} generateContent JSON_parse_note
  JSON_parse_validation JSON_parse_report e sw.
Arguments sessionRun {Backend} generateContent JSON_parse_note
  JSON_parse_validation JSON_parse_report events sw.

(** The two readings of [Date.now()] that [appStep] takes with the event
    and [sessionStep] with the settlement. *)
Definition clockOf (ev : UserEvent) : Z * Z :=
  match ev with
  | EvVoice _ _ now_id now_ts | EvText _ now_id now_ts => (now_id, now_ts)
  | _ => (0, 0)
  end.

(** What every run of a session maintains about the screen: the category
    view has its category, the report view has its report, and the
    "generating" flag is up only while a report request is in flight. *)
Definition screen_invariant (s : Session) : Prop :=
  (app_view (s_app s) = view_category -> app_activeCategory (s_app s) <> None)
  /\ (app_view (s_app s) = view_report -> app_finalReport (s_app s) <> None)
  /\ (app_isGeneratingReport (s_app s) = true ->
      exists r, In (PendingReport r) (s_pending s)).

(** A report request carries a job state whose seven required categories
    are complete. *)
Definition report_of_complete_job (e : Effect) : Prop :=
  forall cats notes,
    e = Call (ReqReport cats notes) ->
    forall k, k <> additional_notes -> status (get_category k cats) = complete.

(* ================================================================== *)
(** ** A scripted backend for concrete runs *)

Module Stub.

(** The backend answers the successive requests with the successive
    entries of a script, and with a network failure once it is used up. *)
Definition Backend : Type := list (Settled GenerateContentResponse).

Definition generateContent (req : Request) (s : Backend)
  : Settled GenerateContentResponse * Backend :=
  match s with
  | [] => (Rejected (Error "Failed to fetch"), [])
  | r :: s' => (r, s')
  end.

Definition says (t : string) : Settled GenerateContentResponse :=
  Resolved {| resp_text := Some t |}.

(** An HTTP 429 as the client library reports it. *)
Definition rateLimited : Thrown :=
  {| err_error_message := Some "Resource has been exhausted (e.g. check quota).";
     err_error_code := Some 429;
     err_message := None;
     err_json := "{}" |}.

Definition serverError : Thrown :=
  {| err_error_message := Some "Internal error encountered.";
     err_error_code := Some 500;
     err_message := None;
     err_json := "{}" |}.

(** A failure that names the exhausted resource by its status only. *)
Definition resourceExhausted : Thrown :=
  {| err_error_message := None;
     err_error_code := None;
     err_message := Some "RESOURCE_EXHAUSTED";
     err_json := "{}" |}.

(** Stand-ins for [JSON.parse]: the response text is the transcript, and
    the extracted data records it under one key; the text [ok] is a
    passed validation, any other text names the one missing item. *)
Definition JSON_parse_note (t : string) : Settled NoteResult :=
  Resolved {| transcript := t; updatedData := JObj [("summary", JStr t)] |}.

Definition JSON_parse_validation (t : string) : Settled ValidationResult :=
  if (t =? "ok")%string
  then Resolved {| isComplete := true; r_missingInfo := [] |}
  else Resolved {| isComplete := false; r_missingInfo := [t] |}.

Definition JSON_parse_report (t : string) : Settled FieldReport :=
  Resolved (mkFieldReport (JStr t) JNull JNull JNull JNull JNull JNull JNull).

Definition world (script : Backend) : World Backend := mkWorld script [].

Definition dispatch := dispatch generateContent JSON_parse_note JSON_parse_validation.
Definition run := run generateContent JSON_parse_note JSON_parse_validation.

(** All seven required categories validated, one after the other. *)
Definition allRequiredComplete : JobState :=
  fold_left (fun js k => handleUpdateCategory k markComplete js)
    [ project_details; env_safety; survey_inventory; site_recording;
      excavations; finds; condition_followup ]
    INITIAL_JOB_STATE.

(** A category in progress that holds one note created at clock reading 5. *)
Definition oneNote : CategoryState :=
  {| cat_id := finds; title := "Finds & Materials"; status := in_progress;
     notes := [ {| note_id := "5"; text := "Found one obsidian flake"; timestamp := 5 |} ];
     data := JObj [("item_type", JStr "lithic"); ("quantity", JStr "1")];
     missingInfo := [] |}.

Definition withFinds (c : CategoryState) : JobState :=
  {| categories := set_category finds c (categories INITIAL_JOB_STATE);
     isJobComplete := false |}.

End Stub.

(** The scripted backend behind the whole application. *)
Module StubApp.

Definition appStep :=
  appStep Stub.generateContent Stub.JSON_parse_note Stub.JSON_parse_validation
    Stub.JSON_parse_report.

Definition appRun :=
  appRun Stub.generateContent Stub.JSON_parse_note Stub.JSON_parse_validation
    Stub.JSON_parse_report.

Definition required : list CategoryId :=
  [ project_details; env_safety; survey_inventory; site_recording;
    excavations; finds; condition_followup ].

(** A whole session: for each required category open its card, type one
    note and finalize; then finish the job. *)
Definition session : list UserEvent :=
  (flat_map (fun k => [EvCard k; EvText "Observed" 5 5; EvFinalize]) required
   ++ [EvFinish])%list.

(** The replies of the backend during [session]. *)
Definition sessionScript : Stub.Backend :=
  (flat_map (fun _ : CategoryId => [Stub.says "Observed"; Stub.says "ok"]) required
   ++ [Stub.says "Final report"])%list.

(** The dashboard with all seven required categories complete. *)
Definition readyToFinish : AppState :=
  {| app_view := view_dashboard;
     app_jobState := Stub.allRequiredComplete;
     app_activeCategory := None;
     app_finalReport := None;
     app_isGeneratingReport := false |}.

(** The view of [finds] holding one note. *)
Definition viewingFinds : AppState :=
  {| app_view := view_category;
     app_jobState := Stub.withFinds Stub.oneNote;
     app_activeCategory := Some finds;
     app_finalReport := None;
     app_isGeneratingReport := false |}.

Definition sessionRun :=
  sessionRun Stub.generateContent Stub.JSON_parse_note Stub.JSON_parse_validation
    Stub.JSON_parse_report.

(** A session in which each required category gets one note and is
    finalized, every call settling before the next event; then [finds] is
    opened again and a second note is saved, and while that call is in
    flight the user goes back and finishes the job; the note settles before
    the report does. *)
Definition overtakenSession : list SessionEvent :=
  (flat_map (fun k => [ User (EvCard k); User (EvText "Observed" 0 0); Settle 0 5 5;
                        User EvFinalize; Settle 0 0 0 ]) required
   ++ [ User (EvCard finds); User (EvText "One more" 0 0); User EvBack;
        User EvFinish; Settle 0 9 9; Settle 0 0 0 ])%list.

(** The same session up to the moment at which only the report is still
    awaited. *)
Definition generatingSession : list SessionEvent := removelast overtakenSession.

Definition overtakenScript : Stub.Backend :=
  (flat_map (fun _ : CategoryId => [Stub.says "Observed"; Stub.says "ok"]) required
   ++ [Stub.says "One more"; Stub.says "Final report"])%list.

End StubApp.

(* ================================================================== *)
(** ** The helpers on concrete inputs *)

Example toString_epoch : toString 1700000000000 = "1700000000000".
Proof. reflexivity. Qed.

Example toString_zero : toString 0 = "0".
Proof. reflexivity. Qed.

Example toLowerCase_mixed : toLowerCase "Quota EXCEEDED (429)" = "quota exceeded (429)".
Proof. reflexivity. Qed.

Example includes_inner : includes "http 429 too many requests" "429" = true.
Proof. reflexivity. Qed.

Example includes_absent : includes "internal error" "quota" = false.
Proof. reflexivity. Qed.

Example blank_spaces : blank "   " = true /\ blank " a " = false.
Proof. split; reflexivity. Qed.

(** A text of one U+00A0 and one of U+2003 and a line feed are blank; the
    letter U+00E0 (C3 A0) is not. *)
Example blank_unicode :
  blank (String (ascii_of_nat 194) (String (ascii_of_nat 160) "")) = true
  /\ blank (String (ascii_of_nat 226) (String (ascii_of_nat 128)
              (String (ascii_of_nat 131) (String (ascii_of_nat 10) "")))) = true
  /\ blank (String (ascii_of_nat 195) (String (ascii_of_nat 160) "")) = false.
Proof. repeat split. Qed.

(** A text of one U+00A0 is dropped by [handleTextSubmit] before any call. *)
Example nbsp_text_is_dropped :
  handleTextSubmit Stub.generateContent Stub.JSON_parse_note
    (get_category finds (categories INITIAL_JOB_STATE))
    (String (ascii_of_nat 194) (String (ascii_of_nat 160) "")) 5 5
    INITIAL_JOB_STATE (Stub.world [Stub.says "x"])
  = (INITIAL_JOB_STATE, Stub.world [Stub.says "x"]).
Proof. reflexivity. Qed.

(** The Kelvin sign is lowered to [k]: "NETWOR" followed by U+212A. *)
Example toLowerCase_kelvin :
  toLowerCase ("NETWOR" ++ String (ascii_of_nat 226)
                 (String (ascii_of_nat 132) (String (ascii_of_nat 170) "")))%string
  = "network".
Proof. reflexivity. Qed.

Example rateLimited_is_retried : isRateLimit Stub.rateLimited = true.
Proof. reflexivity. Qed.

Example serverError_is_not_retried : isRateLimit Stub.serverError = false.
Proof. reflexivity. Qed.

Example fetch_failure_is_network_error :
  handleAIError (Error "Failed to fetch")
  = Error "⚠️ Network Error. Please check your internet connection.".
Proof. reflexivity. Qed.

Example no_text_is_processing_failure :
  handleAIError (Error "No response from AI")
  = Error "⚠️ AI Processing Failed. Please try again.".
Proof. reflexivity. Qed.

(** Three rate-limit failures in a row: three attempts, two sleeps, and the
    "system busy" error. *)
Example three_rate_limits :
  validateCategory Stub.generateContent Stub.JSON_parse_validation finds emptyData
    (Stub.world [ Rejected Stub.rateLimited; Rejected Stub.rateLimited;
                  Rejected Stub.rateLimited; Stub.says "ok" ])
  = (Rejected (handleAIError Stub.rateLimited),
     mkWorld [Stub.says "ok"]
       [ Call (ReqValidate finds emptyData); Sleep 1000;
         Call (ReqValidate finds emptyData); Sleep 2000;
         Call (ReqValidate finds emptyData) ]).
Proof. reflexivity. Qed.

(** The scenario of the specification: one text note on [finds]. *)
Example one_text_note :
  let jobState :=
    fst (Stub.run [SubmitText finds "Found one obsidian flake" 5 6]
           (INITIAL_JOB_STATE, Stub.world [Stub.says "Found one obsidian flake"])) in
  get_category finds (categories jobState)
  = {| cat_id := finds; title := "Finds & Materials"; status := in_progress;
       notes := [mkNote "5" "Found one obsidian flake" 6];
       data := JObj [("summary", JStr "Found one obsidian flake")];
       missingInfo := [] |}.
Proof. reflexivity. Qed.

(** A failed validation leaves the status and lists what is missing. *)
Example failed_validation :
  let jobState :=
    fst (Stub.run [ClickFinalize finds]
           (Stub.withFinds Stub.oneNote, Stub.world [Stub.says "material"])) in
  status (get_category finds (categories jobState)) = in_progress
  /\ missingInfo (get_category finds (categories jobState)) = ["material"].
Proof. split; reflexivity. Qed.

(* ================================================================== *)
(** ** Basic facts about the data model *)

Local Open Scope list_scope.

Lemma CategoryId_eqb_eq (a b : CategoryId) : CategoryId_eqb a b = true <-> a = b.
Proof. destruct a, b; simpl; split; intro H; congruence. Qed.

Lemma CategoryId_eqb_neq (a b : CategoryId) : CategoryId_eqb a b = false <-> a <> b.
Proof. destruct a, b; simpl; split; intro H; congruence. Qed.

Lemma CategoryStatus_eqb_eq (a b : CategoryStatus) :
  CategoryStatus_eqb a b = true <-> a = b.
Proof. destruct a, b; simpl; split; intro H; congruence. Qed.

Lemma CategoryId_eq_dec (a b : CategoryId) : {a = b} + {a <> b}.
Proof. decide equality. Defined.

Lemma get_set_same k c cs : get_category k (set_category k c cs) = c.
Proof. destruct k; reflexivity. Qed.

Lemma get_set_other k k' c cs :
  k' <> k -> get_category k' (set_category k c cs) = get_category k' cs.
Proof. destruct k, k'; intro H; try reflexivity; congruence. Qed.

Lemma update_same id updates prev :
  get_category id (categories (handleUpdateCategory id updates prev))
  = spread (get_category id (categories prev)) updates.
Proof. unfold handleUpdateCategory; simpl; apply get_set_same. Qed.

Lemma update_other id updates prev k :
  k <> id ->
  get_category k (categories (handleUpdateCategory id updates prev))
  = get_category k (categories prev).
Proof. intro H; unfold handleUpdateCategory; simpl; now apply get_set_other. Qed.

Lemma update_keeps_keys id updates prev :
  keys_consistent prev ->
  p_id updates = None \/ p_id updates = Some id ->
  keys_consistent (handleUpdateCategory id updates prev).
Proof.
  intros Hk Hid k.
  destruct (CategoryId_eq_dec k id) as [-> | Hne].
  - rewrite update_same; simpl.
    destruct Hid as [-> | ->]; simpl; auto.
  - rewrite update_other by assumption. apply Hk.
Qed.

Lemma initial_keys : keys_consistent INITIAL_JOB_STATE.
Proof. intro k; destruct k; reflexivity. Qed.

(** Every property of all required entries can be read off [Object.values]. *)
Lemma required_forall (P : CategoryState -> bool) js :
  keys_consistent js ->
  (forallb P (requiredCategories js) = true
   <-> forall k, k <> additional_notes -> P (get_category k (categories js)) = true).
Proof.
  intro Hk. unfold requiredCategories, Object_values.
  pose proof (Hk project_details) as H1. pose proof (Hk env_safety) as H2.
  pose proof (Hk survey_inventory) as H3. pose proof (Hk site_recording) as H4.
  pose proof (Hk excavations) as H5. pose proof (Hk finds) as H6.
  pose proof (Hk condition_followup) as H7. pose proof (Hk additional_notes) as H8.
  simpl in H1, H2, H3, H4, H5, H6, H7, H8. simpl filter.
  rewrite H1, H2, H3, H4, H5, H6, H7, H8. simpl.
  rewrite !andb_true_iff. split.
  - intros (A1 & A2 & A3 & A4 & A5 & A6 & A7 & _) k Hne.
    destruct k; simpl; auto; congruence.
  - intro H. repeat split;
      try (match goal with
           | |- P (?f _) = true =>
               first [ apply (H project_details) | apply (H env_safety)
                     | apply (H survey_inventory) | apply (H site_recording)
                     | apply (H excavations) | apply (H finds)
                     | apply (H condition_followup) ]; discriminate
           end).
Qed.

(* ================================================================== *)
(** ** C10: frame of [handleUpdateCategory] *)

(** C10.  For every job state, category id and partial update,
    [handleUpdateCategory] changes only the map entry of the given id: the
    [CategoryState] of every other id is unchanged, within the updated entry
    every field absent from the partial update keeps its prior value (and a
    present one takes the given value), and [isJobComplete] is carried over. *)
Theorem handleUpdateCategory_frame (prev : JobState) (id : CategoryId)
    (updates : PartialCategoryState) :
  let next := handleUpdateCategory id updates prev in
  let old := get_category id (categories prev) in
  let new := get_category id (categories next) in
  (forall k, k <> id ->
     get_category k (categories next) = get_category k (categories prev))
  /\ (p_id updates = None -> cat_id new = cat_id old)
  /\ (p_title updates = None -> title new = title old)
  /\ (p_status updates = None -> status new = status old)
  /\ (p_notes updates = None -> notes new = notes old)
  /\ (p_data updates = None -> data new = data old)
  /\ (p_missingInfo updates = None -> missingInfo new = missingInfo old)
  /\ new = spread old updates
  /\ isJobComplete next = isJobComplete prev.
Proof.
  cbv zeta. rewrite update_same.
  split; [intros k Hne; now apply update_other|].
  repeat split; intro H; simpl; rewrite H; reflexivity.
Qed.

(** A run of C10: marking [finds] complete in the initial state leaves
    [excavations] alone and keeps the notes and data of [finds]. *)
Lemma handleUpdateCategory_frame_witness :
  let next := handleUpdateCategory finds markComplete INITIAL_JOB_STATE in
  get_category excavations (categories next)
  = get_category excavations (categories INITIAL_JOB_STATE)
  /\ notes (get_category finds (categories next)) = []
  /\ data (get_category finds (categories next)) = emptyData
  /\ title (get_category finds (categories next)) = "Finds & Materials".
Proof.
  cbv zeta.
  destruct (handleUpdateCategory_frame INITIAL_JOB_STATE finds markComplete)
    as (Hother & _ & Htitle & _ & Hnotes & Hdata & _).
  split; [apply Hother; discriminate|].
  split; [rewrite Hnotes; reflexivity|].
  split; [rewrite Hdata; reflexivity|].
  rewrite Htitle; reflexivity.
Defined.

(* ================================================================== *)
(** ** C1: job completion *)

(** C1, as stated, fails: once every one of the seven required categories
    has been updated to [complete], the stored attribute [isJobComplete] is
    still [false]. *)
Lemma isJobComplete_not_recomputed :
  ~ (isJobComplete Stub.allRequiredComplete = true
     <-> forall k, k <> additional_notes ->
           status (get_category k (categories Stub.allRequiredComplete)) = complete).
Proof.
  intros [_ H].
  assert (E : isJobComplete Stub.allRequiredComplete = true).
  { apply H. intros k Hk. destruct k; try reflexivity. congruence. }
  discriminate E.
Qed.

(** C1, amended.  For every job state whose entries carry their own key,
    the completion flag that the dashboard derives from the categories,
    [allComplete], is true if and only if all seven required categories
    (every category except [additional_notes]) have status [complete].  It is
    computed from the categories, so after an [updateCategory] that sets the
    status of a required category to anything but [complete] it is false.
    [updateCategory] does not write the stored attribute [isJobComplete]. *)
Theorem allComplete_iff_required_complete (jobState : JobState) :
  keys_consistent jobState ->
  (allComplete jobState = true
   <-> forall k, k <> additional_notes ->
         status (get_category k (categories jobState)) = complete)
  /\ (forall id updates s,
        id <> additional_notes ->
        p_id updates = None ->
        p_status updates = Some s ->
        s <> complete ->
        allComplete (handleUpdateCategory id updates jobState) = false)
  /\ (forall id updates,
        isJobComplete (handleUpdateCategory id updates jobState)
        = isJobComplete jobState).
Proof.
  intro Hk.
  assert (Hiff : forall js, keys_consistent js ->
            (allComplete js = true
             <-> forall k, k <> additional_notes ->
                   status (get_category k (categories js)) = complete)).
  { intros js Hjs. unfold allComplete.
    rewrite (required_forall _ js Hjs).
    split; intros H k Hne; apply CategoryStatus_eqb_eq; now apply H. }
  split; [now apply Hiff|]. split; [|reflexivity].
  intros id updates s Hid Hpid Hst Hs.
  destruct (allComplete (handleUpdateCategory id updates jobState)) eqn:E;
    [|reflexivity].
  exfalso.
  assert (Hk' : keys_consistent (handleUpdateCategory id updates jobState))
    by (apply update_keeps_keys; auto).
  pose proof (proj1 (Hiff _ Hk') E id Hid) as E'. clear E. rename E' into E. rewrite update_same in E. simpl in E.
  rewrite Hst in E. simpl in E. contradiction.
Qed.

(** A run of the amended C1: with all seven required categories complete the
    derived flag is up, and reopening [finds] takes it down. *)
Lemma allComplete_iff_required_complete_witness :
  allComplete Stub.allRequiredComplete = true
  /\ allComplete
       (handleUpdateCategory finds
          {| p_id := None; p_title := None; p_notes := None; p_data := None;
             p_status := Some in_progress; p_missingInfo := None |}
          Stub.allRequiredComplete) = false.
Proof.
  assert (Hk : keys_consistent Stub.allRequiredComplete).
  { intro k; destruct k; reflexivity. }
  destruct (allComplete_iff_required_complete Stub.allRequiredComplete Hk)
    as (Hiff & Hdown & _).
  split.
  - apply Hiff. intros k Hne. destruct k; try reflexivity. congruence.
  - apply (Hdown finds _ in_progress); [discriminate | reflexivity | reflexivity | discriminate].
Defined.

(* ================================================================== *)
(** ** C2: the retry wrapper *)

Lemma attempts_app l1 l2 : attempts (l1 ++ l2) = (attempts l1 + attempts l2)%nat.
Proof. unfold attempts. now rewrite filter_app, length_app. Qed.

(** The classifier of [callWithRetry] accepts exactly the rate-limit errors. *)
Lemma isRateLimit_spec (e : Thrown) : isRateLimit e = true <-> RateLimitError e.
Proof.
  unfold isRateLimit, RateLimitError, mentions.
  rewrite !orb_true_iff.
  destruct (err_error_code e) as [c|].
  - rewrite Z.eqb_eq. split.
    + intros [[H | H] | H]; auto. left. now subst.
    + intros [H | [H | H]]; auto. right. now injection H.
  - split.
    + intros [[H | H] | H]; auto. discriminate H.
    + intros [H | [H | H]]; auto. discriminate H.
Qed.

Lemma isRateLimit_false (e : Thrown) : isRateLimit e = false <-> ~ RateLimitError e.
Proof.
  rewrite <- isRateLimit_spec. destruct (isRateLimit e); split; intro H;
    try reflexivity; try discriminate; try (intro; discriminate).
  exfalso. now apply H.
Qed.

Section Retry.

Context {Backend : Type}.
Variable generateContent :
  Request -> Backend -> Settled GenerateContentResponse * Backend.
Variable req : Request.

Local Abbreviation fn := (ai_models_generateContent generateContent req).

(** One iteration of the loop, by what the backend answers. *)
Lemma retry_step_resolved retries k i (w : World Backend) r s1 :
  generateContent req (backend w) = (Resolved r, s1) ->
  callWithRetry_from fn retries (S k) i w
  = (Resolved r, mkWorld s1 (log w ++ [Call req])).
Proof.
  intro H. simpl. unfold ai_models_generateContent. now rewrite H.
Qed.

Lemma retry_step_surfaced retries k i (w : World Backend) e s1 :
  generateContent req (backend w) = (Rejected e, s1) ->
  isRateLimit e && (Z.of_nat i <? Z.of_nat retries - 1) = false ->
  callWithRetry_from fn retries (S k) i w
  = (Rejected e, mkWorld s1 (log w ++ [Call req])).
Proof.
  intros H Hc. simpl. unfold ai_models_generateContent.
  rewrite H, Hc. reflexivity.
Qed.

Lemma retry_step_again retries k i (w : World Backend) e s1 :
  generateContent req (backend w) = (Rejected e, s1) ->
  isRateLimit e = true ->
  Z.of_nat i < Z.of_nat retries - 1 ->
  callWithRetry_from fn retries (S k) i w
  = callWithRetry_from fn retries k (S i)
      (mkWorld s1 (log w ++ [Call req; Sleep (1000 * 2 ^ Z.of_nat i)])).
Proof.
  intros H He Hi. simpl. unfold ai_models_generateContent at 1.
  rewrite H, He. apply Z.ltb_lt in Hi. rewrite Hi. simpl andb. cbv iota.
  unfold emit. simpl. rewrite <- app_assoc. reflexivity.
Qed.

(** The loop calls the backend at most once per remaining iteration. *)
Lemma callWithRetry_from_attempts retries k : forall i (w : World Backend),
  (attempts (log (snd (callWithRetry_from fn retries k i w)))
   <= attempts (log w) + k)%nat.
Proof.
  induction k as [|k IH]; intros i w.
  - simpl. lia.
  - simpl. unfold ai_models_generateContent at 1.
    destruct (generateContent req (backend w)) as [[r | e] s1].
    + simpl. rewrite attempts_app. unfold attempts. simpl. lia.
    + destruct (isRateLimit e && (Z.of_nat i <? Z.of_nat retries - 1)).
      * eapply Nat.le_trans; [apply IH|].
        unfold emit. simpl. rewrite !attempts_app. unfold attempts. simpl. lia.
      * simpl. rewrite attempts_app. unfold attempts. simpl. lia.
Qed.

Lemma callWithRetry_attempts retries (w : World Backend) :
  (attempts (log (snd (callWithRetry fn retries w)))
   <= attempts (log w) + retries)%nat.
Proof. apply callWithRetry_from_attempts. Qed.

(** What the loop sleeps before iteration [i + 1] is twice what it slept
    before iteration [i]. *)
Lemma delay_doubles (i : nat) :
  1000 * 2 ^ Z.of_nat (S i) = 2 * (1000 * 2 ^ Z.of_nat i).
Proof. rewrite Nat2Z.inj_succ, Z.pow_succ_r by lia. lia. Qed.

(** The operations built with [guarded] obey the retry law. *)
Lemma guarded_RetryLaw {T : Type} (noText : string) (parse : string -> Settled T) :
  RetryLaw generateContent req parse (guarded generateContent req noText parse).
Proof.
  unfold RetryLaw, guarded, callWithRetry.
  split; [|split; [|split; [|split]]].
  - intros w e1 s1 e2 s2 response s3 txt v H1 R1 H2 R2 H3 Ht Hne Hp.
    apply isRateLimit_spec in R1. apply isRateLimit_spec in R2.
    rewrite (retry_step_again 3 2 0 w e1 s1 H1 R1) by (simpl; lia).
    erewrite retry_step_again; [|simpl; exact H2|exact R2|simpl; lia].
    erewrite retry_step_resolved; [|simpl; exact H3].
    rewrite Ht. simpl truthy.
    destruct (txt =? "")%string eqn:E;
      [apply String.eqb_eq in E; contradiction|].
    simpl. rewrite E, Hp. simpl. rewrite <- !app_assoc. reflexivity.
  - intro w.
    pose proof (callWithRetry_from_attempts 3 3 0%nat w) as Hb.
    destruct (callWithRetry_from fn 3 3 0 w) as [[response | e] w1]; simpl in *.
    + destruct (truthy (resp_text response)); [|exact Hb].
      destruct (parse _); exact Hb.
    + exact Hb.
  - intros w e s1 H R. apply isRateLimit_false in R.
    rewrite (retry_step_surfaced 3 2 0 w e s1 H) by (now rewrite R).
    reflexivity.
  - intros w e1 s1 e s2 H1 R1 H2 R2.
    apply isRateLimit_spec in R1. apply isRateLimit_false in R2.
    rewrite (retry_step_again 3 2 0 w e1 s1 H1 R1) by (simpl; lia).
    erewrite retry_step_surfaced; [|simpl; exact H2|now rewrite R2].
    simpl. rewrite <- !app_assoc. reflexivity.
  - intros w e1 s1 e2 s2 e s3 H1 R1 H2 R2 H3.
    apply isRateLimit_spec in R1. apply isRateLimit_spec in R2.
    rewrite (retry_step_again 3 2 0 w e1 s1 H1 R1) by (simpl; lia).
    erewrite retry_step_again; [|simpl; exact H2|exact R2|simpl; lia].
    erewrite retry_step_surfaced; [|simpl; exact H3|apply andb_false_r].
    simpl. rewrite <- !app_assoc. reflexivity.
Qed.

(** X3.  An error that [callWithRetry] classifies as a rate-limit error
    (and so retries) is one that [handleAIError] reports as "System Busy". *)
Lemma rate_limit_is_reported_busy (e : Thrown) :
  isRateLimit e = true ->
  handleAIError e
  = Error "⚠️ System Busy (Quota Exceeded). We are retrying, but if this persists, please wait 60 seconds.".
Proof.
  unfold isRateLimit, handleAIError, truthy, or_string.
  destruct e as [em ec m j]; simpl.
  destruct (match ec with Some c => c =? 429 | None => false end) eqn:Ec.
  - intros _. rewrite !orb_true_r. reflexivity.
  - rewrite orb_false_r.
    destruct em as [em|]; [destruct (em =? "")%string eqn:Eem|];
      (destruct m as [m|]; [destruct (m =? "")%string eqn:Em|]);
      simpl; intro H; try discriminate H;
      apply orb_true_iff in H; destruct H as [H|H]; rewrite H;
      rewrite ?orb_true_r; reflexivity.
Qed.

End Retry.

(** X24.  The retry law for the rate-limit errors that [callWithRetry]
    recognises (code 429, or a message that mentions 429 or quota).  Each
    gateway operation (extract from voice, extract from text,
    validate, aggregate) obeys the retry law: two such failures and then an
    answer succeed on the third attempt, after sleeps of 1000 ms and then
    2000 ms; no run makes more than three attempts; an error of another kind
    is surfaced at the attempt where it occurs, with no retry; and whatever
    fails at the third attempt is surfaced. *)
Lemma gateway_retry_law {Backend : Type}
    (generateContent : Request -> Backend -> Settled GenerateContentResponse * Backend)
    (JSON_parse_note : string -> Settled NoteResult)
    (JSON_parse_validation : string -> Settled ValidationResult)
    (JSON_parse_report : string -> Settled FieldReport) :
  (forall audioBase64 mimeType categoryId currentNotes currentData,
      RetryLaw generateContent
        (ReqVoice audioBase64 mimeType categoryId currentData) JSON_parse_note
        (processVoiceNote generateContent JSON_parse_note
           audioBase64 mimeType categoryId currentNotes currentData))
  /\ (forall text categoryId currentNotes currentData,
         RetryLaw generateContent
           (ReqText text categoryId currentData) JSON_parse_note
           (processTextNote generateContent JSON_parse_note
              text categoryId currentNotes currentData))
  /\ (forall categoryId data,
         RetryLaw generateContent
           (ReqValidate categoryId data) JSON_parse_validation
           (validateCategory generateContent JSON_parse_validation categoryId data))
  /\ (forall jobState,
         RetryLaw generateContent
           (ReqReport (categories jobState) (additionalNotes jobState))
           JSON_parse_report
           (generateFinalJobReport generateContent JSON_parse_report jobState)).
Proof.
  split; [|split; [|split]]; intros; apply guarded_RetryLaw.
Qed.

(** A run of X24: validation of [finds] against a backend that answers
    429 twice and then [ok]; and a network failure, which ends the run at
    the first attempt. *)
Lemma gateway_retry_law_run :
  validateCategory Stub.generateContent Stub.JSON_parse_validation finds emptyData
    (Stub.world [Rejected Stub.rateLimited; Rejected Stub.rateLimited; Stub.says "ok"])
  = (Resolved {| isComplete := true; r_missingInfo := [] |},
     mkWorld []
       [ Call (ReqValidate finds emptyData); Sleep 1000;
         Call (ReqValidate finds emptyData); Sleep 2000;
         Call (ReqValidate finds emptyData) ])
  /\ validateCategory Stub.generateContent Stub.JSON_parse_validation finds emptyData
       (Stub.world [Rejected (Error "Failed to fetch"); Stub.says "ok"])
     = (Rejected (Error "⚠️ Network Error. Please check your internet connection."),
        mkWorld [Stub.says "ok"] [Call (ReqValidate finds emptyData)]).
Proof.
  destruct (gateway_retry_law Stub.generateContent Stub.JSON_parse_note
              Stub.JSON_parse_validation Stub.JSON_parse_report)
    as (_ & _ & Hvalidate & _).
  destruct (Hvalidate finds emptyData) as (Hthird & _ & Hfirst & _).
  split.
  - apply (Hthird (Stub.world [Rejected Stub.rateLimited; Rejected Stub.rateLimited; Stub.says "ok"])
             Stub.rateLimited [Rejected Stub.rateLimited; Stub.says "ok"]
             Stub.rateLimited [Stub.says "ok"]
             {| resp_text := Some "ok" |} [] "ok");
      try reflexivity; try (left; reflexivity).
    discriminate.
  - apply (Hfirst (Stub.world [Rejected (Error "Failed to fetch"); Stub.says "ok"])
             (Error "Failed to fetch") [Stub.says "ok"]); [reflexivity|].
    intros [H | [H | H]]; discriminate H.
Defined.

Lemma resource_exhausted_is_reported_busy (e : Thrown) :
  ResourceExhausted e -> handleAIError e = Error systemBusy.
Proof.
  intros [_ H]. unfold mentions in H.
  unfold handleAIError, truthy, or_string in *.
  destruct e as [em ec m j]; simpl in *.
  destruct em as [em|]; [destruct (em =? "")%string eqn:Eem|];
    (destruct m as [m|]; [destruct (m =? "")%string eqn:Em|]);
    simpl in *;
    try (destruct H as [H | H]; discriminate H);
    destruct H as [H | H]; rewrite H;
    rewrite ?orb_true_r; reflexivity.
Qed.

(** C2, at the errors on which it fails.  An error that says that a
    resource is exhausted, without code 429 and without mentioning 429 or
    quota, is a quota error for [handleAIError], which reports it as
    "System Busy (Quota Exceeded). We are retrying", but not for the
    classifier of [callWithRetry]: each of the four gateway operations gives
    up at the first such failure, with one attempt and no sleep, whatever the
    backend would have answered to a second or third attempt. *)
Theorem resource_exhausted_is_not_retried {Backend : Type}
    (generateContent : Request -> Backend -> Settled GenerateContentResponse * Backend)
    (JSON_parse_note : string -> Settled NoteResult)
    (JSON_parse_validation : string -> Settled ValidationResult)
    (JSON_parse_report : string -> Settled FieldReport)
    (e : Thrown) (w : World Backend) (s1 : Backend) :
  ResourceExhausted e ->
  handleAIError e = Error systemBusy
  /\ isRateLimit e = false
  /\ (forall audioBase64 mimeType categoryId currentNotes currentData,
        generateContent (ReqVoice audioBase64 mimeType categoryId currentData) (backend w)
        = (Rejected e, s1) ->
        processVoiceNote generateContent JSON_parse_note
          audioBase64 mimeType categoryId currentNotes currentData w
        = (Rejected (Error systemBusy),
           mkWorld s1 (log w ++ [Call (ReqVoice audioBase64 mimeType categoryId currentData)])))
  /\ (forall text categoryId currentNotes currentData,
        generateContent (ReqText text categoryId currentData) (backend w)
        = (Rejected e, s1) ->
        processTextNote generateContent JSON_parse_note
          text categoryId currentNotes currentData w
        = (Rejected (Error systemBusy),
           mkWorld s1 (log w ++ [Call (ReqText text categoryId currentData)])))
  /\ (forall categoryId data,
        generateContent (ReqValidate categoryId data) (backend w) = (Rejected e, s1) ->
        validateCategory generateContent JSON_parse_validation categoryId data w
        = (Rejected (Error systemBusy),
           mkWorld s1 (log w ++ [Call (ReqValidate categoryId data)])))
  /\ (forall jobState,
        generateContent (ReqReport (categories jobState) (additionalNotes jobState))
          (backend w) = (Rejected e, s1) ->
        generateFinalJobReport generateContent JSON_parse_report jobState w
        = (Rejected (Error systemBusy),
           mkWorld s1 (log w ++ [Call (ReqReport (categories jobState)
                                         (additionalNotes jobState))]))).
Proof.
  intro He.
  pose proof (resource_exhausted_is_reported_busy e He) as Hbusy.
  destruct He as [Hnot _].
  split; [exact Hbusy|]. split; [now apply isRateLimit_false|].
  split; [|split; [|split]]; intros; rewrite <- Hbusy;
    unfold processVoiceNote, processTextNote, validateCategory,
      generateFinalJobReport;
    match goal with
    | Hg : generateContent ?req (backend w) = _ |- guarded _ _ ?noText ?parse w = _ =>
        destruct (guarded_RetryLaw generateContent req noText parse)
          as (_ & _ & Hfirst & _);
        now apply Hfirst
    end.
Qed.

(** C2 at the failing input: the backend answers RESOURCE_EXHAUSTED twice
    and would then answer [ok]; the validation of [finds] fails at the first
    attempt with "System Busy", and the two other answers are never asked
    for. *)
Lemma resource_exhausted_is_not_retried_witness :
  ResourceExhausted Stub.resourceExhausted
  /\ validateCategory Stub.generateContent Stub.JSON_parse_validation finds emptyData
       (Stub.world [ Rejected Stub.resourceExhausted; Rejected Stub.resourceExhausted;
                     Stub.says "ok" ])
     = (Rejected (Error systemBusy),
        mkWorld [Rejected Stub.resourceExhausted; Stub.says "ok"]
          [Call (ReqValidate finds emptyData)]).
Proof.
  assert (He : ResourceExhausted Stub.resourceExhausted).
  { split; [|left; reflexivity]. intros [H | [H | H]]; discriminate H. }
  split; [exact He|].
  destruct (resource_exhausted_is_not_retried
              Stub.generateContent Stub.JSON_parse_note Stub.JSON_parse_validation
              Stub.JSON_parse_report Stub.resourceExhausted
              (Stub.world [ Rejected Stub.resourceExhausted;
                            Rejected Stub.resourceExhausted; Stub.says "ok" ])
              [Rejected Stub.resourceExhausted; Stub.says "ok"] He)
    as (_ & _ & _ & _ & H & _).
  apply (H finds emptyData). reflexivity.
Defined.

(* ================================================================== *)
(** ** C5: appending a note *)

Lemma toString_inj (a b : Z) : toString a = toString b -> a = b.
Proof.
  unfold toString. intro H.
  apply (f_equal NilEmpty.int_of_string) in H.
  rewrite !NilEmpty.isi in H. injection H as H.
  apply (f_equal Z.of_int) in H. now rewrite !DecimalZ.of_to in H.
Qed.

Lemma addNote_entry category now_id now_ts text updatedData jobState :
  get_category (cat_id category)
    (categories (addNote category now_id now_ts text updatedData jobState))
  = {| cat_id := cat_id (get_category (cat_id category) (categories jobState));
       title := title (get_category (cat_id category) (categories jobState));
       status := in_progress;
       notes := notes category ++ [mkNote (toString now_id) text now_ts];
       data := updatedData;
       missingInfo := missingInfo (get_category (cat_id category) (categories jobState)) |}.
Proof. unfold addNote. rewrite update_same. reflexivity. Qed.

Lemma addNote_other category now_id now_ts text updatedData jobState k :
  k <> cat_id category ->
  get_category k (categories (addNote category now_id now_ts text updatedData jobState))
  = get_category k (categories jobState).
Proof. intro H. unfold addNote. now apply update_other. Qed.

(** C5, as stated, fails on the freshness of the id: the id is the decimal
    numeral of the clock reading, so a note added at a reading that already
    produced a note of the category repeats that note's id. *)
Lemma addNote_id_can_repeat :
  let next :=
    addNote Stub.oneNote 5 5 "Second flake" emptyData (Stub.withFinds Stub.oneNote) in
  let c' := get_category finds (categories next) in
  notes c' = notes Stub.oneNote ++ [mkNote (toString 5) "Second flake" 5]
  /\ ~ (~ In (toString 5) (note_ids Stub.oneNote))
  /\ ~ NoDup (note_ids c').
Proof.
  cbv zeta. split; [reflexivity|]. split.
  - intro H. apply H. left. reflexivity.
  - intro H. inversion H as [|x l Hnotin _]. apply Hnotin. left. reflexivity.
Qed.

(** C5, amended.  For every category in any status (including [complete])
    and every extraction result, [addNote] creates a note whose id is the
    decimal numeral of the clock reading and whose timestamp is the current
    clock reading, pushes it to the end of the category's note sequence (all
    prior notes unchanged and in order), replaces the category's [data] by
    the extracted data, and sets the status to [in_progress] whatever it was;
    the other categories are untouched.  The id is fresh whenever every id
    already in the category is the numeral of an earlier clock reading. *)
Theorem addNote_appends (category : CategoryState) (now_id now_ts : Z)
    (text : string) (updatedData : JSON) (jobState : JobState) :
  let next := addNote category now_id now_ts text updatedData jobState in
  let c' := get_category (cat_id category) (categories next) in
  notes c' = notes category ++ [mkNote (toString now_id) text now_ts]
  /\ data c' = updatedData
  /\ status c' = in_progress
  /\ (forall k, k <> cat_id category ->
        get_category k (categories next) = get_category k (categories jobState))
  /\ ((forall n, In n (notes category) ->
         exists t, note_id n = toString t /\ t < now_id) ->
      ~ In (toString now_id) (note_ids category)).
Proof.
  cbv zeta. rewrite addNote_entry. simpl.
  repeat split.
  - intros k Hk. now apply addNote_other.
  - intros Hold Hin. unfold note_ids in Hin.
    apply in_map_iff in Hin. destruct Hin as (n & Hid & Hn).
    destruct (Hold n Hn) as (t & Ht & Hlt).
    rewrite Ht in Hid. apply toString_inj in Hid. lia.
Qed.

(** A run of the amended C5: a second note added to a [complete] category
    at a later clock reading. *)
Lemma addNote_appends_witness :
  let category :=
    {| cat_id := finds; title := "Finds & Materials"; status := complete;
       notes := notes Stub.oneNote; data := data Stub.oneNote; missingInfo := [] |} in
  let next := addNote category 9 10 "Second flake" emptyData (Stub.withFinds category) in
  let c' := get_category finds (categories next) in
  notes c' = notes Stub.oneNote ++ [mkNote "9" "Second flake" 10]
  /\ status c' = in_progress
  /\ ~ In "9" (note_ids category).
Proof.
  cbv zeta.
  pose proof (addNote_appends
    {| cat_id := finds; title := "Finds & Materials"; status := complete;
       notes := notes Stub.oneNote; data := data Stub.oneNote; missingInfo := [] |}
    9 10 "Second flake" emptyData
    (Stub.withFinds
       {| cat_id := finds; title := "Finds & Materials"; status := complete;
          notes := notes Stub.oneNote; data := data Stub.oneNote; missingInfo := [] |}))
    as H.
  cbv zeta in H. destruct H as (Hnotes & _ & Hstatus & _ & Hfresh).
  split; [exact Hnotes|]. split; [exact Hstatus|].
  apply Hfresh. intros n [<- | []]. exists 5. split; [reflexivity | lia].
Defined.

(* ================================================================== *)
(** ** C6: removing the last note *)

Lemma deleteNote_entry category noteId jobState :
  get_category (cat_id category)
    (categories (handleDeleteNote category noteId true jobState))
  = {| cat_id := cat_id category;
       title := title category;
       status :=
         if (List.length (filter (fun note => negb (note_id note =? noteId)%string)
                            (notes category)) =? 0)%nat
            && negb (CategoryStatus_eqb (status category) complete)
         then not_started else status category;
       notes := filter (fun note => negb (note_id note =? noteId)%string) (notes category);
       data := data category;
       missingInfo := missingInfo category |}.
Proof. unfold handleDeleteNote. rewrite update_same. reflexivity. Qed.

(** C6.  For a category that holds exactly one note, removing that note
    leaves the status [complete] when it was [complete], and sets it to
    [not_started] when it was not [complete] (in particular when it was
    [in_progress]); the note list is then empty.  No removal, of any id and
    whether or not the user confirms it, moves a [complete] category to
    another status. *)
Theorem remove_last_note (category : CategoryState) (jobState : JobState) :
  (forall n,
      notes category = [n] ->
      let c' := get_category (cat_id category)
                  (categories (handleDeleteNote category (note_id n) true jobState)) in
      notes c' = []
      /\ (status category = complete -> status c' = complete)
      /\ (status category = in_progress -> status c' = not_started)
      /\ (status category <> complete -> status c' = not_started))
  /\ (forall noteId confirmed,
        get_category (cat_id category) (categories jobState) = category ->
        status category = complete ->
        status (get_category (cat_id category)
                  (categories (handleDeleteNote category noteId confirmed jobState)))
        = complete).
Proof.
  split.
  - intros n Hn. cbv zeta. rewrite deleteNote_entry. simpl.
    rewrite Hn. simpl. rewrite String.eqb_refl. simpl.
    repeat split.
    + intro H; rewrite H; reflexivity.
    + intro H; rewrite H; reflexivity.
    + intro H. destruct (status category); try reflexivity. congruence.
  - intros noteId [|] Hcur Hc.
    + rewrite deleteNote_entry. simpl.
      rewrite Hc. simpl. rewrite andb_false_r. reflexivity.
    + simpl. rewrite Hcur. exact Hc.
Qed.

(** A run of C6: the one note of a complete category and of a category in
    progress. *)
Lemma remove_last_note_witness :
  let done :=
    {| cat_id := finds; title := "Finds & Materials"; status := complete;
       notes := notes Stub.oneNote; data := data Stub.oneNote; missingInfo := [] |} in
  status (get_category finds
            (categories (handleDeleteNote done "5" true (Stub.withFinds done))))
  = complete
  /\ status (get_category finds
               (categories (handleDeleteNote done "7" false (Stub.withFinds done))))
     = complete
  /\ status (get_category finds
               (categories (handleDeleteNote Stub.oneNote "5" true
                              (Stub.withFinds Stub.oneNote))))
     = not_started.
Proof.
  cbv zeta. split; [|split].
  - destruct (remove_last_note
      {| cat_id := finds; title := "Finds & Materials"; status := complete;
         notes := notes Stub.oneNote; data := data Stub.oneNote; missingInfo := [] |}
      (Stub.withFinds
         {| cat_id := finds; title := "Finds & Materials"; status := complete;
            notes := notes Stub.oneNote; data := data Stub.oneNote; missingInfo := [] |}))
      as [H _].
    destruct (H (mkNote "5" "Found one obsidian flake" 5) eq_refl) as (_ & Hc & _).
    exact (Hc eq_refl).
  - destruct (remove_last_note
      {| cat_id := finds; title := "Finds & Materials"; status := complete;
         notes := notes Stub.oneNote; data := data Stub.oneNote; missingInfo := [] |}
      (Stub.withFinds
         {| cat_id := finds; title := "Finds & Materials"; status := complete;
            notes := notes Stub.oneNote; data := data Stub.oneNote; missingInfo := [] |}))
      as [_ H].
    exact (H "7" false eq_refl eq_refl).
  - destruct (remove_last_note Stub.oneNote (Stub.withFinds Stub.oneNote)) as [H _].
    destruct (H (mkNote "5" "Found one obsidian flake" 5) eq_refl) as (_ & _ & Hp & _).
    exact (Hp eq_refl).
Defined.

(* ================================================================== *)
(** ** The handlers, case by case *)

Section Handlers.

Context {Backend : Type}.
Variable generateContent :
  Request -> Backend -> Settled GenerateContentResponse * Backend.
Variable JSON_parse_note : string -> Settled NoteResult.
Variable JSON_parse_validation : string -> Settled ValidationResult.

Local Abbreviation step := (dispatch generateContent JSON_parse_note JSON_parse_validation).
Local Abbreviation runs := (run generateContent JSON_parse_note JSON_parse_validation).

Lemma handleFinalize_cases category jobState (w : World Backend) :
  match validateCategory generateContent JSON_parse_validation
          (cat_id category) (data category) w with
  | (Resolved result, w1) =>
      if isComplete result then
        handleFinalize generateContent JSON_parse_validation category jobState w
        = (handleUpdateCategory (cat_id category) markComplete jobState, emit OnBack w1)
      else
        handleFinalize generateContent JSON_parse_validation category jobState w
        = (handleUpdateCategory (cat_id category)
             (markMissing (r_missingInfo result)) jobState, w1)
  | (Rejected e, w1) =>
      handleFinalize generateContent JSON_parse_validation category jobState w
      = (jobState, emit (Alert (or_string (err_message e) "Validation failed.")) w1)
  end.
Proof.
  unfold handleFinalize.
  destruct (validateCategory _ _ _ _ w) as [[result | e] w1];
    [destruct (isComplete result)|]; reflexivity.
Qed.

(** The job state a user action leaves is the old one, or the old one
    after one of four updates of the category in view. *)
Lemma dispatch_cases a jobState (w : World Backend) :
  let next := fst (step a (jobState, w)) in
  next = jobState
  \/ (exists k now_id now_ts text d,
        next = addNote (get_category k (categories jobState))
                 now_id now_ts text d jobState)
  \/ (exists k noteId,
        next = handleDeleteNote (get_category k (categories jobState))
                 noteId true jobState)
  \/ (exists k,
        next = handleUpdateCategory
                 (cat_id (get_category k (categories jobState)))
                 markComplete jobState)
  \/ (exists k m,
        a = ClickFinalize k
        /\ next = handleUpdateCategory
                    (cat_id (get_category k (categories jobState)))
                    (markMissing m) jobState).
Proof.
  cbv zeta. destruct a as [k b m ni nt | k t ni nt | k id c | k]; simpl.
  - unfold handleAudioProcess. destruct b as [b | e]; [|now left].
    destruct (processVoiceNote _ _ _ _ _ _ _ w) as [[r | e] w1]; [|now left].
    destruct (transcript r =? "NO_SPEECH_DETECTED")%string; [now left|].
    right; left. now exists k, ni, nt, (transcript r), (updatedData r).
  - unfold handleTextSubmit. destruct (blank t); [now left|].
    destruct (processTextNote _ _ _ _ _ _ w) as [[r | e] w1]; [|now left].
    right; left. now exists k, ni, nt, (transcript r), (updatedData r).
  - destruct c; [|now left].
    right; right; left. now exists k, id.
  - unfold clickFinalize.
    destruct (finalizeDisabled _ _ _); [now left|].
    pose proof (handleFinalize_cases
                  (get_category k (categories jobState)) jobState w) as H.
    destruct (validateCategory _ _ _ _ w) as [[r | e] w1].
    + destruct (isComplete r); rewrite H; simpl.
      * right; right; right; left. now exists k.
      * right; right; right; right. now exists k, (r_missingInfo r).
    + rewrite H. now left.
Qed.

Lemma dispatch_keeps_keys a jobState (w : World Backend) :
  keys_consistent jobState ->
  keys_consistent (fst (step a (jobState, w))).
Proof.
  intro Hk.
  destruct (dispatch_cases a jobState w)
    as [-> | [(k & ni & nt & t & d & ->) | [(k & id & ->) | [(k & ->) | (k & m & _ & ->)]]]];
    [assumption | | | |];
    unfold addNote, handleDeleteNote;
    apply update_keeps_keys; simpl; auto.
Qed.

Lemma run_cons a actions (st : JobState * World Backend) :
  runs (a :: actions) st = runs actions (step a st).
Proof. reflexivity. Qed.

(** A property of job states that holds initially and that every user
    action preserves holds after every run. *)
Lemma run_invariant (P : JobState -> Prop) :
  (forall a jobState w, P jobState -> P (fst (step a (jobState, w)))) ->
  forall actions jobState w, P jobState -> P (fst (runs actions (jobState, w))).
Proof.
  intros Hstep actions.
  induction actions as [|a actions IH]; intros jobState w HP; [exact HP|].
  rewrite run_cons.
  specialize (Hstep a jobState w HP).
  destruct (step a (jobState, w)) as [js1 w1]. now apply IH.
Qed.

End Handlers.

(* ================================================================== *)
(** ** C3 and C4: the category invariant *)

Section Invariants.

Context {Backend : Type}.
Variable generateContent :
  Request -> Backend -> Settled GenerateContentResponse * Backend.
Variable JSON_parse_note : string -> Settled NoteResult.
Variable JSON_parse_validation : string -> Settled ValidationResult.

Local Abbreviation step := (dispatch generateContent JSON_parse_note JSON_parse_validation).
Local Abbreviation runs := (run generateContent JSON_parse_note JSON_parse_validation).

Lemma notes_invariant_step a jobState (w : World Backend) :
  notes_invariant jobState ->
  notes_invariant (fst (step a (jobState, w))).
Proof.
  intros [Hk Hinv].
  split; [now apply dispatch_keeps_keys|].
  intro k'. unfold not_started_has_no_notes.
  destruct (dispatch_cases generateContent JSON_parse_note JSON_parse_validation
              a jobState w)
    as [E | [(k & ni & nt & t & d & E) | [(k & id & E) | [(k & E) | (k & m & _ & E)]]]];
    rewrite E; clear E.
  - apply Hinv.
  - destruct (CategoryId_eq_dec k' (cat_id (get_category k (categories jobState))))
      as [-> | Hne].
    + rewrite addNote_entry. simpl. discriminate.
    + rewrite addNote_other by assumption. apply Hinv.
  - destruct (CategoryId_eq_dec k' (cat_id (get_category k (categories jobState))))
      as [-> | Hne].
    + rewrite deleteNote_entry. simpl.
      destruct (filter _ (notes _)) eqn:Ef; [reflexivity|]. simpl.
      intro Hs. rewrite (Hinv k Hs) in Ef. discriminate Ef.
    + unfold handleDeleteNote. rewrite update_other by assumption. apply Hinv.
  - destruct (CategoryId_eq_dec k' (cat_id (get_category k (categories jobState))))
      as [-> | Hne].
    + rewrite update_same. simpl. discriminate.
    + rewrite update_other by assumption. apply Hinv.
  - destruct (CategoryId_eq_dec k' (cat_id (get_category k (categories jobState))))
      as [-> | Hne].
    + rewrite update_same. simpl. apply Hinv.
    + rewrite update_other by assumption. apply Hinv.
Qed.

Lemma notes_invariant_initial : notes_invariant INITIAL_JOB_STATE.
Proof.
  split; [apply initial_keys|]. intros k _. destruct k; reflexivity.
Qed.

(** C3, amended.  After every sequence of user actions on the initial job
    state (voice note, text note, note removal, finalize), in every
    category a status of [not_started] implies that the [notes] list is
    empty; and a removal leaves the [data] of the category as it is (it is
    not reset to the empty record). *)
Theorem not_started_implies_no_notes (actions : list Action)
    (w : World Backend) (k : CategoryId) :
  let jobState := fst (runs actions (INITIAL_JOB_STATE, w)) in
  (status (get_category k (categories jobState)) = not_started ->
   notes (get_category k (categories jobState)) = [])
  /\ (forall noteId confirmed w',
        data (get_category k
                (categories (fst (step (DeleteNote k noteId confirmed) (jobState, w')))))
        = data (get_category k (categories jobState))).
Proof.
  cbv zeta.
  assert (H : notes_invariant (fst (runs actions (INITIAL_JOB_STATE, w)))).
  { apply (run_invariant generateContent JSON_parse_note JSON_parse_validation
             notes_invariant).
    - intros a js w'. apply notes_invariant_step.
    - apply notes_invariant_initial. }
  destruct H as [Hk H]. split; [apply H|].
  intros noteId [|] w'; [|reflexivity].
  cbn [dispatch fst]. rewrite <- (Hk k) at 1.
  rewrite deleteNote_entry. reflexivity.
Qed.


End Invariants.

(** C3, as stated, fails on [data]: a text note followed by the removal of
    that note leaves [finds] at [not_started] with no notes but with the
    data extracted from the removed note. *)
Lemma removal_keeps_data :
  let jobState :=
    fst (Stub.run
           [ SubmitText finds "Found one obsidian flake" 5 5;
             DeleteNote finds "5" true ]
           (INITIAL_JOB_STATE, Stub.world [Stub.says "Found one obsidian flake"])) in
  let c := get_category finds (categories jobState) in
  ~ (status c = not_started -> notes c = [] /\ data c = emptyData).
Proof.
  cbv zeta. intro H.
  destruct (H eq_refl) as [_ Hd]. discriminate Hd.
Qed.

(** A run of the amended C3, on the same two actions. *)
Lemma not_started_implies_no_notes_witness :
  let jobState :=
    fst (Stub.run
           [ SubmitText finds "Found one obsidian flake" 5 5;
             DeleteNote finds "5" true ]
           (INITIAL_JOB_STATE, Stub.world [Stub.says "Found one obsidian flake"])) in
  status (get_category finds (categories jobState)) = not_started
  /\ notes (get_category finds (categories jobState)) = [].
Proof.
  cbv zeta. split; [reflexivity|].
  destruct (not_started_implies_no_notes
              Stub.generateContent Stub.JSON_parse_note Stub.JSON_parse_validation
              [ SubmitText finds "Found one obsidian flake" 5 5;
                DeleteNote finds "5" true ]
              (Stub.world [Stub.says "Found one obsidian flake"]) finds)
    as [Hnotes _].
  apply Hnotes. reflexivity.
Defined.



(* ================================================================== *)
(** ** C7, C8 and C9: what the view guards and what it does not *)

Lemma filter_absent_id (noteId : string) (l : list Note) :
  ~ In noteId (map note_id l) ->
  filter (fun note => negb (note_id note =? noteId)%string) l = l.
Proof.
  induction l as [|n l IH]; intro H; [reflexivity|].
  simpl in *.
  destruct (note_id n =? noteId)%string eqn:E.
  - apply String.eqb_eq in E. exfalso. apply H. now left.
  - simpl. f_equal. apply IH. intro Hin. apply H. now right.
Qed.

Section View.

Context {Backend : Type}.
Variable generateContent :
  Request -> Backend -> Settled GenerateContentResponse * Backend.
Variable JSON_parse_note : string -> Settled NoteResult.
Variable JSON_parse_validation : string -> Settled ValidationResult.

(** C7, amended.  For every required category (every category except
    [additional_notes]), while the note list is empty the Finalize button
    is disabled, so that a click runs no handler: the job state is
    unchanged, no validation call is made and nothing is reported.  For
    [additional_notes] the button is enabled with an empty note list, and
    when the validation reports the category complete the click sets its
    status to [complete] with an empty [missingInfo]. *)
Theorem finalize_gate :
  (forall category isProcessing isValidating jobState (w : World Backend),
      cat_id category <> additional_notes ->
      notes category = [] ->
      finalizeDisabled category isProcessing isValidating = true
      /\ clickFinalize generateContent JSON_parse_validation
           category isProcessing isValidating jobState w = (jobState, w))
  /\ (forall jobState (w : World Backend),
        let category := get_category additional_notes (categories jobState) in
        cat_id category = additional_notes ->
        notes category = [] ->
        finalizeDisabled category false false = false
        /\ forall result w1,
             validateCategory generateContent JSON_parse_validation
               additional_notes (data category) w = (Resolved result, w1) ->
             isComplete result = true ->
             let st' := clickFinalize generateContent JSON_parse_validation
                          category false false jobState w in
             let c' := get_category additional_notes (categories (fst st')) in
             snd st' = emit OnBack w1
             /\ status c' = complete
             /\ missingInfo c' = []
             /\ notes c' = []).
Proof.
  split.
  - intros category p v jobState w Hid Hn.
    assert (Hd : finalizeDisabled category p v = true).
    { unfold finalizeDisabled, isAdditionalNotes.
      apply CategoryId_eqb_neq in Hid. rewrite Hid, Hn. reflexivity. }
    split; [exact Hd|]. unfold clickFinalize. now rewrite Hd.
  - intros jobState w. cbv zeta. intros Hid Hn.
    assert (Hd : finalizeDisabled
                   (get_category additional_notes (categories jobState))
                   false false = false).
    { unfold finalizeDisabled, isAdditionalNotes. rewrite Hid. reflexivity. }
    split; [exact Hd|].
    intros result w1 Hv Hc. unfold clickFinalize. rewrite Hd.
    pose proof (handleFinalize_cases generateContent JSON_parse_validation
                  (get_category additional_notes (categories jobState))
                  jobState w) as H.
    rewrite Hid in H. rewrite Hv, Hc in H. rewrite H. cbn [fst snd].
    rewrite update_same. repeat split. exact Hn.
Qed.

(** C8, amended.  For every category: when the extraction of a voice note
    returns the transcript [NO_SPEECH_DETECTED], no note is created and the
    job state (status, notes and data of the category included) is
    unchanged; for every other successful extraction of a voice note, and
    for every successful extraction of a text note whatever its transcript,
    a note is appended and the status becomes [in_progress]; a blank text
    input is dropped before any extraction call. *)
Theorem no_speech_creates_no_note (category : CategoryState)
    (mimeType : string) (now_id now_ts : Z) (jobState : JobState)
    (w : World Backend) :
  (forall base64 result w1,
      processVoiceNote generateContent JSON_parse_note base64 mimeType
        (cat_id category) (map text (notes category)) (data category) w
      = (Resolved result, w1) ->
      let st' := handleAudioProcess generateContent JSON_parse_note category
                   (Resolved base64) mimeType now_id now_ts jobState w in
      let c' := get_category (cat_id category) (categories (fst st')) in
      (transcript result = "NO_SPEECH_DETECTED" -> fst st' = jobState)
      /\ (transcript result <> "NO_SPEECH_DETECTED" ->
          notes c' = notes category
                     ++ [mkNote (toString now_id) (transcript result) now_ts]
          /\ data c' = updatedData result
          /\ status c' = in_progress))
  /\ (forall textInput result w1,
        blank textInput = false ->
        processTextNote generateContent JSON_parse_note textInput
          (cat_id category) (map text (notes category)) (data category) w
        = (Resolved result, w1) ->
        let st' := handleTextSubmit generateContent JSON_parse_note category
                     textInput now_id now_ts jobState w in
        let c' := get_category (cat_id category) (categories (fst st')) in
        notes c' = notes category
                   ++ [mkNote (toString now_id) (transcript result) now_ts]
        /\ data c' = updatedData result
        /\ status c' = in_progress)
  /\ (forall textInput,
        blank textInput = true ->
        handleTextSubmit generateContent JSON_parse_note category
          textInput now_id now_ts jobState w = (jobState, w)).
Proof.
  split; [|split]; [| |intros textInput Hb; unfold handleTextSubmit; now rewrite Hb].
  - intros base64 result w1 Hp. cbv zeta.
    unfold handleAudioProcess. rewrite Hp.
    destruct (transcript result =? "NO_SPEECH_DETECTED")%string eqn:E.
    + apply String.eqb_eq in E. split; [reflexivity | congruence].
    + apply String.eqb_neq in E. split; [congruence|]. intros _.
      cbn [fst]. rewrite addNote_entry. simpl. auto.
  - intros textInput result w1 Hb Hp. cbv zeta.
    unfold handleTextSubmit. rewrite Hb, Hp.
    cbn [fst]. rewrite addNote_entry. simpl. auto.
Qed.

(** C9, amended.  For every category and every note id that is not in its
    note list, the removal is a silent no-op: nothing is reported to the
    caller, and the notes, data and missingInfo of the category are
    unchanged, as are the other categories; the status is unchanged too
    unless the category is [in_progress] with an empty note list. *)
Theorem remove_unknown_id (jobState : JobState) (k : CategoryId)
    (noteId : string) (confirmed : bool) (w : World Backend) :
  cat_id (get_category k (categories jobState)) = k ->
  ~ In noteId (note_ids (get_category k (categories jobState))) ->
  let st' := dispatch generateContent JSON_parse_note JSON_parse_validation
               (DeleteNote k noteId confirmed) (jobState, w) in
  let c := get_category k (categories jobState) in
  let c' := get_category k (categories (fst st')) in
  snd st' = w
  /\ notes c' = notes c
  /\ data c' = data c
  /\ missingInfo c' = missingInfo c
  /\ (notes c <> [] \/ status c <> in_progress -> status c' = status c)
  /\ (forall k', k' <> k ->
        get_category k' (categories (fst st')) = get_category k' (categories jobState)).
Proof.
  intros Hk Hin. cbv zeta. unfold dispatch. cbn [fst snd].
  split; [reflexivity|].
  destruct confirmed; [|simpl; intuition].
  remember (get_category k (categories jobState)) as c eqn:Ec.
  unfold note_ids in Hin.
  split; [|split; [|split; [|split]]].
  - rewrite <- Hk at 1. rewrite deleteNote_entry. simpl.
    now apply filter_absent_id.
  - rewrite <- Hk at 1. rewrite deleteNote_entry. reflexivity.
  - rewrite <- Hk at 1. rewrite deleteNote_entry. reflexivity.
  - intro H. rewrite <- Hk at 1. rewrite deleteNote_entry. simpl.
    rewrite (filter_absent_id _ _ Hin).
    destruct (notes c) as [|n l]; simpl; [|reflexivity].
    destruct H as [H | H]; [congruence|].
    destruct (status c); simpl; congruence.
  - intros k' Hne. unfold handleDeleteNote.
    rewrite update_other; [reflexivity | congruence].
Qed.

End View.

(** C7, as stated, fails: [handleFinalize] has no precondition.  Run on the
    required category [finds] with no notes, it makes the validation call,
    reports nothing, and on a passed validation marks the category
    [complete]. *)
Lemma finalize_has_no_precondition :
  let st' :=
    handleFinalize Stub.generateContent Stub.JSON_parse_validation
      (get_category finds (categories INITIAL_JOB_STATE))
      INITIAL_JOB_STATE (Stub.world [Stub.says "ok"]) in
  notes (get_category finds (categories INITIAL_JOB_STATE)) = []
  /\ log (snd st') = [Call (ReqValidate finds emptyData); OnBack]
  /\ attempts (log (snd st')) = 1%nat
  /\ alerts (log (snd st')) = []
  /\ status (get_category finds (categories (fst st'))) = complete.
Proof. cbv zeta. repeat split. Qed.

(** A run of the amended C7: the disabled button on the empty [finds], and
    the empty [additional_notes] finalized. *)
Lemma finalize_gate_witness :
  clickFinalize Stub.generateContent Stub.JSON_parse_validation
    (get_category finds (categories INITIAL_JOB_STATE)) false false
    INITIAL_JOB_STATE (Stub.world [Stub.says "ok"])
  = (INITIAL_JOB_STATE, Stub.world [Stub.says "ok"])
  /\ status
       (get_category additional_notes
          (categories
             (fst (clickFinalize Stub.generateContent Stub.JSON_parse_validation
                     (get_category additional_notes (categories INITIAL_JOB_STATE))
                     false false INITIAL_JOB_STATE (Stub.world [Stub.says "ok"])))))
     = complete.
Proof.
  destruct (finalize_gate Stub.generateContent Stub.JSON_parse_validation)
    as [Hreq Hopt].
  split.
  - apply (Hreq (get_category finds (categories INITIAL_JOB_STATE)) false false);
      [discriminate | reflexivity].
  - destruct (Hopt INITIAL_JOB_STATE (Stub.world [Stub.says "ok"]) eq_refl eq_refl)
      as [_ H].
    destruct (H {| isComplete := true; r_missingInfo := [] |}
                (mkWorld [] [Call (ReqValidate additional_notes emptyData)])
                eq_refl eq_refl) as (_ & Hs & _).
    exact Hs.
Defined.

(** C8, as stated, fails for text input: [handleTextSubmit] does not look
    for the sentinel, so an extraction of a text note that returns the
    transcript [NO_SPEECH_DETECTED] creates a note with that text. *)
Lemma text_note_ignores_sentinel :
  let c := get_category finds (categories INITIAL_JOB_STATE) in
  let st' :=
    handleTextSubmit Stub.generateContent Stub.JSON_parse_note c
      "Found one obsidian flake" 5 5
      INITIAL_JOB_STATE (Stub.world [Stub.says "NO_SPEECH_DETECTED"]) in
  let c' := get_category finds (categories (fst st')) in
  processTextNote Stub.generateContent Stub.JSON_parse_note
    "Found one obsidian flake" finds (map text (notes c)) (data c)
    (Stub.world [Stub.says "NO_SPEECH_DETECTED"])
  = (Resolved {| transcript := "NO_SPEECH_DETECTED";
                 updatedData := JObj [("summary", JStr "NO_SPEECH_DETECTED")] |},
     mkWorld [] [Call (ReqText "Found one obsidian flake" finds emptyData)])
  /\ notes c' = [mkNote "5" "NO_SPEECH_DETECTED" 5]
  /\ status c' = in_progress
  /\ ~ (notes c' = notes c /\ status c' = status c /\ data c' = data c).
Proof.
  cbv zeta. repeat split. intros (H & _). discriminate H.
Qed.

(** A run of the amended C8: the sentinel and a transcript on the voice path. *)
Lemma no_speech_creates_no_note_witness :
  fst (handleAudioProcess Stub.generateContent Stub.JSON_parse_note
         (get_category finds (categories INITIAL_JOB_STATE))
         (Resolved "UklGRg==") "audio/webm" 5 5
         INITIAL_JOB_STATE (Stub.world [Stub.says "NO_SPEECH_DETECTED"]))
  = INITIAL_JOB_STATE
  /\ status
       (get_category finds
          (categories
             (fst (handleAudioProcess Stub.generateContent Stub.JSON_parse_note
                     (get_category finds (categories INITIAL_JOB_STATE))
                     (Resolved "UklGRg==") "audio/webm" 5 5
                     INITIAL_JOB_STATE
                     (Stub.world [Stub.says "Found one obsidian flake"])))))
     = in_progress.
Proof.
  split.
  - destruct (no_speech_creates_no_note Stub.generateContent Stub.JSON_parse_note
                (get_category finds (categories INITIAL_JOB_STATE))
                "audio/webm" 5 5 INITIAL_JOB_STATE
                (Stub.world [Stub.says "NO_SPEECH_DETECTED"])) as (Hvoice & _ & _).
    destruct (Hvoice "UklGRg=="
                {| transcript := "NO_SPEECH_DETECTED";
                   updatedData := JObj [("summary", JStr "NO_SPEECH_DETECTED")] |}
                (mkWorld [] [Call (ReqVoice "UklGRg==" "audio/webm" finds emptyData)])
                eq_refl) as [Hsilent _].
    exact (Hsilent eq_refl).
  - destruct (no_speech_creates_no_note Stub.generateContent Stub.JSON_parse_note
                (get_category finds (categories INITIAL_JOB_STATE))
                "audio/webm" 5 5 INITIAL_JOB_STATE
                (Stub.world [Stub.says "Found one obsidian flake"])) as (Hvoice & _ & _).
    destruct (Hvoice "UklGRg=="
                {| transcript := "Found one obsidian flake";
                   updatedData := JObj [("summary", JStr "Found one obsidian flake")] |}
                (mkWorld [] [Call (ReqVoice "UklGRg==" "audio/webm" finds emptyData)])
                eq_refl) as [_ Hnote].
    destruct Hnote as (_ & _ & Hs); [discriminate | exact Hs].
Defined.

(** C9, as stated, fails: removing an id that no note of the category has
    reports nothing; the update is sent as for any other id. *)
Lemma unknown_id_reports_nothing :
  let st' :=
    Stub.dispatch (DeleteNote finds "7" true)
      (Stub.withFinds Stub.oneNote, Stub.world []) in
  ~ In "7" (note_ids Stub.oneNote)
  /\ log (snd st') = []
  /\ alerts (log (snd st')) = []
  /\ fst st' = Stub.withFinds Stub.oneNote.
Proof.
  cbv zeta. split; [|repeat split].
  intros [H | []]. discriminate H.
Qed.

(** A run of the amended C9, on the same removal. *)
Lemma remove_unknown_id_witness :
  let st' :=
    Stub.dispatch (DeleteNote finds "7" true)
      (Stub.withFinds Stub.oneNote, Stub.world []) in
  snd st' = Stub.world []
  /\ notes (get_category finds (categories (fst st'))) = notes Stub.oneNote
  /\ status (get_category finds (categories (fst st'))) = in_progress.
Proof.
  cbv zeta.
  assert (Hin : ~ In "7" (note_ids (get_category finds
                                      (categories (Stub.withFinds Stub.oneNote))))).
  { intros [H | []]. discriminate H. }
  destruct (remove_unknown_id Stub.generateContent Stub.JSON_parse_note
              Stub.JSON_parse_validation (Stub.withFinds Stub.oneNote) finds "7" true
              (Stub.world []) eq_refl Hin) as (Hw & Hn & _ & _ & Hs & _).
  split; [exact Hw|]. split; [exact Hn|].
  apply Hs. left. discriminate.
Defined.

(* ================================================================== *)
(** ** More on the retry wrapper and the gateway operations *)

Lemma backs_app l1 l2 : backs (l1 ++ l2) = (backs l1 + backs l2)%nat.
Proof. unfold backs. now rewrite filter_app, length_app. Qed.

Lemma backoff_trace_more req i n :
  (1 <= n)%nat ->
  backoff_trace req i (S n)
  = Call req :: Sleep (1000 * 2 ^ Z.of_nat i) :: backoff_trace req (S i) n.
Proof. destruct n; [lia | reflexivity]. Qed.

Lemma backoff_trace_effects req n : forall i,
  backs (backoff_trace req i n) = 0%nat
  /\ alerts (backoff_trace req i n) = []
  /\ attempts (backoff_trace req i n) = n.
Proof.
  induction n as [|n IH]; intro i; [repeat split|].
  destruct n as [|n]; [repeat split|].
  destruct (IH (S i)) as (Hb & Ha & Hc).
  change (backoff_trace req i (S (S n)))
    with ([Call req; Sleep (1000 * 2 ^ Z.of_nat i)] ++ backoff_trace req (S i) (S n)).
  split; [|split].
  - rewrite backs_app, Hb. reflexivity.
  - unfold alerts in *. rewrite flat_map_app, Ha. reflexivity.
  - rewrite attempts_app, Hc. reflexivity.
Qed.

Lemma handleAIError_range (e : Thrown) :
  exists m, In m userMessages /\ handleAIError e = Error m.
Proof.
  unfold handleAIError, userMessages.
  repeat match goal with
         | |- context [if ?b then _ else _] => destruct b
         end;
    eexists; (split; [|reflexivity]); simpl; auto.
Qed.

Section RetryMore.

Context {Backend : Type}.
Variable generateContent :
  Request -> Backend -> Settled GenerateContentResponse * Backend.

Local Abbreviation send := (ai_models_generateContent generateContent).

(** The loop from index [i] with [k >= 1] iterations left. *)
Lemma callWithRetry_from_trace req retries k : forall i (w : World Backend),
  (1 <= k)%nat -> (i + k = retries)%nat ->
  exists n, (1 <= n <= k)%nat
    /\ log (snd (callWithRetry_from (send req) retries k i w))
       = log w ++ backoff_trace req i n.
Proof.
  induction k as [|k IH]; intros i w Hk Hik; [lia|].
  destruct (generateContent req (backend w)) as [[r | e] s1] eqn:Eg.
  - rewrite (retry_step_resolved generateContent req retries k i w r s1 Eg).
    exists 1%nat. split; [lia | reflexivity].
  - destruct (isRateLimit e && (Z.of_nat i <? Z.of_nat retries - 1)) eqn:Ec.
    + apply andb_true_iff in Ec. destruct Ec as [He Hlt].
      apply Z.ltb_lt in Hlt.
      rewrite (retry_step_again generateContent req retries k i w e s1 Eg He Hlt).
      destruct (IH (S i) (mkWorld s1 (log w ++ [Call req; Sleep (1000 * 2 ^ Z.of_nat i)])))
        as (n & Hn & Hlog); [lia | lia |].
      exists (S n). split; [lia|].
      rewrite Hlog. simpl log.
      rewrite backoff_trace_more by lia.
      rewrite <- !app_assoc. reflexivity.
    + rewrite (retry_step_surfaced generateContent req retries k i w e s1 Eg Ec).
      exists 1%nat. split; [lia | reflexivity].
Qed.

(** X1.  For every bound [retries >= 1], every run of [callWithRetry] on a
    backend request makes between one and [retries] attempts and leaves in
    the log exactly these attempts with, before the attempt of index [i + 1],
    one sleep of [1000 * 2 ^ i] ms: nothing else happens, and the last
    attempt is never followed by a sleep. *)
Theorem callWithRetry_backoff_trace (req : Request) (retries : nat)
    (w : World Backend) :
  (1 <= retries)%nat ->
  exists n, (1 <= n <= retries)%nat
    /\ log (snd (callWithRetry (send req) retries w))
       = log w ++ backoff_trace req 0 n.
Proof.
  intro H. unfold callWithRetry.
  apply callWithRetry_from_trace; lia.
Qed.

(** The same for the body shared by the four operations. *)
Lemma guarded_trace {T : Type} req noText (parse : string -> Settled T)
    (w : World Backend) :
  exists n, (1 <= n <= 3)%nat
    /\ log (snd (guarded generateContent req noText parse w))
       = log w ++ backoff_trace req 0 n.
Proof.
  destruct (callWithRetry_from_trace req 3 3 0 w) as (n & Hn & Hlog); [lia | lia |].
  fold (callWithRetry (send req) 3 w) in Hlog.
  exists n. split; [exact Hn|].
  unfold guarded.
  destruct (callWithRetry (send req) 3 w) as [[response | e] w1]; simpl in *.
  - destruct (truthy (resp_text response)); [|exact Hlog].
    destruct (parse _); exact Hlog.
  - exact Hlog.
Qed.

Lemma guarded_rejection {T : Type} req noText (parse : string -> Settled T)
    (w w' : World Backend) e :
  guarded generateContent req noText parse w = (Rejected e, w') ->
  exists m, In m userMessages /\ e = Error m.
Proof.
  unfold guarded.
  destruct (callWithRetry (send req) 3 w) as [[response | e0] w1].
  - destruct (truthy (resp_text response)).
    + destruct (parse _) as [v | e1]; intro H; inversion H; subst.
      apply handleAIError_range.
    + intro H; inversion H; subst. apply handleAIError_range.
  - intro H; inversion H; subst. apply handleAIError_range.
Qed.

(** The wrapper resolves with what the backend resolved the request with,
    after rate-limit failures only. *)
Lemma callWithRetry_resolves_with_a_call req (retries : nat) :
  forall (k i : nat) (w w' : World Backend) (response : GenerateContentResponse),
  callWithRetry_from (send req) retries k i w = (Resolved response, w') ->
  exists n s0,
    (n < k)%nat
    /\ RateLimitedAttempts generateContent req n (backend w) s0
    /\ generateContent req s0 = (Resolved response, backend w')
    /\ log w' = (log w ++ backoff_trace req i (S n))%list.
Proof.
  induction k as [|k IH]; intros i w w' response H; simpl in H; [discriminate H|].
  unfold ai_models_generateContent in H at 1.
  destruct (generateContent req (backend w)) as [[v0 | e0] s1] eqn:Eg.
  - inversion H; subst. exists 0%nat, (backend w). simpl.
    split; [lia|]. split; [reflexivity|]. split; [exact Eg | reflexivity].
  - destruct (isRateLimit e0 && (Z.of_nat i <? Z.of_nat retries - 1)) eqn:Ec;
      [|discriminate H].
    apply andb_true_iff in Ec. destruct Ec as [Ec _].
    apply isRateLimit_spec in Ec.
    destruct (IH _ _ _ _ H) as (n & s0 & Hn & Hchain & Hcall & Hlog).
    exists (S n), s0. split; [lia|]. split.
    + exists e0, s1. repeat split; assumption.
    + split; [exact Hcall|]. rewrite Hlog. simpl.
      rewrite <- !app_assoc. reflexivity.
Qed.

Lemma guarded_success {T : Type} req noText (parse : string -> Settled T)
    (w w' : World Backend) v :
  guarded generateContent req noText parse w = (Resolved v, w') ->
  ParsedReply generateContent req parse w w' v.
Proof.
  intro H. unfold guarded in H.
  destruct (callWithRetry (send req) 3 w) as [[response | e0] w1] eqn:Ecall;
    [|discriminate H].
  destruct (resp_text response) as [txt|] eqn:Et; simpl in H; [|discriminate H].
  destruct (txt =? "")%string eqn:E; simpl in H; [discriminate H|].
  apply String.eqb_neq in E.
  destruct (parse txt) as [v0 | e1] eqn:Ep; inversion H; subst.
  destruct (callWithRetry_resolves_with_a_call _ _ _ _ _ _ _ Ecall)
    as (n & s0 & Hn & Hchain & Hcall & Hlog).
  exists n, s0, response, txt.
  split; [lia|]. repeat split; assumption.
Qed.

(** X2.  Whatever the thunk [fn] does: with [retries = 0] the wrapper calls
    nothing and fails with "Max retries exceeded"; with [retries >= 1] that
    error is never produced by the wrapper, and an error the wrapper
    surfaces is the very error of the last call of [fn], in the world that
    call left. *)
Theorem callWithRetry_surfaces_last_error {T : Type}
    (fn : World Backend -> Settled T * World Backend) (retries : nat)
    (w : World Backend) :
  (retries = 0%nat ->
   callWithRetry fn retries w = (Rejected (Error "Max retries exceeded"), w))
  /\ ((1 <= retries)%nat ->
      forall e w', callWithRetry fn retries w = (Rejected e, w') ->
                   exists w0, fn w0 = (Rejected e, w')).
Proof.
  split; [intros ->; reflexivity|].
  intro Hr. unfold callWithRetry.
  assert (H : forall k i w0, (1 <= k)%nat -> (i + k = retries)%nat ->
            forall e w', callWithRetry_from fn retries k i w0 = (Rejected e, w') ->
                         exists w1, fn w1 = (Rejected e, w')).
  { induction k as [|k IH]; intros i w0 Hk Hik e w' Hres; [lia|].
    simpl in Hres.
    destruct (fn w0) as [[v | e0] w1] eqn:Efn; [discriminate Hres|].
    destruct (isRateLimit e0 && (Z.of_nat i <? Z.of_nat retries - 1)) eqn:Ec.
    - apply andb_true_iff in Ec. destruct Ec as [_ Hlt]. apply Z.ltb_lt in Hlt.
      apply (IH (S i) _) in Hres; [exact Hres | lia | lia].
    - inversion Hres; subst. now exists w0. }
  apply (H retries 0%nat w); lia.
Qed.

End RetryMore.

(** A run of X1: three rate-limit failures and the bound 3. *)
Lemma callWithRetry_backoff_trace_witness :
  exists n, (1 <= n <= 3)%nat
    /\ log (snd (callWithRetry
                   (ai_models_generateContent Stub.generateContent
                      (ReqValidate finds emptyData)) 3
                   (Stub.world [ Rejected Stub.rateLimited; Rejected Stub.rateLimited;
                                 Rejected Stub.rateLimited ])))
       = [] ++ backoff_trace (ReqValidate finds emptyData) 0 n.
Proof.
  apply (callWithRetry_backoff_trace Stub.generateContent
           (ReqValidate finds emptyData) 3
           (Stub.world [ Rejected Stub.rateLimited; Rejected Stub.rateLimited;
                         Rejected Stub.rateLimited ])).
  lia.
Defined.

(** A run of X2: the third rate-limit failure is the error surfaced. *)
Lemma callWithRetry_surfaces_last_error_witness :
  exists w0,
    ai_models_generateContent Stub.generateContent (ReqValidate finds emptyData) w0
    = (Rejected Stub.rateLimited,
       mkWorld []
         [ Call (ReqValidate finds emptyData); Sleep 1000;
           Call (ReqValidate finds emptyData); Sleep 2000;
           Call (ReqValidate finds emptyData) ]).
Proof.
  destruct (callWithRetry_surfaces_last_error
              (ai_models_generateContent Stub.generateContent
                 (ReqValidate finds emptyData)) 3
              (Stub.world [ Rejected Stub.rateLimited; Rejected Stub.rateLimited;
                            Rejected Stub.rateLimited ])) as [_ H].
  apply H; [lia | reflexivity].
Defined.

(** A run of X3: the HTTP 429 of the scripted backend. *)
Lemma rate_limit_is_reported_busy_witness :
  isRateLimit Stub.rateLimited = true
  /\ handleAIError Stub.rateLimited
     = Error "⚠️ System Busy (Quota Exceeded). We are retrying, but if this persists, please wait 60 seconds.".
Proof.
  split; [reflexivity|].
  apply (rate_limit_is_reported_busy Stub.rateLimited). reflexivity.
Defined.

Section Outcomes.

Context {Backend : Type}.
Variable generateContent :
  Request -> Backend -> Settled GenerateContentResponse * Backend.
Variable JSON_parse_note : string -> Settled NoteResult.
Variable JSON_parse_validation : string -> Settled ValidationResult.
Variable JSON_parse_report : string -> Settled FieldReport.

(** X4.  Whatever goes wrong inside a gateway operation (a backend error,
    a reply without text, a reply that does not parse), the operation
    rejects with an [Error] whose message is one of the three user
    messages of [handleAIError]. *)
Theorem gateway_rejects_with_user_message (w w' : World Backend) (e : Thrown) :
  (forall audioBase64 mimeType categoryId currentNotes currentData,
      processVoiceNote generateContent JSON_parse_note
        audioBase64 mimeType categoryId currentNotes currentData w = (Rejected e, w') ->
      exists m, In m userMessages /\ e = Error m)
  /\ (forall text categoryId currentNotes currentData,
        processTextNote generateContent JSON_parse_note
          text categoryId currentNotes currentData w = (Rejected e, w') ->
        exists m, In m userMessages /\ e = Error m)
  /\ (forall categoryId data,
        validateCategory generateContent JSON_parse_validation categoryId data w
        = (Rejected e, w') ->
        exists m, In m userMessages /\ e = Error m)
  /\ (forall jobState,
        generateFinalJobReport generateContent JSON_parse_report jobState w
        = (Rejected e, w') ->
        exists m, In m userMessages /\ e = Error m).
Proof.
  split; [|split; [|split]]; intros;
    eapply guarded_rejection; eassumption.
Qed.

(** X5.  A reply of the backend without text ([response.text] undefined or
    empty) makes every gateway operation fail with "AI Processing Failed"
    after that one attempt: there is no retry, and the text is not parsed. *)
Theorem reply_without_text_fails (w : World Backend)
    (response : GenerateContentResponse) (s1 : Backend) :
  truthy (resp_text response) = false ->
  let failed := Error "⚠️ AI Processing Failed. Please try again." in
  (forall audioBase64 mimeType categoryId currentNotes currentData,
      generateContent (ReqVoice audioBase64 mimeType categoryId currentData) (backend w)
      = (Resolved response, s1) ->
      processVoiceNote generateContent JSON_parse_note
        audioBase64 mimeType categoryId currentNotes currentData w
      = (Rejected failed,
         mkWorld s1 (log w ++ [Call (ReqVoice audioBase64 mimeType categoryId currentData)])))
  /\ (forall text categoryId currentNotes currentData,
        generateContent (ReqText text categoryId currentData) (backend w)
        = (Resolved response, s1) ->
        processTextNote generateContent JSON_parse_note
          text categoryId currentNotes currentData w
        = (Rejected failed,
           mkWorld s1 (log w ++ [Call (ReqText text categoryId currentData)])))
  /\ (forall categoryId data,
        generateContent (ReqValidate categoryId data) (backend w)
        = (Resolved response, s1) ->
        validateCategory generateContent JSON_parse_validation categoryId data w
        = (Rejected failed,
           mkWorld s1 (log w ++ [Call (ReqValidate categoryId data)])))
  /\ (forall jobState,
        generateContent (ReqReport (categories jobState) (additionalNotes jobState))
          (backend w) = (Resolved response, s1) ->
        generateFinalJobReport generateContent JSON_parse_report jobState w
        = (Rejected failed,
           mkWorld s1 (log w ++ [Call (ReqReport (categories jobState)
                                         (additionalNotes jobState))]))).
Proof.
  intro Hf. cbv zeta.
  split; [|split; [|split]]; intros;
    unfold processVoiceNote, processTextNote, validateCategory,
      generateFinalJobReport, guarded, callWithRetry;
    erewrite retry_step_resolved by eassumption;
    rewrite Hf; reflexivity.
Qed.

(** X6.  A gateway operation resolves only with the value that
    [JSON.parse] produced from the non-empty text of a reply of the backend
    to the operation's own request: starting from the backend as the
    operation found it, at most two attempts were rejected with a rate-limit
    error, the next attempt got that reply and left the backend as the
    operation leaves it, and the log grew by those attempts and the sleeps
    between them, nothing else. *)
Theorem gateway_resolves_with_parsed_reply (w w' : World Backend) :
  (forall audioBase64 mimeType categoryId currentNotes currentData v,
      processVoiceNote generateContent JSON_parse_note
        audioBase64 mimeType categoryId currentNotes currentData w = (Resolved v, w') ->
      ParsedReply generateContent
        (ReqVoice audioBase64 mimeType categoryId currentData) JSON_parse_note w w' v)
  /\ (forall text categoryId currentNotes currentData v,
        processTextNote generateContent JSON_parse_note
          text categoryId currentNotes currentData w = (Resolved v, w') ->
        ParsedReply generateContent
          (ReqText text categoryId currentData) JSON_parse_note w w' v)
  /\ (forall categoryId data v,
        validateCategory generateContent JSON_parse_validation categoryId data w
        = (Resolved v, w') ->
        ParsedReply generateContent
          (ReqValidate categoryId data) JSON_parse_validation w w' v)
  /\ (forall jobState v,
        generateFinalJobReport generateContent JSON_parse_report jobState w
        = (Resolved v, w') ->
        ParsedReply generateContent
          (ReqReport (categories jobState) (additionalNotes jobState))
          JSON_parse_report w w' v).
Proof.
  split; [|split; [|split]]; intros;
    eapply guarded_success; eassumption.
Qed.

End Outcomes.

(** A run of X4: the backend is down. *)
Lemma gateway_rejects_with_user_message_witness :
  exists m, In m userMessages
    /\ Error "⚠️ Network Error. Please check your internet connection." = Error m.
Proof.
  destruct (gateway_rejects_with_user_message
              Stub.generateContent Stub.JSON_parse_note Stub.JSON_parse_validation
              Stub.JSON_parse_report (Stub.world [])
              (mkWorld [] [Call (ReqValidate finds emptyData)])
              (Error "⚠️ Network Error. Please check your internet connection."))
    as (_ & _ & H & _).
  apply (H finds emptyData). reflexivity.
Defined.

(** A run of X5: a reply with an empty text to a validation request. *)
Lemma reply_without_text_fails_witness :
  validateCategory Stub.generateContent Stub.JSON_parse_validation finds emptyData
    (Stub.world [Stub.says ""; Stub.says "ok"])
  = (Rejected (Error "⚠️ AI Processing Failed. Please try again."),
     mkWorld [Stub.says "ok"] [Call (ReqValidate finds emptyData)]).
Proof.
  destruct (reply_without_text_fails
              Stub.generateContent Stub.JSON_parse_note Stub.JSON_parse_validation
              Stub.JSON_parse_report (Stub.world [Stub.says ""; Stub.says "ok"])
              {| resp_text := Some "" |} [Stub.says "ok"] eq_refl)
    as (_ & _ & H & _).
  apply (H finds emptyData). reflexivity.
Defined.

(** A run of X6: a validation that passes at the second attempt rests on
    the second reply of the backend. *)
Lemma gateway_resolves_with_parsed_reply_witness :
  ParsedReply Stub.generateContent (ReqValidate finds emptyData)
    Stub.JSON_parse_validation
    (Stub.world [Rejected Stub.rateLimited; Stub.says "ok"; Stub.says "material"])
    (mkWorld [Stub.says "material"]
       [ Call (ReqValidate finds emptyData); Sleep 1000;
         Call (ReqValidate finds emptyData) ])
    {| isComplete := true; r_missingInfo := [] |}.
Proof.
  destruct (gateway_resolves_with_parsed_reply
              Stub.generateContent Stub.JSON_parse_note Stub.JSON_parse_validation
              Stub.JSON_parse_report
              (Stub.world [Rejected Stub.rateLimited; Stub.says "ok"; Stub.says "material"])
              (mkWorld [Stub.says "material"]
                 [ Call (ReqValidate finds emptyData); Sleep 1000;
                   Call (ReqValidate finds emptyData) ]))
    as (_ & _ & H & _).
  apply (H finds emptyData). reflexivity.
Defined.

(* ================================================================== *)
(** ** The supplemental context, the schemas and the audio payload *)

Lemma or_string_nonempty o d : d <> "" -> or_string o d <> "".
Proof.
  intro Hd. unfold or_string. destruct o as [s|]; [|exact Hd].
  destruct (s =? "")%string eqn:E; [exact Hd|]. now apply String.eqb_neq.
Qed.

(** X7.  The supplemental context sent with a report request is never the
    empty string: it is [None] when [additional_notes] holds no note (and
    whenever the joined note texts are empty), and the note texts joined by
    line feeds otherwise. *)
Theorem additionalNotes_never_empty (jobState : JobState) :
  additionalNotes jobState <> ""
  /\ (notes (get_category additional_notes (categories jobState)) = [] ->
      additionalNotes jobState = "None")
  /\ (let joined :=
        join (String (ascii_of_nat 10) "")
          (map text (notes (get_category additional_notes (categories jobState)))) in
      joined <> "" -> additionalNotes jobState = joined).
Proof.
  unfold additionalNotes. simpl get_category.
  split; [apply or_string_nonempty; discriminate|]. split.
  - intros ->. reflexivity.
  - cbv zeta. intro H. unfold or_string.
    destruct (_ =? "")%string eqn:E; [|reflexivity].
    apply String.eqb_eq in E. contradiction.
Qed.

(** A run of X7: the initial job state, and one note. *)
Lemma additionalNotes_never_empty_witness :
  additionalNotes INITIAL_JOB_STATE = "None"
  /\ additionalNotes
       {| categories :=
            set_category additional_notes
              {| cat_id := additional_notes; title := "Additional Notes";
                 status := in_progress;
                 notes := [mkNote "5" "South gate blocked" 5];
                 data := emptyData; missingInfo := [] |}
              (categories INITIAL_JOB_STATE);
          isJobComplete := false |}
     = "South gate blocked".
Proof.
  split.
  - destruct (additionalNotes_never_empty INITIAL_JOB_STATE) as (_ & H & _).
    apply H. reflexivity.
  - match goal with
    | |- additionalNotes ?js = _ =>
        destruct (additionalNotes_never_empty js) as (_ & _ & H)
    end.
    apply H. discriminate.
Defined.

Lemma disjointb_spec l1 l2 :
  disjointb l1 l2 = true -> forall f, In f l1 -> ~ In f l2.
Proof.
  unfold disjointb. rewrite forallb_forall. intros H f H1 H2.
  specialize (H f H1). apply negb_true_iff in H.
  assert (E : existsb (String.eqb f) l2 = true).
  { apply existsb_exists. exists f. split; [exact H2 | apply String.eqb_refl]. }
  congruence.
Qed.

(** X8.  The extraction schema of every category is an object of at least
    two fields, each a string, a boolean or an array of strings (never a
    nested object); and no field name belongs to the schemas of two
    different categories. *)
Theorem schemas_flat_and_disjoint (k1 k2 : CategoryId) :
  (exists properties,
      getSchemaForCategory k1 = TypeOBJECT properties
      /\ (2 <= List.length properties)%nat
      /\ forallb (fun p => flatField (snd p)) properties = true)
  /\ (k1 <> k2 ->
      forall f, In f (propertyNames (getSchemaForCategory k1)) ->
                ~ In f (propertyNames (getSchemaForCategory k2))).
Proof.
  split.
  - destruct k1; eexists; (split; [reflexivity|]); split;
      solve [simpl; lia | reflexivity].
  - intro Hne. apply disjointb_spec.
    destruct k1, k2; try reflexivity; congruence.
Qed.

(** A run of X8: [material] is a field of [finds] and not of [excavations]. *)
Lemma schemas_flat_and_disjoint_witness :
  ~ In "material" (propertyNames (getSchemaForCategory excavations)).
Proof.
  destruct (schemas_flat_and_disjoint finds excavations) as [_ H].
  apply (H ltac:(discriminate) "material").
  simpl. auto.
Defined.

Lemma indexOf_from_absent_or_later s c : forall i,
  indexOf_from s c i = -1 \/ i <= indexOf_from s c i.
Proof.
  induction s as [|a r IH]; intro i; simpl; [now left|].
  destruct (Ascii.eqb a c); [right; lia|].
  destruct (IH (i + 1)) as [H | H]; [now left | right; lia].
Qed.

Lemma indexOf_from_first header c rest : forall i,
  0 <= i ->
  indexOf_from header c i = -1 ->
  indexOf_from (header ++ String c rest)%string c i
  = i + Z.of_nat (String.length header).
Proof.
  induction header as [|a r IH]; intros i Hi Habs; simpl.
  - rewrite Ascii.eqb_refl. lia.
  - simpl in Habs. destruct (Ascii.eqb a c); [lia|].
    rewrite IH by (assumption || lia). lia.
Qed.

Lemma substring_all s : String.substring 0 (String.length s) s = s.
Proof. induction s as [|a r IH]; simpl; [reflexivity | now rewrite IH]. Qed.

Lemma substring_skip header c rest :
  String.substring (S (String.length header)) (String.length rest)
    (header ++ String c rest)%string = rest.
Proof.
  induction header as [|a r IH]; simpl; [apply substring_all | exact IH].
Qed.

Lemma length_append (s1 s2 : string) :
  String.length (s1 ++ s2)%string = (String.length s1 + String.length s2)%nat.
Proof. induction s1 as [|a r IH]; simpl; [reflexivity | now rewrite IH]. Qed.

(** X9.  [blobToBase64] keeps what follows the first comma of the data URL:
    for a header without comma, [header,payload] gives [payload], whatever
    the payload holds; a result without any comma is returned whole; and a
    failure of the reader is the failure of the promise. *)
Theorem blobToBase64_payload :
  (forall header payload,
      indexOf header "," = -1 ->
      blobToBase64 (Resolved (header ++ String "," payload)%string) = Resolved payload)
  /\ (forall s, indexOf s "," = -1 -> blobToBase64 (Resolved s) = Resolved s)
  /\ (forall e, blobToBase64 (Rejected e) = Rejected e).
Proof.
  split; [|split]; [| |reflexivity].
  - intros header payload Hh. unfold blobToBase64, indexOf in *.
    rewrite (indexOf_from_first header "," payload 0) by (lia || assumption).
    destruct (0 + Z.of_nat (String.length header) =? -1) eqn:E;
      [apply Z.eqb_eq in E; lia|].
    simpl negb. cbv iota. f_equal. unfold substring_from.
    replace (Z.to_nat (0 + Z.of_nat (String.length header) + 1))
      with (S (String.length header)) by lia.
    rewrite length_append. simpl String.length.
    replace (String.length header + S (String.length payload)
             - S (String.length header))%nat
      with (String.length payload) by lia.
    apply substring_skip.
  - intros s Hs. unfold blobToBase64. rewrite Hs. reflexivity.
Qed.

(** A run of X9: the data URL of a recording, with a comma in the payload
    position only. *)
Lemma blobToBase64_payload_witness :
  blobToBase64 (Resolved "data:audio/webm;codecs=opus;base64,GkXfo59ChoEB")
  = Resolved "GkXfo59ChoEB"
  /\ blobToBase64 (Resolved "GkXfo59ChoEB") = Resolved "GkXfo59ChoEB".
Proof.
  destruct blobToBase64_payload as (Hcut & Hwhole & _).
  split.
  - apply (Hcut "data:audio/webm;codecs=opus;base64" "GkXfo59ChoEB"). reflexivity.
  - apply Hwhole. reflexivity.
Defined.

(* ================================================================== *)
(** ** More on the category state machine *)

Lemma set_set k a b cs : set_category k a (set_category k b cs) = set_category k a cs.
Proof. destruct k; reflexivity. Qed.

Lemma filter_twice {A : Type} (f : A -> bool) (l : list A) :
  filter f (filter f l) = filter f l.
Proof.
  induction l as [|x l IH]; [reflexivity|]. simpl.
  destruct (f x) eqn:E; simpl; rewrite ?E, IH; reflexivity.
Qed.

Lemma userMessage_shown m fallback :
  In m userMessages -> or_string (err_message (Error m)) fallback = m.
Proof.
  unfold userMessages. simpl.
  intros [<- | [<- | [<- | []]]]; reflexivity.
Qed.

Section Machine.

Context {Backend : Type}.
Variable generateContent :
  Request -> Backend -> Settled GenerateContentResponse * Backend.
Variable JSON_parse_note : string -> Settled NoteResult.
Variable JSON_parse_validation : string -> Settled ValidationResult.

Local Abbreviation step := (dispatch generateContent JSON_parse_note JSON_parse_validation).
Local Abbreviation runs := (run generateContent JSON_parse_note JSON_parse_validation).

(** [dispatch_cases], with the category named. *)
Lemma dispatch_shape a jobState (w : World Backend) :
  let next := fst (step a (jobState, w)) in
  let category := get_category (actionCategory a) (categories jobState) in
  next = jobState
  \/ (exists now_id now_ts text d,
        next = addNote category now_id now_ts text d jobState)
  \/ (exists noteId, next = handleDeleteNote category noteId true jobState)
  \/ next = handleUpdateCategory (cat_id category) markComplete jobState
  \/ (exists m, next = handleUpdateCategory (cat_id category) (markMissing m) jobState).
Proof.
  cbv zeta. destruct a as [k b m ni nt | k t ni nt | k id c | k]; simpl.
  - unfold handleAudioProcess. destruct b as [b | e]; [|now left].
    destruct (processVoiceNote _ _ _ _ _ _ _ w) as [[r | e] w1]; [|now left].
    destruct (transcript r =? "NO_SPEECH_DETECTED")%string; [now left|].
    right; left. now exists ni, nt, (transcript r), (updatedData r).
  - unfold handleTextSubmit. destruct (blank t); [now left|].
    destruct (processTextNote _ _ _ _ _ _ w) as [[r | e] w1]; [|now left].
    right; left. now exists ni, nt, (transcript r), (updatedData r).
  - destruct c; [|now left].
    right; right; left. now exists id.
  - unfold clickFinalize.
    destruct (finalizeDisabled _ _ _); [now left|].
    pose proof (handleFinalize_cases generateContent JSON_parse_validation
                  (get_category k (categories jobState)) jobState w) as H.
    destruct (validateCategory _ _ _ _ w) as [[r | e] w1].
    + destruct (isComplete r); rewrite H; simpl.
      * right; right; right; now left.
      * right; right; right; right. now exists (r_missingInfo r).
    + rewrite H. now left.
Qed.

(** X10.  After every sequence of user actions on the initial job state, a
    category whose status is [in_progress] holds at least one note. *)
Theorem in_progress_implies_notes (actions : list Action) (w : World Backend)
    (k : CategoryId) :
  let jobState := fst (runs actions (INITIAL_JOB_STATE, w)) in
  status (get_category k (categories jobState)) = in_progress ->
  notes (get_category k (categories jobState)) <> [].
Proof.
  cbv zeta. revert k.
  apply (run_invariant generateContent JSON_parse_note JSON_parse_validation
           (fun js => forall k, in_progress_has_notes (get_category k (categories js)))).
  - intros a js w' Hinv k'. unfold in_progress_has_notes.
    destruct (dispatch_shape a js w')
      as [E | [(ni & nt & t & d & E) | [(id & E) | [E | (m & E)]]]];
      rewrite E; clear E;
      set (c := get_category (actionCategory a) (categories js)) in *.
    + apply Hinv.
    + destruct (CategoryId_eq_dec k' (cat_id c)) as [-> | Hne].
      * rewrite addNote_entry. simpl. intros _ H.
        apply app_eq_nil in H. destruct H as [_ H]. discriminate H.
      * rewrite addNote_other by assumption. apply Hinv.
    + destruct (CategoryId_eq_dec k' (cat_id c)) as [-> | Hne].
      * rewrite deleteNote_entry. simpl.
        destruct (filter _ (notes c)) eqn:Ef; simpl; [|intros _; discriminate].
        destruct (status c); simpl; discriminate.
      * unfold handleDeleteNote. rewrite update_other by assumption. apply Hinv.
    + destruct (CategoryId_eq_dec k' (cat_id c)) as [-> | Hne].
      * rewrite update_same. simpl. discriminate.
      * rewrite update_other by assumption. apply Hinv.
    + destruct (CategoryId_eq_dec k' (cat_id c)) as [-> | Hne].
      * rewrite update_same. simpl. apply Hinv.
      * rewrite update_other by assumption. apply Hinv.
  - intros k' H. destruct k'; discriminate H.
Qed.

Lemma identity_invariant_step a jobState (w : World Backend) :
  identity_invariant jobState ->
  identity_invariant (fst (step a (jobState, w))).
Proof.
  intros (Hk & Ht & Hj).
  split; [now apply dispatch_keeps_keys|].
  destruct (dispatch_shape a jobState w)
    as [E | [(ni & nt & t & d & E) | [(id & E) | [E | (m & E)]]]];
    rewrite E; clear E;
    set (c := get_category (actionCategory a) (categories jobState)) in *;
    (split; [|exact Hj]); try exact Ht; intro k';
    (destruct (CategoryId_eq_dec k' (cat_id c)) as [-> | Hne];
     [|unfold addNote, handleDeleteNote;
       rewrite update_other by assumption; apply Ht]).
  - rewrite addNote_entry. simpl. apply Ht.
  - rewrite deleteNote_entry. simpl. subst c.
    rewrite (Hk (actionCategory a)). apply Ht.
  - rewrite update_same. simpl. apply Ht.
  - rewrite update_same. simpl. apply Ht.
Qed.

(** X11.  No sequence of user actions changes the identity of a category:
    after every run from the initial job state each entry still carries its
    own key as [id] and its initial title, and the stored [isJobComplete]
    is still [false]. *)
Theorem run_keeps_identity (actions : list Action) (w : World Backend) :
  let jobState := fst (runs actions (INITIAL_JOB_STATE, w)) in
  (forall k, cat_id (get_category k (categories jobState)) = k
             /\ title (get_category k (categories jobState))
                = title (get_category k (categories INITIAL_JOB_STATE)))
  /\ isJobComplete jobState = false.
Proof.
  cbv zeta.
  assert (H : identity_invariant (fst (runs actions (INITIAL_JOB_STATE, w)))).
  { apply (run_invariant generateContent JSON_parse_note JSON_parse_validation
             identity_invariant).
    - intros a js w'. apply identity_invariant_step.
    - split; [apply initial_keys|]. split; reflexivity. }
  destruct H as (Hk & Ht & Hj). split; [|exact Hj].
  intro k. split; [apply Hk | apply Ht].
Qed.

(** X12.  A user action touches the category in view only: on a job state
    whose entries carry their own key, every other category is the same
    before and after. *)
Theorem action_touches_one_category (a : Action) (jobState : JobState)
    (w : World Backend) (k : CategoryId) :
  keys_consistent jobState ->
  k <> actionCategory a ->
  get_category k (categories (fst (step a (jobState, w))))
  = get_category k (categories jobState).
Proof.
  intros Hk Hne.
  destruct (dispatch_shape a jobState w)
    as [E | [(ni & nt & t & d & E) | [(id & E) | [E | (m & E)]]]];
    rewrite E; clear E; [reflexivity| | | |];
    unfold addNote, handleDeleteNote;
    apply update_other; rewrite (Hk (actionCategory a)); exact Hne.
Qed.

End Machine.

(** A run of X10: a text note on [finds]. *)
Lemma in_progress_implies_notes_witness :
  let jobState :=
    fst (Stub.run [SubmitText finds "Found one obsidian flake" 5 5]
           (INITIAL_JOB_STATE, Stub.world [Stub.says "Found one obsidian flake"])) in
  status (get_category finds (categories jobState)) = in_progress
  /\ notes (get_category finds (categories jobState)) <> [].
Proof.
  cbv zeta. split; [reflexivity|].
  apply (in_progress_implies_notes
           Stub.generateContent Stub.JSON_parse_note Stub.JSON_parse_validation
           [SubmitText finds "Found one obsidian flake" 5 5]
           (Stub.world [Stub.says "Found one obsidian flake"]) finds).
  reflexivity.
Defined.

(** A run of X12: a text note on [finds] leaves [excavations] alone. *)
Lemma action_touches_one_category_witness :
  get_category excavations
    (categories
       (fst (Stub.dispatch (SubmitText finds "Found one obsidian flake" 5 5)
               (INITIAL_JOB_STATE, Stub.world [Stub.says "Found one obsidian flake"]))))
  = get_category excavations (categories INITIAL_JOB_STATE).
Proof.
  apply (action_touches_one_category
           Stub.generateContent Stub.JSON_parse_note Stub.JSON_parse_validation
           (SubmitText finds "Found one obsidian flake" 5 5) INITIAL_JOB_STATE
           (Stub.world [Stub.says "Found one obsidian flake"]) excavations).
  - apply initial_keys.
  - discriminate.
Defined.

Section Handling.

Context {Backend : Type}.
Variable generateContent :
  Request -> Backend -> Settled GenerateContentResponse * Backend.
Variable JSON_parse_note : string -> Settled NoteResult.
Variable JSON_parse_validation : string -> Settled ValidationResult.

Local Abbreviation step := (dispatch generateContent JSON_parse_note JSON_parse_validation).

(** X13.  When the gateway rejects, a handler changes nothing and shows
    exactly one alert, whose text is one of the three user messages (the
    handlers' own fallback texts are never shown for a gateway failure):
    no note is created by a failed extraction, and a failed validation
    changes neither status nor [missingInfo]. *)
Theorem gateway_failure_is_atomic (category : CategoryState)
    (jobState : JobState) (w w1 : World Backend) (e : Thrown) :
  (forall base64 mimeType now_id now_ts,
      processVoiceNote generateContent JSON_parse_note base64 mimeType
        (cat_id category) (map text (notes category)) (data category) w
      = (Rejected e, w1) ->
      exists m, In m userMessages
        /\ handleAudioProcess generateContent JSON_parse_note category
             (Resolved base64) mimeType now_id now_ts jobState w
           = (jobState, emit (Alert m) w1))
  /\ (forall textInput now_id now_ts,
        blank textInput = false ->
        processTextNote generateContent JSON_parse_note textInput
          (cat_id category) (map text (notes category)) (data category) w
        = (Rejected e, w1) ->
        exists m, In m userMessages
          /\ handleTextSubmit generateContent JSON_parse_note category
               textInput now_id now_ts jobState w
             = (jobState, emit (Alert m) w1))
  /\ (validateCategory generateContent JSON_parse_validation
        (cat_id category) (data category) w = (Rejected e, w1) ->
      exists m, In m userMessages
        /\ handleFinalize generateContent JSON_parse_validation category jobState w
           = (jobState, emit (Alert m) w1)).
Proof.
  split; [|split].
  - intros base64 mimeType now_id now_ts H.
    destruct (guarded_rejection _ _ _ _ _ _ _ H) as (m & Hm & ->).
    exists m. split; [exact Hm|].
    unfold handleAudioProcess. rewrite H. now rewrite userMessage_shown.
  - intros textInput now_id now_ts Hb H.
    destruct (guarded_rejection _ _ _ _ _ _ _ H) as (m & Hm & ->).
    exists m. split; [exact Hm|].
    unfold handleTextSubmit. rewrite Hb, H. now rewrite userMessage_shown.
  - intro H.
    destruct (guarded_rejection _ _ _ _ _ _ _ H) as (m & Hm & ->).
    exists m. split; [exact Hm|].
    unfold handleFinalize. rewrite H. now rewrite userMessage_shown.
Qed.

(** X14.  A user action costs at most three backend requests and shows at
    most one alert; a note removal and a blank text input cost nothing at
    all, they leave the world as it is. *)
Theorem action_cost (a : Action) (jobState : JobState) (w : World Backend) :
  let w' := snd (step a (jobState, w)) in
  (attempts (log w') <= attempts (log w) + 3)%nat
  /\ (List.length (alerts (log w')) <= List.length (alerts (log w)) + 1)%nat
  /\ (forall k noteId confirmed, a = DeleteNote k noteId confirmed -> w' = w)
  /\ (forall k textInput now_id now_ts,
        a = SubmitText k textInput now_id now_ts -> blank textInput = true -> w' = w).
Proof.
  cbv zeta.
  assert (Hsame : (attempts (log w) <= attempts (log w) + 3)%nat
                  /\ (List.length (alerts (log w)) <= List.length (alerts (log w)) + 1)%nat)
    by (split; lia).
  assert (Hg : forall T req noText (parse : string -> Settled T) r w1,
            guarded generateContent req noText parse w = (r, w1) ->
            forall tail, (List.length (alerts tail) <= 1)%nat -> attempts tail = 0%nat ->
            (attempts (log w1 ++ tail) <= attempts (log w) + 3)%nat
            /\ (List.length (alerts (log w1 ++ tail))
                <= List.length (alerts (log w)) + 1)%nat).
  { intros T req noText parse r w1 H tail Hal Hat.
    destruct (guarded_trace generateContent req noText parse w) as (n & Hn & Hlog).
    rewrite H in Hlog. simpl in Hlog. rewrite Hlog.
    destruct (backoff_trace_effects req n 0) as (_ & Ha & Hc).
    rewrite !attempts_app, Hc, Hat.
    unfold alerts in *. rewrite !flat_map_app, Ha, !length_app. simpl. lia. }
  assert (Hb : (attempts (log (snd (step a (jobState, w)))) <= attempts (log w) + 3)%nat
               /\ (List.length (alerts (log (snd (step a (jobState, w)))))
                   <= List.length (alerts (log w)) + 1)%nat).
  { destruct a as [k b m ni nt | k t ni nt | k id c | k]; simpl.
    - unfold handleAudioProcess. destruct b as [b | e].
      + destruct (processVoiceNote _ _ _ _ _ _ _ w) as [[r | e] w1] eqn:E;
          [destruct (transcript r =? "NO_SPEECH_DETECTED")%string|];
          unfold emit; simpl;
          first [ apply (Hg _ _ _ _ _ _ E); [simpl; lia | reflexivity]
                | rewrite <- (app_nil_r (log w1));
                  apply (Hg _ _ _ _ _ _ E); [simpl; lia | reflexivity] ].
      + simpl. rewrite attempts_app. unfold alerts.
        rewrite flat_map_app, length_app. unfold attempts at 2. simpl. lia.
    - unfold handleTextSubmit. destruct (blank t); [exact Hsame|].
      destruct (processTextNote _ _ _ _ _ _ w) as [[r | e] w1] eqn:E;
        unfold emit; simpl;
        first [ apply (Hg _ _ _ _ _ _ E); [simpl; lia | reflexivity]
              | rewrite <- (app_nil_r (log w1));
                apply (Hg _ _ _ _ _ _ E); [simpl; lia | reflexivity] ].
    - exact Hsame.
    - unfold clickFinalize.
      destruct (finalizeDisabled _ _ _); [exact Hsame|].
      unfold handleFinalize.
      destruct (validateCategory _ _ _ _ w) as [[r | e] w1] eqn:E;
        [destruct (isComplete r)|];
        unfold emit; simpl;
        first [ apply (Hg _ _ _ _ _ _ E); [simpl; lia | reflexivity]
              | rewrite <- (app_nil_r (log w1));
                apply (Hg _ _ _ _ _ _ E); [simpl; lia | reflexivity] ]. }
  destruct Hb as [H1 H2].
  split; [exact H1|]. split; [exact H2|]. split.
  - intros k noteId confirmed ->. reflexivity.
  - intros k textInput now_id now_ts -> Hbl. simpl.
    unfold handleTextSubmit. now rewrite Hbl.
Qed.

(** X15.  [handleFinalize] never touches the notes, the data, the title or
    the id of any category, whatever the validation answers; it leaves the
    status of every category as it was or sets it to [complete], and it
    never sets it to [not_started] or back to [in_progress]. *)
Theorem finalize_frame (category : CategoryState) (jobState : JobState)
    (w : World Backend) (k : CategoryId) :
  let c := get_category k (categories jobState) in
  let c' := get_category k
              (categories
                 (fst (handleFinalize generateContent JSON_parse_validation
                         category jobState w))) in
  notes c' = notes c
  /\ data c' = data c
  /\ title c' = title c
  /\ cat_id c' = cat_id c
  /\ (status c' = status c \/ status c' = complete)
  /\ (k <> cat_id category -> c' = c).
Proof.
  cbv zeta.
  pose proof (handleFinalize_cases generateContent JSON_parse_validation
                category jobState w) as H.
  destruct (validateCategory _ _ _ _ w) as [[r | e] w1];
    [destruct (isComplete r)|]; rewrite H; cbn [fst];
    try (repeat split; auto; fail);
    (destruct (CategoryId_eq_dec k (cat_id category)) as [-> | Hne];
     [rewrite update_same; simpl; repeat split; auto; congruence
     |rewrite update_other by assumption; repeat split; auto]).
Qed.

(** X16.  Removing a note twice is removing it once: on the entry of
    category [k], a second removal of the same id from the view of the new
    state gives the same job state as the first. *)
Theorem delete_is_idempotent (jobState : JobState) (k : CategoryId)
    (noteId : string) (confirmed : bool) (w : World Backend) :
  cat_id (get_category k (categories jobState)) = k ->
  step (DeleteNote k noteId confirmed)
    (step (DeleteNote k noteId confirmed) (jobState, w))
  = step (DeleteNote k noteId confirmed) (jobState, w).
Proof.
  intro Hk. simpl. f_equal.
  destruct confirmed; [|reflexivity].
  remember (get_category k (categories jobState)) as c eqn:Ec.
  assert (E1 : get_category k (categories (handleDeleteNote c noteId true jobState))
               = spread c
                   {| p_id := Some (cat_id c); p_title := Some (title c);
                      p_data := Some (data c); p_missingInfo := Some (missingInfo c);
                      p_notes := Some (filter (fun note => negb (note_id note =? noteId)%string)
                                         (notes c));
                      p_status :=
                        Some (if (List.length
                                    (filter (fun note => negb (note_id note =? noteId)%string)
                                       (notes c)) =? 0)%nat
                                 && negb (CategoryStatus_eqb (status c) complete)
                              then not_started else status c) |}).
  { rewrite <- Hk at 1. rewrite deleteNote_entry. reflexivity. }
  rewrite E1. unfold handleDeleteNote at 1 3. unfold handleUpdateCategory.
  simpl. rewrite Hk. rewrite set_set, get_set_same. rewrite <- Ec.
  f_equal. f_equal. unfold spread. simpl. rewrite filter_twice.
  f_equal.
  destruct (filter _ (notes c)); simpl; [|reflexivity].
  destruct (status c); reflexivity.
Qed.

(** X17.  Appending a note and then removing it, when its id is fresh,
    gives back the note list the category had; the data stays the
    extracted one, and the status is [not_started] if the list is empty and
    [in_progress] otherwise, whatever it was before (a [complete] category
    is not [complete] again). *)
Theorem append_then_remove (jobState : JobState) (k : CategoryId)
    (now_id now_ts : Z) (text : string) (updatedData : JSON) :
  cat_id (get_category k (categories jobState)) = k ->
  ~ In (toString now_id) (note_ids (get_category k (categories jobState))) ->
  let c := get_category k (categories jobState) in
  let appended := addNote c now_id now_ts text updatedData jobState in
  let removed :=
    handleDeleteNote (get_category k (categories appended))
      (toString now_id) true appended in
  let c' := get_category k (categories removed) in
  notes c' = notes c
  /\ data c' = updatedData
  /\ status c' = match notes c with [] => not_started | _ => in_progress end.
Proof.
  intros Hk Hfresh. cbv zeta.
  remember (get_category k (categories jobState)) as c eqn:Ec.
  assert (E1 : get_category k (categories (addNote c now_id now_ts text updatedData jobState))
               = {| cat_id := k; title := title c; status := in_progress;
                    notes := notes c ++ [mkNote (toString now_id) text now_ts];
                    data := updatedData; missingInfo := missingInfo c |}).
  { rewrite <- Hk at 1. rewrite addNote_entry. rewrite Hk, <- Ec, Hk. reflexivity. }
  rewrite E1.
  set (c1 := {| cat_id := k; title := title c; status := in_progress;
                notes := notes c ++ [mkNote (toString now_id) text now_ts];
                data := updatedData; missingInfo := missingInfo c |}).
  change k with (cat_id c1) at 1 2 3.
  rewrite deleteNote_entry. simpl.
  rewrite filter_app. simpl. rewrite String.eqb_refl. simpl.
  rewrite app_nil_r. unfold note_ids in Hfresh.
  rewrite (filter_absent_id _ _ Hfresh).
  repeat split. destruct (notes c); reflexivity.
Qed.

End Handling.

(** A run of X13: the backend is down while a text note is submitted. *)
Lemma gateway_failure_is_atomic_witness :
  exists m, In m userMessages
    /\ handleTextSubmit Stub.generateContent Stub.JSON_parse_note
         (get_category finds (categories INITIAL_JOB_STATE))
         "Found one obsidian flake" 5 5 INITIAL_JOB_STATE (Stub.world [])
       = (INITIAL_JOB_STATE,
          emit (Alert m)
            (mkWorld [] [Call (ReqText "Found one obsidian flake" finds emptyData)])).
Proof.
  destruct (gateway_failure_is_atomic
              Stub.generateContent Stub.JSON_parse_note Stub.JSON_parse_validation
              (get_category finds (categories INITIAL_JOB_STATE))
              INITIAL_JOB_STATE (Stub.world [])
              (mkWorld [] [Call (ReqText "Found one obsidian flake" finds emptyData)])
              (Error "⚠️ Network Error. Please check your internet connection."))
    as (_ & H & _).
  apply (H "Found one obsidian flake" 5 5); reflexivity.
Defined.

(** A run of X14: a removal leaves the world as it is. *)
Lemma action_cost_witness :
  snd (Stub.dispatch (DeleteNote finds "5" true)
         (Stub.withFinds Stub.oneNote, Stub.world [Stub.says "ok"]))
  = Stub.world [Stub.says "ok"].
Proof.
  destruct (action_cost Stub.generateContent Stub.JSON_parse_note
              Stub.JSON_parse_validation (DeleteNote finds "5" true)
              (Stub.withFinds Stub.oneNote) (Stub.world [Stub.says "ok"]))
    as (_ & _ & H & _).
  apply (H finds "5" true). reflexivity.
Defined.

(** A run of X15: a passed validation of [finds] leaves [excavations]. *)
Lemma finalize_frame_witness :
  get_category excavations
    (categories
       (fst (handleFinalize Stub.generateContent Stub.JSON_parse_validation
               Stub.oneNote (Stub.withFinds Stub.oneNote) (Stub.world [Stub.says "ok"]))))
  = get_category excavations (categories (Stub.withFinds Stub.oneNote)).
Proof.
  destruct (finalize_frame Stub.generateContent Stub.JSON_parse_validation
              Stub.oneNote (Stub.withFinds Stub.oneNote)
              (Stub.world [Stub.says "ok"]) excavations)
    as (_ & _ & _ & _ & _ & H).
  apply H. discriminate.
Defined.

(** A run of X16: the one note of [finds] removed twice. *)
Lemma delete_is_idempotent_witness :
  Stub.dispatch (DeleteNote finds "5" true)
    (Stub.dispatch (DeleteNote finds "5" true)
       (Stub.withFinds Stub.oneNote, Stub.world []))
  = Stub.dispatch (DeleteNote finds "5" true)
      (Stub.withFinds Stub.oneNote, Stub.world []).
Proof.
  apply (delete_is_idempotent Stub.generateContent Stub.JSON_parse_note
           Stub.JSON_parse_validation (Stub.withFinds Stub.oneNote) finds "5" true
           (Stub.world [])).
  reflexivity.
Defined.

(** A run of X17: a second note added to [finds] at reading 9 and removed. *)
Lemma append_then_remove_witness :
  let appended :=
    addNote Stub.oneNote 9 10 "Second flake" emptyData (Stub.withFinds Stub.oneNote) in
  let removed :=
    handleDeleteNote (get_category finds (categories appended)) "9" true appended in
  notes (get_category finds (categories removed)) = notes Stub.oneNote
  /\ status (get_category finds (categories removed)) = in_progress.
Proof.
  cbv zeta.
  assert (Hfresh : ~ In (toString 9)
                     (note_ids (get_category finds
                                  (categories (Stub.withFinds Stub.oneNote))))).
  { intros [H | []]. discriminate H. }
  destruct (append_then_remove (Stub.withFinds Stub.oneNote) finds 9 10
              "Second flake" emptyData eq_refl Hfresh) as (Hn & _ & Hs).
  split; [exact Hn | exact Hs].
Defined.

(* ================================================================== *)
(** ** The application: screens, finish and reset *)

Section Application.

Context {Backend : Type}.
Variable generateContent :
  Request -> Backend -> Settled GenerateContentResponse * Backend.
Variable JSON_parse_note : string -> Settled NoteResult.
Variable JSON_parse_validation : string -> Settled ValidationResult.
Variable JSON_parse_report : string -> Settled FieldReport.

Local Abbreviation astep :=
  (appStep generateContent JSON_parse_note JSON_parse_validation JSON_parse_report).
Local Abbreviation aruns :=
  (appRun generateContent JSON_parse_note JSON_parse_validation JSON_parse_report).
Local Abbreviation step := (dispatch generateContent JSON_parse_note JSON_parse_validation).

(** A gateway call never calls [onBack]. *)
Lemma guarded_backs {T : Type} req noText (parse : string -> Settled T)
    (w : World Backend) :
  backs (log (snd (guarded generateContent req noText parse w))) = backs (log w).
Proof.
  destruct (guarded_trace generateContent req noText parse w) as (n & _ & Hlog).
  rewrite Hlog, backs_app.
  destruct (backoff_trace_effects req n 0) as (Hb & _). rewrite Hb. lia.
Qed.

(** X20.  The Finish button: while a required category is not [complete]
    it does nothing, not even a backend call.  Otherwise one report request
    is made; when it resolves, the report on screen is the very value parsed
    from the reply; when it rejects, one of the three user messages is
    alerted and the view and any earlier report stay.  In no case does
    finishing change the job state. *)
Theorem finish_button (st : AppState) (w : World Backend) :
  (allComplete (app_jobState st) = false ->
   clickFinish generateContent JSON_parse_report st w = (st, w))
  /\ (allComplete (app_jobState st) = true ->
      forall report w1,
        generateFinalJobReport generateContent JSON_parse_report (app_jobState st) w
        = (Resolved report, w1) ->
        let st' := fst (clickFinish generateContent JSON_parse_report st w) in
        render st' = ScreenReport report
        /\ snd (clickFinish generateContent JSON_parse_report st w) = w1)
  /\ (allComplete (app_jobState st) = true ->
      forall e w1,
        generateFinalJobReport generateContent JSON_parse_report (app_jobState st) w
        = (Rejected e, w1) ->
        let st' := fst (clickFinish generateContent JSON_parse_report st w) in
        app_view st' = app_view st
        /\ app_finalReport st' = app_finalReport st
        /\ exists m, In m userMessages
             /\ snd (clickFinish generateContent JSON_parse_report st w)
                = emit (Alert m) w1)
  /\ app_jobState (fst (clickFinish generateContent JSON_parse_report st w))
     = app_jobState st.
Proof.
  unfold clickFinish.
  split; [intros ->; reflexivity|].
  split; [|split].
  - intros -> report w1 H. cbv zeta. simpl. unfold handleFinishJob.
    rewrite H. split; reflexivity.
  - intros -> e w1 H. cbv zeta. simpl. unfold handleFinishJob.
    rewrite H. simpl. repeat split.
    destruct (guarded_rejection _ _ _ _ _ _ _ H) as (m & Hm & ->).
    exists m. split; [exact Hm|]. now rewrite userMessage_shown.
  - destruct (allComplete (app_jobState st)); simpl; [|reflexivity].
    unfold handleFinishJob.
    destruct (generateFinalJobReport _ _ _ w) as [[report | e] w1]; reflexivity.
Qed.

(** X21.  Finalize seen from the application, on the view of category [k]
    with the button enabled: a validation that reports the category
    complete marks it [complete] and brings the dashboard back; one that
    reports it incomplete keeps the category view open, now showing the
    missing items of the reply. *)
Theorem finalize_then_screen (st : AppState) (w w1 : World Backend)
    (k : CategoryId) (result : ValidationResult) :
  app_view st = view_category ->
  app_activeCategory st = Some k ->
  cat_id (get_category k (categories (app_jobState st))) = k ->
  finalizeDisabled (get_category k (categories (app_jobState st))) false false = false ->
  validateCategory generateContent JSON_parse_validation k
    (data (get_category k (categories (app_jobState st)))) w = (Resolved result, w1) ->
  let st' := fst (astep EvFinalize (st, w)) in
  let c' := get_category k (categories (app_jobState st')) in
  (isComplete result = true ->
   render st' = ScreenDashboard (app_jobState st')
   /\ status c' = complete /\ missingInfo c' = [])
  /\ (isComplete result = false ->
      render st' = ScreenCategory c'
      /\ missingInfo c' = r_missingInfo result
      /\ status c' = status (get_category k (categories (app_jobState st)))).
Proof.
  intros Ev Ea Hk Hd Hv. cbv zeta.
  unfold appStep, render. rewrite Ev, Ea. unfold clickFinalize. rewrite Hd.
  pose proof (handleFinalize_cases generateContent JSON_parse_validation
                (get_category k (categories (app_jobState st)))
                (app_jobState st) w) as H.
  rewrite Hk in H. rewrite Hv in H.
  pose proof (guarded_backs (ReqValidate k
                (data (get_category k (categories (app_jobState st)))))
                "Validation failed" JSON_parse_validation w) as Hb.
  change (guarded generateContent (ReqValidate k
            (data (get_category k (categories (app_jobState st)))))
            "Validation failed" JSON_parse_validation w)
    with (validateCategory generateContent JSON_parse_validation k
            (data (get_category k (categories (app_jobState st)))) w) in Hb.
  rewrite Hv in Hb. simpl in Hb.
  split; intro Hc; rewrite Hc in H; rewrite H.
  - unfold emit. simpl log. rewrite backs_app, Hb.
    replace (backs (log w) <? backs (log w) + backs [OnBack])%nat with true
      by (symmetry; apply Nat.ltb_lt; unfold backs; simpl; lia).
    cbn [fst]. simpl app_view. cbv iota. simpl app_jobState.
    rewrite update_same. repeat split.
  - rewrite Hb, Nat.ltb_irrefl. cbn [fst]. simpl app_view. simpl app_activeCategory.
    simpl app_jobState. rewrite Ev, Ea, !update_same. repeat split.
Qed.

(** X22.  New Session: from the report the application returns to the
    dashboard of the initial job state, with the report discarded; every
    category is [not_started] again and the Finish button does nothing. *)
Theorem new_session_resets (st : AppState) (w : World Backend)
    (report : FieldReport) :
  render st = ScreenReport report ->
  let st' := fst (astep EvNewSession (st, w)) in
  render st' = ScreenDashboard INITIAL_JOB_STATE
  /\ app_finalReport st' = None
  /\ snd (astep EvNewSession (st, w)) = w
  /\ astep EvFinish (st', w) = (st', w).
Proof.
  intro Hr. cbv zeta. unfold appStep. rewrite Hr. cbn [fst snd].
  repeat split.
Qed.

(** X23.  A card of the dashboard opens the view of its own category: on a
    job state whose entries carry their own key, tapping the card of entry
    [k] shows the current state of category [k], and Back then shows the
    dashboard with the job state untouched. *)
Theorem card_opens_its_category (st : AppState) (w : World Backend)
    (k : CategoryId) :
  app_view st = view_dashboard ->
  keys_consistent (app_jobState st) ->
  let opened := astep (EvCard k) (st, w) in
  render (fst opened)
  = ScreenCategory (get_category k (categories (app_jobState st)))
  /\ snd opened = w
  /\ render (fst (astep EvBack opened)) = ScreenDashboard (app_jobState st).
Proof.
  intros Ev Hk. cbv zeta. unfold appStep, render. rewrite Ev.
  unfold clickCard. rewrite (Hk k). cbn. repeat split.
Qed.

End Application.

(** The whole scripted session ends on the report parsed from the last reply. *)
Example session_reaches_report :
  render (fst (StubApp.appRun StubApp.session
                 (initialApp, Stub.world StubApp.sessionScript)))
  = ScreenReport
      (mkFieldReport (JStr "Final report") JNull JNull JNull JNull JNull JNull JNull).
Proof. vm_compute. reflexivity. Qed.

(** A run of X20: the button disabled on the initial state, and a report
    produced on the ready one. *)
Lemma finish_button_witness :
  clickFinish Stub.generateContent Stub.JSON_parse_report initialApp
    (Stub.world [Stub.says "Final report"])
  = (initialApp, Stub.world [Stub.says "Final report"])
  /\ render (fst (clickFinish Stub.generateContent Stub.JSON_parse_report
                    StubApp.readyToFinish (Stub.world [Stub.says "Final report"])))
     = ScreenReport
         (mkFieldReport (JStr "Final report") JNull JNull JNull JNull JNull JNull JNull).
Proof.
  split.
  - destruct (finish_button Stub.generateContent Stub.JSON_parse_report initialApp
                (Stub.world [Stub.says "Final report"])) as (H & _).
    apply H. reflexivity.
  - destruct (finish_button Stub.generateContent Stub.JSON_parse_report
                StubApp.readyToFinish (Stub.world [Stub.says "Final report"]))
      as (_ & H & _).
    destruct (H ltac:(vm_compute; reflexivity)
                (mkFieldReport (JStr "Final report") JNull JNull JNull JNull JNull JNull JNull)
                (mkWorld []
                   [Call (ReqReport (categories Stub.allRequiredComplete) "None")])
                ltac:(vm_compute; reflexivity)) as [Hr _].
    exact Hr.
Defined.

(** A run of X21: [finds] with one note, validated as complete. *)
Lemma finalize_then_screen_witness :
  let st' := fst (StubApp.appStep EvFinalize
                    (StubApp.viewingFinds, Stub.world [Stub.says "ok"])) in
  render st' = ScreenDashboard (app_jobState st')
  /\ status (get_category finds (categories (app_jobState st'))) = complete.
Proof.
  cbv zeta.
  destruct (finalize_then_screen
              Stub.generateContent Stub.JSON_parse_note Stub.JSON_parse_validation
              Stub.JSON_parse_report StubApp.viewingFinds
              (Stub.world [Stub.says "ok"])
              (mkWorld [] [Call (ReqValidate finds (data Stub.oneNote))])
              finds {| isComplete := true; r_missingInfo := [] |}
              eq_refl eq_refl eq_refl eq_refl eq_refl) as [H _].
  destruct (H eq_refl) as (Hr & Hs & _).
  split; [exact Hr | exact Hs].
Defined.

(** A run of X22: New Session at the end of the scripted session. *)
Lemma new_session_resets_witness :
  render
    (fst (StubApp.appStep EvNewSession
            (StubApp.appRun StubApp.session
               (initialApp, Stub.world StubApp.sessionScript))))
  = ScreenDashboard INITIAL_JOB_STATE.
Proof.
  destruct (new_session_resets
              Stub.generateContent Stub.JSON_parse_note Stub.JSON_parse_validation
              Stub.JSON_parse_report
              (fst (StubApp.appRun StubApp.session
                      (initialApp, Stub.world StubApp.sessionScript)))
              (snd (StubApp.appRun StubApp.session
                      (initialApp, Stub.world StubApp.sessionScript)))
              (mkFieldReport (JStr "Final report") JNull JNull JNull JNull JNull JNull JNull)
              ltac:(vm_compute; reflexivity)) as (H & _).
  rewrite <- surjective_pairing in H. exact H.
Defined.

(** A run of X23: the card of [finds] on the initial dashboard. *)
Lemma card_opens_its_category_witness :
  render (fst (StubApp.appStep (EvCard finds) (initialApp, Stub.world [])))
  = ScreenCategory (get_category finds (categories INITIAL_JOB_STATE)).
Proof.
  destruct (card_opens_its_category
              Stub.generateContent Stub.JSON_parse_note Stub.JSON_parse_validation
              Stub.JSON_parse_report initialApp (Stub.world []) finds
              eq_refl initial_keys) as (H & _).
  exact H.
Defined.

(* ================================================================== *)
(** ** Sessions: calls that settle in any order *)

Lemma in_remove_nth {A : Type} (l : list A) : forall n p x,
  nth_error l n = Some p -> In x l -> x <> p -> In x (remove_nth n l).
Proof.
  unfold remove_nth.
  induction l as [|a l IH]; intros n p x Hn Hin Hne; [destruct Hin|].
  destruct n as [|n]; simpl in *.
  - injection Hn as ->. destruct Hin as [-> | Hin]; [congruence | exact Hin].
  - destruct Hin as [-> | Hin]; [now left | right].
    eapply IH; eassumption.
Qed.

Lemma last_In {A : Type} (d : A) : forall l : list A, l <> [] -> In (last l d) l.
Proof.
  induction l as [|a l IH]; intro H; [congruence|].
  destruct l as [|b l]; [now left | right]. apply IH. discriminate.
Qed.

Lemma backoff_trace_entries req n : forall i e,
  In e (backoff_trace req i n) -> e = Call req \/ exists ms, e = Sleep ms.
Proof.
  induction n as [|n IH]; intros i e H; [destruct H|].
  destruct n as [|n].
  - destruct H as [<- | []]. now left.
  - change (backoff_trace req i (S (S n)))
      with (Call req :: Sleep (1000 * 2 ^ Z.of_nat i) :: backoff_trace req (S i) (S n))
      in H.
    destruct H as [<- | [<- | H]]; [now left | right; eauto | eapply IH; exact H].
Qed.

Section Sessions.

Context {Backend : Type}.
Variable generateContent :
  Request -> Backend -> Settled GenerateContentResponse * Backend.
Variable JSON_parse_note : string -> Settled NoteResult.
Variable JSON_parse_validation : string -> Settled ValidationResult.
Variable JSON_parse_report : string -> Settled FieldReport.

Local Abbreviation sstep :=
  (sessionStep generateContent JSON_parse_note JSON_parse_validation JSON_parse_report).
Local Abbreviation sruns :=
  (sessionRun generateContent JSON_parse_note JSON_parse_validation JSON_parse_report).
Local Abbreviation astep' :=
  (appStep generateContent JSON_parse_note JSON_parse_validation JSON_parse_report).

(** The two halves of a handler, put together again, are the handler. *)
Lemma handleTextSubmit_halves category textInput now_id now_ts jobState
    (w : World Backend) :
  handleTextSubmit generateContent JSON_parse_note category textInput
    now_id now_ts jobState w
  = if blank textInput then (jobState, w)
    else
      let (r, w1) :=
        processTextNote generateContent JSON_parse_note textInput
          (cat_id category) (map text (notes category)) (data category) w in
      settleNote false category now_id now_ts r jobState w1.
Proof.
  unfold handleTextSubmit, settleNote. destruct (blank textInput); [reflexivity|].
  destruct (processTextNote _ _ _ _ _ _ w) as [[r | e] w1]; reflexivity.
Qed.

Lemma handleAudioProcess_halves category base64 mimeType now_id now_ts jobState
    (w : World Backend) :
  handleAudioProcess generateContent JSON_parse_note category base64 mimeType
    now_id now_ts jobState w
  = match base64 with
    | Rejected e => settleNote true category now_id now_ts (Rejected e) jobState w
    | Resolved b =>
        let (r, w1) :=
          processVoiceNote generateContent JSON_parse_note b mimeType
            (cat_id category) (map text (notes category)) (data category) w in
        settleNote true category now_id now_ts r jobState w1
    end.
Proof.
  unfold handleAudioProcess, settleNote. destruct base64 as [b | e]; [|reflexivity].
  destruct (processVoiceNote _ _ _ _ _ _ _ w) as [[r | e] w1]; reflexivity.
Qed.

Lemma handleFinalize_halves category jobState (w : World Backend) :
  handleFinalize generateContent JSON_parse_validation category jobState w
  = let (r, w1) :=
      validateCategory generateContent JSON_parse_validation
        (cat_id category) (data category) w in
    settleValidation category r jobState w1.
Proof.
  unfold handleFinalize, settleValidation.
  destruct (validateCategory _ _ _ _ w) as [[r | e] w1]; reflexivity.
Qed.

(** [appStep] is the schedule of [sessionStep] in which the call an event
    starts settles at once: from a session with nothing in flight, the event
    followed by the settlement of the first pending call does what [appStep]
    does, and leaves nothing in flight. *)
Lemma appStep_is_a_schedule ev (s : Session) (w : World Backend) :
  s_pending s = [] -> s_isProcessing s = false -> s_isValidating s = false ->
  let sw := sstep (Settle 0 (fst (clockOf ev)) (snd (clockOf ev)))
              (sstep (User ev) (s, w)) in
  (s_app (fst sw), snd sw) = astep' ev (s_app s, w)
  /\ s_pending (fst sw) = [].
Proof.
  destruct s as [app proc val inst pend]. simpl. intros -> -> ->.
  unfold sessionStep, appStep. cbn [s_app s_pending s_isProcessing s_isValidating].
  destruct (render app) as [js | category | report |] eqn:Er.
  - destruct ev; try (split; reflexivity).
    unfold clickFinish. destruct (negb (allComplete _)); [split; reflexivity|].
    unfold handleFinishJob.
    destruct (generateFinalJobReport _ _ _ w) as [r w1]. simpl.
    destruct (settleFinishJob r (beginFinishJob app) w1) as [a w2].
    split; reflexivity.
  - destruct ev; try (split; reflexivity).
    + rewrite handleAudioProcess_halves.
      destruct (blobToBase64 readAsDataURL) as [b | e0].
      * destruct (processVoiceNote _ _ _ _ _ _ _ w) as [r w1]. simpl.
        destruct (settleNote _ _ _ _ _ _ w1) as [j w2]. split; reflexivity.
      * split; reflexivity.
    + rewrite handleTextSubmit_halves. destruct (blank textInput).
      * destruct app; split; reflexivity.
      * destruct (processTextNote _ _ _ _ _ _ w) as [r w1]. simpl.
        destruct (settleNote _ _ _ _ _ _ w1) as [j w2]. split; reflexivity.
    + unfold clickFinalize.
      destruct (finalizeDisabled category false false).
      * simpl. rewrite Nat.ltb_irrefl. destruct app; split; reflexivity.
      * rewrite handleFinalize_halves.
        pose proof (guarded_backs generateContent
                      (ReqValidate (cat_id category) (data category))
                      "Validation failed" JSON_parse_validation w) as Hb.
        change (guarded generateContent (ReqValidate ?c ?d)
                  "Validation failed" JSON_parse_validation w)
          with (validateCategory generateContent JSON_parse_validation c d w) in Hb.
        destruct (validateCategory _ _ _ _ w) as [r w1]. simpl in Hb |- *.
        rewrite Hb.
        destruct (settleValidation _ _ _ w1) as [j w2]. split; reflexivity.
  - destruct ev; split; reflexivity.
  - destruct ev; split; reflexivity.
Qed.
Lemma sessionRun_cons e events (sw : Session * World Backend) :
  sruns (e :: events) sw = sruns events (sstep e sw).
Proof. reflexivity. Qed.

Lemma sessionRun_invariant (P : Session * World Backend -> Prop) :
  (forall e sw, P sw -> P (sstep e sw)) ->
  forall events sw, P sw -> P (sruns events sw).
Proof.
  intros Hstep events. induction events as [|e events IH]; intros sw H; [exact H|].
  rewrite sessionRun_cons. apply IH. now apply Hstep.
Qed.

Lemma screen_invariant_step e (s : Session) (w : World Backend) :
  screen_invariant s -> screen_invariant (fst (sstep e (s, w))).
Proof.
  intro Hinv.
  unfold sessionStep.
  destruct e as [ev | n now_id now_ts].
  - (* a user event *)
    unfold render.
    destruct (app_view (s_app s)) eqn:Ev.
    + pose proof Hinv as (Hc & Hr & Hg).
      destruct ev; try exact Hinv.
      * (* a card *)
        split; [|split]; simpl; [intros _; discriminate | intro H; discriminate H | exact Hg].
      * (* finish *)
        destruct (allComplete (app_jobState (s_app s))); simpl; [|exact Hinv].
        destruct (generateFinalJobReport _ _ _ w) as [r w1]. cbn [fst].
        split; [|split]; simpl; rewrite ?Ev;
          [intro H; discriminate H | intro H; discriminate H |].
        intros _. exists r. apply in_or_app. right. now left.
    + destruct (app_activeCategory (s_app s)) as [k|] eqn:Ea; [|exact Hinv].
      pose proof Hinv as (Hc & Hr & Hg).
      destruct ev; try exact Hinv.
      * (* back *)
        split; [|split]; simpl; [intro H; discriminate H | intro H; discriminate H | exact Hg].
      * (* voice *)
        destruct (s_isProcessing s); [exact Hinv|].
        destruct (blobToBase64 readAsDataURL) as [b | e0].
        -- destruct (processVoiceNote _ _ _ _ _ _ _ w) as [r w1]. cbn [fst].
           split; [|split]; simpl; [exact Hc | exact Hr |].
           intro H. destruct (Hg H) as (r0 & Hin). exists r0.
           apply in_or_app. now left.
        -- cbn [fst]. split; [|split]; simpl; [exact Hc | exact Hr |].
           intro H. destruct (Hg H) as (r0 & Hin). exists r0.
           apply in_or_app. now left.
      * (* text *)
        destruct (blank textInput); [exact Hinv|].
        destruct (processTextNote _ _ _ _ _ _ w) as [r w1]. cbn [fst].
        split; [|split]; simpl; [exact Hc | exact Hr |].
        intro H. destruct (Hg H) as (r0 & Hin). exists r0.
        apply in_or_app. now left.
      * (* finalize *)
        destruct (finalizeDisabled _ _ _); [exact Hinv|].
        destruct (validateCategory _ _ _ _ w) as [r w1]. cbn [fst].
        split; [|split]; simpl; [exact Hc | exact Hr |].
        intro H. destruct (Hg H) as (r0 & Hin). exists r0.
        apply in_or_app. now left.
    + destruct (app_finalReport (s_app s)) as [report|] eqn:Ef; [|exact Hinv].
      pose proof Hinv as (Hc & Hr & Hg).
      destruct ev; try exact Hinv.
      split; [|split]; simpl; [intro H; discriminate H | intro H; discriminate H | exact Hg].
  - (* a call settles *)
    destruct (nth_error (s_pending s) n) as [p|] eqn:En; [|exact Hinv].
    pose proof Hinv as (Hc & Hr & Hg).
    assert (Hrest : forall r, In (PendingReport r) (s_pending s) ->
              PendingReport r <> p -> In (PendingReport r) (remove_nth n (s_pending s))).
    { intros r Hin Hne. eapply in_remove_nth; eassumption. }
    destruct p as [voice category instance r | category instance r | r].
    + destruct (settleNote _ _ _ _ _ _ w) as [js w1]. cbn [fst].
      split; [|split]; simpl; [exact Hc | exact Hr |].
      intro H. destruct (Hg H) as (r0 & Hin). exists r0.
      apply Hrest; [exact Hin | discriminate].
    + destruct (settleValidation _ _ _ w) as [js w1]. cbn [fst].
      destruct (backs (log w) <? backs (log w1))%nat;
        (split; [|split]); simpl;
        try exact Hc; try exact Hr; try (intro H; discriminate H);
        intro H; destruct (Hg H) as (r0 & Hin); exists r0;
        (apply Hrest; [exact Hin | discriminate]).
    + unfold settleFinishJob. destruct r as [report | e0]; cbn [fst];
        (split; [|split]); simpl;
        try exact Hc; try exact Hr; try (intro H; discriminate H);
        intros _; discriminate.
Qed.

(** X18.  Whatever the user does from the start of a session, and in
    whatever order the calls in flight settle, the application never shows
    an empty page: the category view always has its category and the report
    view always has its report; and the "generating" flag is up only while a
    report request is in flight. *)
Theorem screen_never_blank (events : list SessionEvent) (w : World Backend) :
  let s := fst (sruns events (initialSession, w)) in
  render (s_app s) <> ScreenBlank
  /\ (app_isGeneratingReport (s_app s) = true ->
      exists r, In (PendingReport r) (s_pending s)).
Proof.
  cbv zeta.
  assert (H : screen_invariant (fst (sruns events (initialSession, w)))).
  { apply (sessionRun_invariant (fun sw => screen_invariant (fst sw))).
    - intros e [s w0]. apply screen_invariant_step.
    - split; [|split]; simpl; intro H; discriminate H. }
  destruct H as (Hc & Hr & Hg). split; [|exact Hg].
  unfold render.
  destruct (app_view _) eqn:Ev; [discriminate| |].
  - destruct (app_activeCategory _) eqn:Ea; [discriminate|].
    now destruct (Hc eq_refl).
  - destruct (app_finalReport _) eqn:Ef; [discriminate|].
    now destruct (Hr eq_refl).
Qed.

(** What a gateway call adds to the log is no report request, unless the
    call is for a report. *)
Lemma guarded_log_reports {T : Type} req noText (parse : string -> Settled T)
    (w : World Backend) :
  report_of_complete_job (Call req) ->
  Forall report_of_complete_job (log w) ->
  Forall report_of_complete_job
    (log (snd (guarded generateContent req noText parse w))).
Proof.
  intros Hreq Hlog.
  destruct (guarded_trace generateContent req noText parse w) as (n & _ & ->).
  apply Forall_app. split; [exact Hlog|].
  apply Forall_forall. intros e He.
  destruct (backoff_trace_entries _ _ _ _ He) as [-> | (ms & ->)];
    [exact Hreq | intros cats nts H; discriminate H].
Qed.

Lemma emit_keeps_reports e (w : World Backend) :
  (forall req, e <> Call req) ->
  Forall report_of_complete_job (log w) ->
  Forall report_of_complete_job (log (emit e w)).
Proof.
  intros He Hlog. unfold emit. simpl. apply Forall_app. split; [exact Hlog|].
  constructor; [|constructor]. intros cats nts H. now apply He in H.
Qed.

Lemma reports_invariant_step e (s : Session) (w : World Backend) :
  keys_consistent (app_jobState (s_app s))
  /\ Forall report_of_complete_job (log w) ->
  keys_consistent (app_jobState (s_app (fst (sstep e (s, w)))))
  /\ Forall report_of_complete_job (log (snd (sstep e (s, w)))).
Proof.
  intros [Hk Hlog].
  assert (Hinv : keys_consistent (app_jobState (s_app s))
                 /\ Forall report_of_complete_job (log w)) by (split; assumption).
  assert (Hnote : forall req, (forall cats nts, req <> ReqReport cats nts) ->
            report_of_complete_job (Call req)).
  { intros req Hreq cats nts H. injection H as ->. now destruct (Hreq cats nts). }
  unfold sessionStep.
  destruct e as [ev | n now_id now_ts].
  - unfold render.
    destruct (app_view (s_app s)) eqn:Ev.
    + destruct ev; try exact Hinv.
      * (* finish *)
        destruct (allComplete (app_jobState (s_app s))) eqn:Eall; simpl; [|exact Hinv].
        pose proof (guarded_log_reports
                      (ReqReport (categories (app_jobState (s_app s)))
                         (additionalNotes (app_jobState (s_app s))))
                      "Report generation failed" JSON_parse_report w) as Hg.
        change (guarded generateContent
                  (ReqReport (categories (app_jobState (s_app s)))
                     (additionalNotes (app_jobState (s_app s))))
                  "Report generation failed" JSON_parse_report w)
          with (generateFinalJobReport generateContent JSON_parse_report
                  (app_jobState (s_app s)) w) in Hg.
        destruct (generateFinalJobReport _ _ _ w) as [r w1]. cbn [fst snd] in *.
        split; [exact Hk|]. apply Hg; [|exact Hlog].
        intros cats nts H k Hne. injection H as <- _.
        unfold allComplete in Eall.
        apply (required_forall _ _ Hk) with (k := k) in Eall; [|exact Hne].
        now apply CategoryStatus_eqb_eq.
    + destruct (app_activeCategory (s_app s)) as [k|] eqn:Ea; [|exact Hinv].
      destruct ev; try exact Hinv.
      * (* voice *)
        destruct (s_isProcessing s); [exact Hinv|].
        destruct (blobToBase64 readAsDataURL) as [b | e0]; [|exact Hinv].
        pose proof (guarded_log_reports
                      (ReqVoice b mimeType
                         (cat_id (get_category k (categories (app_jobState (s_app s)))))
                         (data (get_category k (categories (app_jobState (s_app s))))))
                      "No response from AI" JSON_parse_note w) as Hg.
        change (guarded generateContent (ReqVoice b mimeType ?c ?d)
                  "No response from AI" JSON_parse_note w)
          with (processVoiceNote generateContent JSON_parse_note b mimeType c
                  (map text (notes (get_category k (categories (app_jobState (s_app s))))))
                  d w) in Hg.
        destruct (processVoiceNote _ _ _ _ _ _ _ w) as [r w1]. cbn [fst snd] in *.
        split; [exact Hk|]. apply Hg; [|exact Hlog].
        apply Hnote. intros cats nts H; discriminate H.
      * (* text *)
        destruct (blank textInput); [exact Hinv|].
        pose proof (guarded_log_reports
                      (ReqText textInput
                         (cat_id (get_category k (categories (app_jobState (s_app s)))))
                         (data (get_category k (categories (app_jobState (s_app s))))))
                      "No response from AI" JSON_parse_note w) as Hg.
        change (guarded generateContent (ReqText textInput ?c ?d)
                  "No response from AI" JSON_parse_note w)
          with (processTextNote generateContent JSON_parse_note textInput c
                  (map text (notes (get_category k (categories (app_jobState (s_app s))))))
                  d w) in Hg.
        destruct (processTextNote _ _ _ _ _ _ w) as [r w1]. cbn [fst snd] in *.
        split; [exact Hk|]. apply Hg; [|exact Hlog].
        apply Hnote. intros cats nts H; discriminate H.
      * (* delete *)
        cbn [fst snd]. split; [|exact Hlog]. simpl.
        unfold handleDeleteNote. destruct confirmed; [|exact Hk].
        apply update_keeps_keys; [exact Hk | right; reflexivity].
      * (* finalize *)
        destruct (finalizeDisabled _ _ _); [exact Hinv|].
        pose proof (guarded_log_reports
                      (ReqValidate
                         (cat_id (get_category k (categories (app_jobState (s_app s)))))
                         (data (get_category k (categories (app_jobState (s_app s))))))
                      "Validation failed" JSON_parse_validation w) as Hg.
        change (guarded generateContent (ReqValidate ?c ?d)
                  "Validation failed" JSON_parse_validation w)
          with (validateCategory generateContent JSON_parse_validation c d w) in Hg.
        destruct (validateCategory _ _ _ _ w) as [r w1]. cbn [fst snd] in *.
        split; [exact Hk|]. apply Hg; [|exact Hlog].
        apply Hnote. intros cats nts H; discriminate H.
    + destruct (app_finalReport (s_app s)) as [report|] eqn:Ef; [|exact Hinv].
      destruct ev; try exact Hinv.
      cbn [fst snd]. split; [apply initial_keys | exact Hlog].
  - destruct (nth_error (s_pending s) n) as [p|] eqn:En; [|exact Hinv].
    destruct p as [voice category instance r | category instance r | r].
    + unfold settleNote.
      destruct r as [result | e0];
        [destruct (voice && (transcript result =? "NO_SPEECH_DETECTED")%string)|];
        cbn [fst snd]; simpl app_jobState;
        (split;
         [first [exact Hk | unfold addNote; apply update_keeps_keys; [exact Hk | now left]]
         |first [exact Hlog
                | apply emit_keeps_reports; [intros req H; discriminate H | exact Hlog]]]).
    + unfold settleValidation.
      destruct r as [result | e0]; [destruct (isComplete result)|];
        cbn [fst snd];
        match goal with
        | |- context [if ?b then _ else _] => destruct b
        | _ => idtac
        end;
        simpl app_jobState;
        (split;
         [first [exact Hk | apply update_keeps_keys; [exact Hk | now left]]
         |first [exact Hlog
                | apply emit_keeps_reports; [intros req H; discriminate H | exact Hlog]]]).
    + unfold settleFinishJob. destruct r as [report | e0]; cbn [fst snd]; simpl app_jobState;
        (split; [exact Hk|]);
        first [exact Hlog
              | apply emit_keeps_reports; [intros req H; discriminate H | exact Hlog]].
Qed.

(** X19.  In every session, whatever the order in which the calls in flight
    settle, every report request sent to the backend carries a job state
    whose seven required categories are complete.  (The report itself can
    still come on screen after a category was reopened by a note whose call
    settled in between: see [report_can_overtake_a_note].) *)
Theorem report_requests_carry_complete_jobs (events : list SessionEvent)
    (backend0 : Backend) (cats : Categories) (notesText : string) (k : CategoryId) :
  In (Call (ReqReport cats notesText))
     (log (snd (sruns events (initialSession, mkWorld backend0 [])))) ->
  k <> additional_notes ->
  status (get_category k cats) = complete.
Proof.
  intros Hin Hk.
  assert (H : keys_consistent
                (app_jobState (s_app (fst (sruns events (initialSession, mkWorld backend0 [])))))
              /\ Forall report_of_complete_job
                   (log (snd (sruns events (initialSession, mkWorld backend0 []))))).
  { apply (sessionRun_invariant
             (fun sw => keys_consistent (app_jobState (s_app (fst sw)))
                        /\ Forall report_of_complete_job (log (snd sw)))).
    - intros e [s w0]. apply reports_invariant_step.
    - split; [apply initial_keys | constructor]. }
  destruct H as [_ H]. rewrite Forall_forall in H.
  exact (H _ Hin cats notesText eq_refl k Hk).
Qed.

End Sessions.

(** A run of X18: when only the report is still awaited, the flag is up,
    the page is not empty and the report request is in flight. *)
Lemma screen_never_blank_witness :
  app_isGeneratingReport
    (s_app (fst (sessionRun Stub.generateContent Stub.JSON_parse_note
                   Stub.JSON_parse_validation Stub.JSON_parse_report
                   StubApp.generatingSession
                   (initialSession, mkWorld StubApp.overtakenScript [])))) = true
  /\ render
       (s_app (fst (sessionRun Stub.generateContent Stub.JSON_parse_note
                      Stub.JSON_parse_validation Stub.JSON_parse_report
                      StubApp.generatingSession
                      (initialSession, mkWorld StubApp.overtakenScript []))))
     <> ScreenBlank
  /\ exists r,
       In (PendingReport r)
          (s_pending
             (fst (sessionRun Stub.generateContent Stub.JSON_parse_note
                     Stub.JSON_parse_validation Stub.JSON_parse_report
                     StubApp.generatingSession
                     (initialSession, mkWorld StubApp.overtakenScript [])))).
Proof.
  pose proof (screen_never_blank Stub.generateContent Stub.JSON_parse_note
                Stub.JSON_parse_validation Stub.JSON_parse_report
                StubApp.generatingSession
                (mkWorld StubApp.overtakenScript [])) as H.
  cbv zeta in H. destruct H as [Hscreen Hflag].
  assert (Hup : app_isGeneratingReport
                  (s_app (fst (sessionRun Stub.generateContent Stub.JSON_parse_note
                                 Stub.JSON_parse_validation Stub.JSON_parse_report
                                 StubApp.generatingSession
                                 (initialSession, mkWorld StubApp.overtakenScript []))))
                = true).
  { vm_compute. reflexivity. }
  split; [exact Hup | split; [exact Hscreen | exact (Hflag Hup)]].
Defined.

(** The schedule in which the report overtakes a note: at the end the
    report is on screen and [finds], reopened by the second note, is in
    progress. *)
Example report_can_overtake_a_note :
  let s := fst (StubApp.sessionRun StubApp.overtakenSession
                  (initialSession, Stub.world StubApp.overtakenScript)) in
  render (s_app s)
  = ScreenReport
      (mkFieldReport (JStr "Final report") JNull JNull JNull JNull JNull JNull JNull)
  /\ status (get_category finds (categories (app_jobState (s_app s)))) = in_progress
  /\ List.length (notes (get_category finds (categories (app_jobState (s_app s))))) = 2%nat.
Proof. vm_compute. repeat split. Qed.

(** A run of X19: the report request of that same session was sent with
    [finds] complete. *)
Lemma report_requests_carry_complete_jobs_witness :
  exists cats notesText,
    In (Call (ReqReport cats notesText))
       (log (snd (sessionRun Stub.generateContent Stub.JSON_parse_note
                    Stub.JSON_parse_validation Stub.JSON_parse_report
                    StubApp.overtakenSession
                    (initialSession, mkWorld StubApp.overtakenScript []))))
    /\ status (get_category finds cats) = complete.
Proof.
  assert (Hlast : exists cats notesText,
            last (log (snd (sessionRun Stub.generateContent Stub.JSON_parse_note
                              Stub.JSON_parse_validation Stub.JSON_parse_report
                              StubApp.overtakenSession
                              (initialSession, mkWorld StubApp.overtakenScript []))))
                 OnBack
            = Call (ReqReport cats notesText)).
  { vm_compute. eexists. eexists. reflexivity. }
  destruct Hlast as (cats & notesText & Hlast).
  exists cats, notesText.
  assert (Hne : log (snd (sessionRun Stub.generateContent Stub.JSON_parse_note
                            Stub.JSON_parse_validation Stub.JSON_parse_report
                            StubApp.overtakenSession
                            (initialSession, mkWorld StubApp.overtakenScript [])))
                <> []).
  { vm_compute. discriminate. }
  pose proof (last_In OnBack _ Hne) as Hin.
  rewrite Hlast in Hin.
  split; [exact Hin|].
  apply (report_requests_carry_complete_jobs _ _ _ _ _ _ _ _ finds Hin).
  discriminate.
Defined.
